(** * The Source Router of the TRON MCP server

    A shallow embedding of the multi-source fallback core of
    [src/index.js] (class [TronMcpServer]), of the account module
    ([modules/account/index.js]), of the energy estimator
    ([energy-estimator.js]) and of the blockchain module (class
    [BlockchainModule]), with the properties the specification states
    about them.

    - [JS]: JavaScript values; objects are association lists in property
      order; a promise that an [async] function returns is modelled by its
      [outcome]: fulfilled with a value, or rejected, in which case the
      outcome carries what [error.message] gives for the thing thrown
      (the message of an error object, with the prefix that [McpError]
      puts before it; [undefined] for a plain string).
    - [Heuristics]: [getFallbackEnergyEstimate] on a function name that
      is a string and parameters that are an array; [Unvalidated]: the
      same function on whatever the request carries.
    - [Router]: [checkNodeAvailability] and [executeWithFallback] as
      state-passing functions on the server object.
    - [Async]: the same two functions cut at their [await]s, for requests
      that are in flight together.
    - [Account], [Resources], [EnergyEstimator], [EstimatorState], [Tools],
      [Trace], [Encoding], [Prices], [Gateway], [Blockchain]: the callers.

    Numbers that stand for amounts of SUN, energy or milliseconds are
    integers.  The balance in TRX is the decimal numeral that
    [tronWeb.fromSun] returns on the node's path and a number on the
    other two, the floating-point operations being parameters.  What the
    language does with a comparison or a product on a value that is not
    a number is a parameter as well ([JS.Runtime]). *)

From Stdlib Require Import String Ascii List ZArith QArith Qabs Lia Lqa Bool.
From Stdlib Require Import DecimalString.
Import ListNotations.

Local Open Scope string_scope.
Local Open Scope Z_scope.

(** ** JavaScript values *)

Module JS.

#[warnings="-register-all"]
Inductive value : Type :=
| VUndefined
| VNull
| VBool (b : bool)
| VNum (n : Z)
| VStr (s : string)
| VArr (items : list value)
| VObj (fields : list (string * value)).

Definition obj : Type := list (string * value).

(** A settled promise / the result of a [try] block.  Of what was thrown
    the code reads [error.message] only, to put it in a template string;
    [Throws] carries the text this gives. *)
Inductive outcome (A : Type) : Type :=
| Returns (a : A)
| Throws (message : string).
Arguments Returns {A} a.
Arguments Throws {A} message.

(** What a rejected promise carries: an [Error] object, or a plain string,
    as the node client rejects with for an argument it does not accept. *)
Inductive thrown : Type :=
| ErrorObject (message : string)
| PlainString (reason : string).

(** [`${e.message}`]: a string has no property [message]. *)
Definition message_of (e : thrown) : string :=
  match e with
  | ErrorObject message => message
  | PlainString _ => "undefined"
  end.

Definition rejected {A} (e : thrown) : outcome A := Throws (message_of e).

(** The message of [new McpError(ErrorCode.InternalError, message)]: the
    constructor of the SDK puts the error code in front of it. *)
Definition McpError (message : string) : string :=
  "MCP error -32603: " ++ message.

(** [ToBoolean]: what [if (v)], [v || d] and [v && w] test. *)
Definition truthy (v : value) : bool :=
  match v with
  | VUndefined | VNull => false
  | VBool b => b
  | VNum n => negb (n =? 0)
  | VStr s => negb (s =? "")%string
  | VArr _ | VObj _ => true
  end.

(** [v === 'literal']. *)
Definition strict_eq_str (v : value) (lit : string) : bool :=
  match v with
  | VStr s => (s =? lit)%string
  | _ => false
  end.

(** [a || b]. *)
Definition js_or (a b : value) : value := if truthy a then a else b.

(** Property read [o.k] on an object; [undefined] when the key is absent. *)
Fixpoint lookup (k : string) (o : obj) : value :=
  match o with
  | [] => VUndefined
  | (k', v) :: rest => if (k' =? k)%string then v else lookup k rest
  end.

(** Property write: an existing key keeps its position, a new key is
    appended, as for the own properties of a JavaScript object whose keys
    are not array indices (those the language lists first, in numeric
    order; none of the keys written below is one). *)
Fixpoint assign (k : string) (v : value) (o : obj) : obj :=
  match o with
  | [] => [(k, v)]
  | (k', v') :: rest =>
      if (k' =? k)%string then (k', v) :: rest else (k', v') :: assign k v rest
  end.

Definition string_of_nat (n : nat) : string :=
  NilEmpty.string_of_uint (Nat.to_uint n).

Fixpoint indexed (i : nat) (l : list value) : obj :=
  match l with
  | [] => []
  | v :: rest => (string_of_nat i, v) :: indexed (S i) rest
  end.

Fixpoint chars (s : string) : list value :=
  match s with
  | EmptyString => []
  | String c rest => VStr (String c EmptyString) :: chars rest
  end.

(** The own enumerable properties that the spread [{ ...v }] copies. *)
Definition own_props (v : value) : obj :=
  match v with
  | VObj fields => fields
  | VArr items => indexed 0 items
  | VStr s => indexed 0 (chars s)
  | _ => []
  end.

(** [{ ...result, source: tag }]. *)
Definition with_source (result : value) (tag : string) : obj :=
  assign "source" (VStr tag) (own_props result).

(** [String.prototype.toLowerCase] on ASCII text (function names and
    addresses are ASCII identifiers). *)
Definition lower_ascii (c : ascii) : ascii :=
  let n := nat_of_ascii c in
  if ((65 <=? n) && (n <=? 90))%nat then ascii_of_nat (n + 32) else c.

Fixpoint toLowerCase (s : string) : string :=
  match s with
  | EmptyString => EmptyString
  | String c rest => String (lower_ascii c) (toLowerCase rest)
  end.

(** [s.includes(sub)]. *)
Fixpoint includes (s sub : string) : bool :=
  String.prefix sub s ||
  match s with
  | EmptyString => false
  | String _ rest => includes rest sub
  end.

(** [s.startsWith(p)]. *)
Definition startsWith (s p : string) : bool := String.prefix p s.

(** [sources.join(', ')]. *)
Fixpoint join (sep : string) (l : list string) : string :=
  match l with
  | [] => ""
  | [x] => x
  | x :: rest => x ++ sep ++ join sep rest
  end.

(** Property access [v.k] on any value, for a key that is neither an
    index nor [length]: a [TypeError] on [undefined] and [null]. *)
Definition prop (v : value) (k : string) : outcome value :=
  match v with
  | VUndefined =>
      Throws ("Cannot read properties of undefined (reading '" ++ k ++ "')")
  | VNull => Throws ("Cannot read properties of null (reading '" ++ k ++ "')")
  | VObj fields => Returns (lookup k fields)
  | _ => Returns VUndefined
  end.

(** Sequencing inside a [try] block: the first throw ends it. *)
Definition and_then {A B} (r : outcome A) (k : A -> outcome B) : outcome B :=
  match r with
  | Returns a => k a
  | Throws message => Throws message
  end.

(** [try { body } catch (e) { handler(e.message) }]. *)
Definition try_catch {A} (body : outcome A) (handler : string -> outcome A) : outcome A :=
  match body with
  | Returns a => Returns a
  | Throws message => handler message
  end.

(** Arithmetic of the language on operands that are not numbers.  It is
    not modelled: every statement below holds whatever it is. *)
Record Runtime : Type := mkRuntime {
  coerced_positive : value -> bool;  (* [v > 0] for a string, an array or an object *)
  scaled_length : value -> value     (* [20000 + (v.length * 5000)] for [v] not an array *)
}.

(** [v > 0]. *)
Definition greater_than_zero (rt : Runtime) (v : value) : bool :=
  match v with
  | VNum n => 0 <? n
  | VBool b => b
  | VUndefined | VNull => false
  | VStr _ | VArr _ | VObj _ => coerced_positive rt v
  end.

(** [v === n] for a number literal [n]. *)
Definition strict_eq_num (v : value) (n : Z) : bool :=
  match v with
  | VNum m => m =? n
  | _ => false
  end.

(** [v.length]. *)
Definition length_of (v : value) : outcome value :=
  match v with
  | VArr items => Returns (VNum (Z.of_nat (List.length items)))
  | VStr s => Returns (VNum (Z.of_nat (String.length s)))
  | VObj fields => Returns (lookup "length" fields)
  | VUndefined => Throws "Cannot read properties of undefined (reading 'length')"
  | VNull => Throws "Cannot read properties of null (reading 'length')"
  | VBool _ | VNum _ => Returns VUndefined
  end.

(** [v[i]]. *)
Definition element (v : value) (i : nat) : outcome value :=
  match v with
  | VArr items => Returns (nth i items VUndefined)
  | VStr s =>
      Returns match String.get i s with
              | Some c => VStr (String c EmptyString)
              | None => VUndefined
              end
  | VObj fields => Returns (lookup (string_of_nat i) fields)
  | VUndefined =>
      Throws ("Cannot read properties of undefined (reading '" ++ string_of_nat i ++ "')")
  | VNull =>
      Throws ("Cannot read properties of null (reading '" ++ string_of_nat i ++ "')")
  | VBool _ | VNum _ => Returns VUndefined
  end.

(** [t] occurs in [s]: the propositional reading of [includes]. *)
Definition contains (s t : string) : Prop :=
  exists pre post, s = pre ++ t ++ post.

End JS.
Import JS.

(** ** Energy/cost estimation heuristics ([TronMcpServer.getFallbackEnergyEstimate]) *)

Module Heuristics.

Definition USDT_CONTRACT : string := "TR7NHqjeKQxGTCi8q8ZY4pL8otSzgjLj6t".
Definition NEW_ADDRESS : string := "TSLbRevWFn3hktZmfDrzRbDLfEA6RQjNwK".
Definition EXISTING_ADDRESS : string := "TAHT3rrriD23a6AXmaM2YJRRvTYusKGVwD".

(** The branch on the recipient inside the USDT [transfer] entry. *)
Definition usdt_transfer (toAddress : value) : Z :=
  if truthy toAddress then
    if strict_eq_str toAddress NEW_ADDRESS then 28000
    else if strict_eq_str toAddress EXISTING_ADDRESS then 13940
    else 13940
  else 13940.

(** The table keyed by the known contract address; [None] when the
    function falls through to the generic patterns. *)
Definition usdt_table (functionLower : string) (toAddress : value) : option Z :=
  if (functionLower =? "transfer")%string then Some (usdt_transfer toAddress)
  else if (functionLower =? "approve")%string then Some 13180
  else if (functionLower =? "transferfrom")%string then Some 18190
  else if (functionLower =? "balanceof")%string then Some 680
  else None.

(** The generic substring patterns, in source order. *)
Definition pattern_table (functionLower : string) : option Z :=
  if includes functionLower "transfer" || includes functionLower "send" then Some 14010
  else if includes functionLower "approve" || includes functionLower "allowance" then Some 10000
  else if includes functionLower "swap" || includes functionLower "exchange" then Some 50000
  else if includes functionLower "mint" || includes functionLower "burn" then Some 30000
  else if includes functionLower "view" || includes functionLower "get"
          || includes functionLower "balance" then Some 1000
  else None.

(** Default estimate based on parameter count. *)
Definition default_estimate (parameters : list value) : Z :=
  20000 + Z.of_nat (List.length parameters) * 5000.

Definition getFallbackEnergyEstimate
    (functionName : string) (parameters : list value)
    (contractAddress : value) (toAddress : value) : Z :=
  let functionLower := toLowerCase functionName in
  match (if strict_eq_str contractAddress USDT_CONTRACT
         then usdt_table functionLower toAddress
         else None) with
  | Some energy => energy
  | None =>
      match pattern_table functionLower with
      | Some energy => energy
      | None => default_estimate parameters
      end
  end.

End Heuristics.

(** ** The heuristic on unvalidated arguments

    The tool handler passes the arguments of a request on as they came:
    [functionName] and [parameters] are whatever the request held. *)

Module Unvalidated.
Import Heuristics.

(** [functionName.toLowerCase()]. *)
Definition lower_case (functionName : value) : outcome string :=
  match functionName with
  | VStr s => Returns (toLowerCase s)
  | VUndefined =>
      Throws "Cannot read properties of undefined (reading 'toLowerCase')"
  | VNull => Throws "Cannot read properties of null (reading 'toLowerCase')"
  | VBool _ | VNum _ | VArr _ | VObj _ =>
      Throws "functionName.toLowerCase is not a function"
  end.

(** [20000 + (parameters.length * 5000)]. *)
Definition default_estimate (rt : Runtime) (parameters : value) : outcome value :=
  match parameters with
  | VArr items => Returns (VNum (Heuristics.default_estimate items))
  | VUndefined => Throws "Cannot read properties of undefined (reading 'length')"
  | VNull => Throws "Cannot read properties of null (reading 'length')"
  | VBool _ | VNum _ | VStr _ | VObj _ => Returns (scaled_length rt parameters)
  end.

Definition getFallbackEnergyEstimate (rt : Runtime)
    (functionName parameters contractAddress toAddress : value) : outcome value :=
  and_then (lower_case functionName) (fun functionLower =>
  match (if strict_eq_str contractAddress USDT_CONTRACT
         then usdt_table functionLower toAddress
         else None) with
  | Some energy => Returns (VNum energy)
  | None =>
      match pattern_table functionLower with
      | Some energy => Returns (VNum energy)
      | None => default_estimate rt parameters
      end
  end).

End Unvalidated.

(** ** The Source Router ([checkNodeAvailability], [executeWithFallback]) *)

Module Router.

Inductive Backend : Type := TronWeb | TronGrid | TronScan.

(** The [source] tag written on a result, and the label that prefixes a
    recorded failure. *)
Definition source_tag (b : Backend) : string :=
  match b with
  | TronWeb => "tronweb_node"
  | TronGrid => "trongrid_api"
  | TronScan => "tronscan_api"
  end.

Definition label (b : Backend) : string :=
  match b with
  | TronWeb => "TronWeb"
  | TronGrid => "TronGrid"
  | TronScan => "TronScan"
  end.

(** A candidate is a zero-argument async function.  The router awaits it
    at most once per call, so it is given by the outcome of that one
    invocation.  No candidate of the repository writes [nodeAvailable]. *)
Definition thunk : Type := outcome value.

(** The [operation] argument: [{ tronweb?, trongrid?, tronscan? }]. *)
Record Operation : Type := mkOperation {
  tronweb : option thunk;
  trongrid : option thunk;
  tronscan : option thunk
}.

(** The part of [this] the router reads and writes, with the list of
    candidate invocations made so far (oldest first), which plays the role
    of call-count instrumentation on the thunks. *)
Record Server : Type := mkServer {
  nodeAvailable : option bool;   (* null = not tested, true, false *)
  invoked : list Backend
}.

Definition initial : Server := mkServer None [].

(** State-passing computations on the server object. *)
Definition M (A : Type) : Type := Server -> A * Server.

Definition ret {A} (a : A) : M A := fun s => (a, s).
Definition bind {A B} (m : M A) (k : A -> M B) : M B :=
  fun s => let (a, s') := m s in k a s'.

Declare Scope router_scope.
Delimit Scope router_scope with router.
Notation "x <- m ;; k" := (bind m (fun x => k))
  (at level 61, m at next level, right associativity) : router_scope.
Notation "m ;;; k" := (bind m (fun _ => k))
  (at level 61, right associativity) : router_scope.
Local Open Scope router_scope.

Definition set_nodeAvailable (b : bool) : M unit :=
  fun s => (tt, mkServer (Some b) (invoked s)).

Definition record_invocation (b : Backend) : M unit :=
  fun s => (tt, mkServer (nodeAvailable s) (app (invoked s) [b])).

(** [checkNodeAvailability()].  [probe] is how
    [await this.tronWeb.trx.getCurrentBlock()] settles: fulfilled after
    [responseTime] milliseconds, or rejected. *)
Definition checkNodeAvailability (probe : outcome Z) : M bool :=
  fun s =>
    match nodeAvailable s with
    | Some cached => (cached, s)
    | None =>
        match probe with
        | Returns responseTime =>
            let available := responseTime <? 5000 in
            (available, mkServer (Some available) (invoked s))
        | Throws _ => (false, mkServer (Some false) (invoked s))
        end
    end.

(** [operation.tronweb()]: the call is not guarded, so a missing candidate
    is a call of [undefined], a [TypeError] with this message. *)
Definition NOT_A_FUNCTION : string := "operation.tronweb is not a function".

Definition call_tronweb (operation : Operation) : M (outcome value) :=
  record_invocation TronWeb ;;;
  ret match tronweb operation with
      | Some t => t
      | None => Throws NOT_A_FUNCTION
      end.

(** [if (operation.x) { try { await operation.x() ... } }]: [None] when
    the candidate is absent and nothing is invoked. *)
Definition attempt (b : Backend) (candidate : option thunk) : M (option (outcome value)) :=
  match candidate with
  | Some t => record_invocation b ;;; ret (Some t)
  | None => ret None
  end.

(** What a failed gateway attempt pushes on [sources]. *)
Definition pushed (b : Backend) (r : option (outcome value)) : list string :=
  match r with
  | Some (Throws message) => [label b ++ ": " ++ message]
  | _ => []
  end.

(** The body of the outer [try] of [executeWithFallback]: the result or
    the error thrown inside it, together with the local array [sources]. *)
Definition attempts (operation : Operation) (operationName : string)
    (probe : outcome Z) : M (outcome obj * list string) :=
  available <- checkNodeAvailability probe ;;
  if negb available then
    (* skip the local node, go directly to TronGrid *)
    g <- attempt TronGrid (trongrid operation) ;;
    match g with
    | Some (Returns result) => ret (Returns (with_source result "trongrid_api"), [])
    | _ =>
        let sources := pushed TronGrid g in
        e <- attempt TronScan (tronscan operation) ;;
        match e with
        | Some (Returns result) =>
            ret (Returns (with_source result "tronscan_api"), sources)
        | Some (Throws tronscanError) =>
            let sources := app sources ["TronScan: " ++ tronscanError] in
            ret (Throws ("All API sources failed for " ++ operationName ++ ": "
                         ++ join ", " sources), sources)
        | None =>
            ret (Throws ("No fallback sources available for " ++ operationName), sources)
        end
    end
  else
    (* try the local TronWeb node first *)
    p <- call_tronweb operation ;;
    match p with
    | Returns result => ret (Returns (with_source result "tronweb_node"), [])
    | Throws nodeError =>
        let sources := ["TronWeb: " ++ nodeError] in
        (* mark node as unavailable after failure *)
        set_nodeAvailable false ;;;
        g <- attempt TronGrid (trongrid operation) ;;
        match g with
        | Some (Returns result) =>
            ret (Returns (with_source result "trongrid_api"), sources)
        | _ =>
            let sources := app sources (pushed TronGrid g) in
            e <- attempt TronScan (tronscan operation) ;;
            match e with
            | Some (Returns result) =>
                ret (Returns (with_source result "tronscan_api"), sources)
            | Some (Throws tronscanError) =>
                let sources := app sources ["TronScan: " ++ tronscanError] in
                ret (Throws ("All sources failed for " ++ operationName ++ ": "
                             ++ join ", " sources), sources)
            | None => ret (Throws nodeError, sources)
            end
        end
    end.

(** The outer [catch]: every error leaves as
    [McpError(InternalError, `${operationName} failed: ${error.message}`)]. *)
Definition mcp_wrap (operationName : string) (r : outcome obj) : outcome obj :=
  match r with
  | Returns o => Returns o
  | Throws message => Throws (McpError (operationName ++ " failed: " ++ message))
  end.

Definition executeWithFallback (operation : Operation) (operationName : string)
    (probe : outcome Z) : M (outcome obj) :=
  r <- attempts operation operationName probe ;;
  ret (mcp_wrap operationName (fst r)).

(** One [execute()] request: the candidate map, the operation name and
    how the availability probe would settle if this call issues it. *)
Record Call : Type := mkCall {
  operation : Operation;
  operationName : string;
  probe : outcome Z
}.

Definition execute (c : Call) : M (outcome obj) :=
  executeWithFallback (operation c) (operationName c) (probe c).

(** Requests served one after another by the same process. *)
Fixpoint serve (calls : list Call) : M (list (outcome obj)) :=
  match calls with
  | [] => ret []
  | c :: rest =>
      r <- execute c ;;
      rs <- serve rest ;;
      ret (r :: rs)
  end.

(** [s'] follows [s] and candidate [b] was not invoked in between. *)
Definition not_invoked (b : Backend) (s s' : Server) : Prop :=
  exists log, invoked s' = app (invoked s) log /\ ~ In b log.

(** [s'] follows [s] and candidate [b] was invoked in between. *)
Definition was_invoked (b : Backend) (s s' : Server) : Prop :=
  exists log, invoked s' = app (invoked s) log /\ In b log.

(** The outcome of a call whose explorer candidate can only fail with
    [readonly]: answered by the node or the gateway without the explorer
    being invoked, or failed after the explorer was invoked, with
    [readonly] in the message. *)
Definition answered_before_explorer (readonly : string) (s : Server)
    (r : outcome obj * Server) : Prop :=
  match r with
  | (Returns result, s') =>
      (lookup "source" result = VStr "tronweb_node"
       \/ lookup "source" result = VStr "trongrid_api")
      /\ not_invoked TronScan s s'
  | (Throws message, s') =>
      was_invoked TronScan s s' /\ contains message readonly
  end.

End Router.

(** ** In-flight requests

    [executeWithFallback] is an [async] function: it is suspended at each
    [await] and other requests of the same process run in between.  A
    request is modelled by the point at which it is suspended; [start] runs
    a new request up to its first [await], [resume] runs the continuation
    of the awaited promise up to the next one.  All requests share the one
    [Server] object. *)

Module Async.
Import Router.
Local Open Scope router_scope.

Inductive Point : Type :=
| AwaitProbe                       (* checkNodeAvailability: await getCurrentBlock() *)
| AwaitCheck (cached : bool)       (* await of the cached checkNodeAvailability() *)
| AwaitTronWeb                     (* await operation.tronweb() *)
| AwaitTronGrid                    (* await operation.trongrid() *)
| AwaitTronScan                    (* await operation.tronscan() *)
| Settled (r : outcome obj).

Record Request : Type := mkRequest {
  call : Call;
  point : Point;
  sources : list string;           (* the local array [sources] *)
  nodeError : option string        (* bound once the TronWeb attempt failed *)
}.

Definition at_point (r : Request) (p : Point) : Request :=
  mkRequest (call r) p (sources r) (nodeError r).

Definition push (r : Request) (entry : string) : Request :=
  mkRequest (call r) (point r) (app (sources r) [entry]) (nodeError r).

Definition settle (r : Request) (result : outcome obj) : Request :=
  at_point r (Settled (mcp_wrap (operationName (call r)) result)).

(** The TronScan attempt, or the [throw] that follows when there is no
    such candidate. *)
Definition to_tronscan (r : Request) : M Request :=
  match tronscan (operation (call r)) with
  | Some _ => record_invocation TronScan ;;; ret (at_point r AwaitTronScan)
  | None =>
      ret (settle r
             (Throws match nodeError r with
                     | Some e => e
                     | None => "No fallback sources available for "
                               ++ operationName (call r)
                     end))
  end.

Definition to_trongrid (r : Request) : M Request :=
  match trongrid (operation (call r)) with
  | Some _ => record_invocation TronGrid ;;; ret (at_point r AwaitTronGrid)
  | None => to_tronscan r
  end.

(** The [catch (nodeError)] handler. *)
Definition tronweb_failed (r : Request) (e : string) : M Request :=
  set_nodeAvailable false ;;;
  to_trongrid (mkRequest (call r) (point r) ["TronWeb: " ++ e] (Some e)).

(** [executeWithFallback] once [nodeAvailable] is known. *)
Definition enter (r : Request) (available : bool) : M Request :=
  if negb available then to_trongrid r
  else
    record_invocation TronWeb ;;;
    match tronweb (operation (call r)) with
    | Some _ => ret (at_point r AwaitTronWeb)
    | None => tronweb_failed r NOT_A_FUNCTION
    end.

(** A request arrives: [checkNodeAvailability] reads the flag, and issues
    the probe when it is still [null]. *)
Definition start (c : Call) : M Request :=
  fun s =>
    match nodeAvailable s with
    | Some cached => (mkRequest c (AwaitCheck cached) [] None, s)
    | None => (mkRequest c AwaitProbe [] None, s)
    end.

Definition settled_with (t : option thunk) : thunk :=
  match t with
  | Some o => o
  | None => Throws NOT_A_FUNCTION
  end.

(** The awaited promise settles and the request runs to its next [await]. *)
Definition resume (r : Request) : M Request :=
  let op := operation (call r) in
  match point r with
  | AwaitProbe =>
      match probe (call r) with
      | Returns responseTime =>
          let available := responseTime <? 5000 in
          set_nodeAvailable available ;;; enter r available
      | Throws _ => set_nodeAvailable false ;;; enter r false
      end
  | AwaitCheck cached => enter r cached
  | AwaitTronWeb =>
      match settled_with (tronweb op) with
      | Returns result => ret (settle r (Returns (with_source result "tronweb_node")))
      | Throws e => tronweb_failed r e
      end
  | AwaitTronGrid =>
      match settled_with (trongrid op) with
      | Returns result => ret (settle r (Returns (with_source result "trongrid_api")))
      | Throws e => to_tronscan (push r ("TronGrid: " ++ e))
      end
  | AwaitTronScan =>
      match settled_with (tronscan op) with
      | Returns result => ret (settle r (Returns (with_source result "tronscan_api")))
      | Throws e =>
          let r' := push r ("TronScan: " ++ e) in
          ret (settle r'
                 (Throws ((match nodeError r with
                           | Some _ => "All sources failed for "
                           | None => "All API sources failed for "
                           end)
                          ++ operationName (call r) ++ ": "
                          ++ join ", " (sources r'))))
      end
  | Settled _ => ret r
  end.

(** The process: the shared server object and the requests in flight, in
    order of arrival. *)
Record Process : Type := mkProcess {
  server : Server;
  requests : list Request
}.

Inductive Event : Type :=
| Arrive (c : Call)     (* a new execute() request *)
| Wake (i : nat).       (* the promise awaited by request [i] settles *)

Fixpoint update (i : nat) (r : Request) (l : list Request) : list Request :=
  match l, i with
  | [], _ => []
  | _ :: rest, O => r :: rest
  | x :: rest, S j => x :: update j r rest
  end.

Definition step (e : Event) (p : Process) : Process :=
  match e with
  | Arrive c =>
      let (r, s) := start c (server p) in
      mkProcess s (app (requests p) [r])
  | Wake i =>
      match nth_error (requests p) i with
      | Some r =>
          let (r', s) := resume r (server p) in
          mkProcess s (update i r' (requests p))
      | None => p
      end
  end.

Definition run (events : list Event) (p : Process) : Process :=
  fold_left (fun p e => step e p) events p.

Definition boot : Process := mkProcess initial [].

(** No request is suspended at the probe. *)
Definition no_pending_probe (p : Process) : Prop :=
  Forall (fun r => point r <> AwaitProbe) (requests p).

(** The flag is [false] and no probe is under way. *)
Definition latched (p : Process) : Prop :=
  nodeAvailable (server p) = Some false /\ no_pending_probe p.

(** A request served alone: started, then resumed until it settles (it
    passes at most four [await]s). *)
Definition alone (c : Call) : M Request :=
  r0 <- start c ;;
  r1 <- resume r0 ;;
  r2 <- resume r1 ;;
  r3 <- resume r2 ;;
  resume r3.

End Async.

(** ** The account module ([AccountModule.getBalance]) *)

Module Account.
Import Router.

(** The [result] payload of an account query, as far as [getBalance]
    reads it: a [null] payload, or an object whose [balance] is a number
    of SUN when present. *)
Inductive AccountData : Type :=
| NoData
| Data (balance : option Z).

(** How the three backends answer for an address, and the two library
    conversions applied to the raw amount: [this.tronWeb.fromSun], which
    returns the amount in TRX as a decimal numeral (a string), and the
    double-precision division [/]. *)
Record Backends : Type := mkBackends {
  trx_getBalance : string -> outcome Z;
  fromSun : Z -> string;
  trongrid_getaccount : string -> outcome AccountData;
  tronscan_account : string -> outcome AccountData;
  fdiv : Q -> Q -> Q
}.

(** The [balance] of an answer: the numeral of [fromSun], or a number. *)
Inductive Amount : Type :=
| Decimal (numeral : string)
| Number (q : Q).

Record BalanceResult : Type := mkBalanceResult {
  address : string;
  balance : Amount;
  unit_ : string;
  balanceInSun : Z;
  source : string
}.






(** [const accountData = JSON.parse(...).result;
     const balance = accountData.balance || 0;] *)
Definition read_balance (answer : outcome AccountData) : outcome Z :=
  and_then answer (fun accountData =>
    match accountData with
    | NoData => Throws "Cannot read properties of null (reading 'balance')"
    | Data (Some n) => Returns (if n =? 0 then 0 else n)
    | Data None => Returns 0
    end).

(** [getBalance({ address })], with the backends it attempted, in order.
    The function has its own cascade and does not consult the router. *)
Definition getBalance (b : Backends) (addr : string)
    : outcome BalanceResult * list Backend :=
  match trx_getBalance b addr with
  | Returns raw =>
      (Returns (mkBalanceResult addr (Decimal (fromSun b raw)) "TRX" raw "tronweb_node"),
       [TronWeb])
  | Throws nodeError =>
      match read_balance (trongrid_getaccount b addr) with
      | Returns raw =>
          (Returns (mkBalanceResult addr
                      (Number (fdiv b (inject_Z raw) (inject_Z 1000000)))
                      "TRX" raw "trongrid_api"),
           [TronWeb; TronGrid])
      | Throws trongridError =>
          match read_balance (tronscan_account b addr) with
          | Returns raw =>
              (Returns (mkBalanceResult addr
                          (Number (fdiv b (inject_Z raw) (inject_Z 1000000)))
                          "TRX" raw "tronscan_api"),
               [TronWeb; TronGrid; TronScan])
          | Throws tronscanError =>
              (Throws (McpError ("Failed to get balance: All sources failed: "
                                 ++ nodeError ++ ", " ++ trongridError ++ ", "
                                 ++ tronscanError)),
               [TronWeb; TronGrid; TronScan])
          end
      end
  end.

(** [sendTrx({ to, amount, privateKey })]: what the node client and the
    gateway do with the transaction. *)
Record Wallet : Type := mkWallet {
  has_private_key : bool;          (* privateKey || env.PRIVATE_KEY || defaultPrivateKey *)
  sendTransaction : outcome value; (* this.tronWeb.trx.sendTransaction(to, toSun(amount)) *)
  build_and_sign : outcome value;  (* transactionBuilder.sendTrx then trx.sign *)
  broadcast : outcome value;       (* /wallet/broadcasttransaction, parsed .result *)
  timestamp : string               (* new Date().toISOString() *)
}.

Definition sendTrx_tronweb (w : Wallet) : thunk :=
  and_then (sendTransaction w) (fun transaction =>
  and_then (prop transaction "result") (fun result =>
  and_then (prop transaction "txid") (fun txid =>
  Returns (VObj [("success", result); ("txid", txid); ("transaction", transaction)])))).

Definition sendTrx_trongrid (w : Wallet) : thunk :=
  and_then (build_and_sign w) (fun signedTx =>
  and_then (broadcast w) (fun broadcastResult =>
  and_then (prop broadcastResult "result") (fun result =>
  and_then (prop broadcastResult "txid") (fun txid =>
  and_then (if truthy txid then Returns txid else prop signedTx "txID") (fun txid' =>
  Returns (VObj [("success", js_or result (VBool false)); ("txid", txid');
                 ("transaction", signedTx); ("broadcastResult", broadcastResult)])))))).

Definition BROADCAST_READ_ONLY : string :=
  "TronScan API does not support transaction broadcasting - read-only API".

Definition sendTrx_tronscan : thunk := Throws BROADCAST_READ_ONLY.

(** The candidate map [sendTrx] hands to [executeWithFallback]. *)
Definition sendTrx_operation (w : Wallet) : Operation :=
  mkOperation (Some (sendTrx_tronweb w)) (Some (sendTrx_trongrid w))
              (Some sendTrx_tronscan).

Definition sendTrx (w : Wallet) (to amount : value) (probe : outcome Z)
    : M (outcome obj) :=
  if negb (has_private_key w) then
    ret (Throws (McpError
                   ("Failed to send TRX: Private key required for sending transactions. "
                    ++ "Set PRIVATE_KEY in environment or provide in request.")))
  else
    bind (executeWithFallback (sendTrx_operation w) "sendTrx" probe) (fun r =>
    ret match r with
        | Returns result =>
            Returns (assign "timestamp" (VStr (timestamp w))
                       (assign "amount" amount (assign "to" to result)))
        | Throws message => Throws (McpError ("Failed to send TRX: " ++ message))
        end).

End Account.

(** ** The energy estimator ([EnergyEstimator], energy-estimator.js) *)

Module EnergyEstimator.

(** The estimator's own three-argument heuristic. *)
Definition getFallbackEnergyEstimate
    (functionName : string) (parameters : list value) (contractAddress : value) : Z :=
  let functionLower := toLowerCase functionName in
  match (if strict_eq_str contractAddress Heuristics.USDT_CONTRACT then
           if (functionLower =? "transfer")%string then Some 13940
           else if (functionLower =? "approve")%string then Some 13180
           else if (functionLower =? "transferfrom")%string then Some 18190
           else if (functionLower =? "balanceof")%string then Some 680
           else None
         else None) with
  | Some energy => energy
  | None =>
      if includes functionLower "transfer" || includes functionLower "send" then
        if (2 <? List.length parameters)%nat then 31990 else 14010
      else if includes functionLower "approve" || includes functionLower "allowance"
      then 10000
      else if includes functionLower "swap" || includes functionLower "exchange"
      then 50000
      else if includes functionLower "mint" || includes functionLower "burn"
      then 30000
      else if includes functionLower "view" || includes functionLower "get"
              || includes functionLower "balance"
      then 1000
      else 20000 + Z.of_nat (List.length parameters) * 5000
  end.

(** Requests the estimator sends to the node. *)
Inductive NodeCall : Type :=
| ContractAt           (* this.tronWeb.contract().at(contractAddress) *)
| ContractSend         (* contract[functionName](...parameters).send(...) *)
| LiveEstimation.      (* the four methods of performEnergyEstimation *)

(** The node client as the estimator uses it.  The live methods are given
    by what they contribute to [estimations]: the energy of a method that
    answered with one, [None] for a method that failed or had none. *)
Record Node : Type := mkNode {
  isAddress : string -> bool;          (* this.tronWeb.isAddress *)
  defaultAddress : value;              (* this.tronWeb.defaultAddress.base58 *)
  cached_contract : option value;      (* this.contractCache.get(contractAddress) *)
  contract_at : outcome value;
  contract_send : outcome value;
  triggerConstantContract : option value;
  estimateEnergy : option value;
  rpcCall : option value;
  historical : option (value * value);
  timestamp : string
}.

Definition estimation (energy : value) (method accuracy : string) : value :=
  VObj [("energy", energy); ("method", VStr method); ("accuracy", VStr accuracy)].

Definition entry (key : string) (v : option value) : obj :=
  match v with
  | Some x => [(key, x)]
  | None => []
  end.

(** [performEnergyEstimation]: the entries of the methods that answered,
    then the fallback entry, which is always written. *)
Definition performEnergyEstimation (n : Node)
    (contractAddress functionName : string) (parameters : list value) : obj :=
  let usdt_transfer := ((contractAddress =? Heuristics.USDT_CONTRACT)
                        && (functionName =? "transfer"))%string in
  (entry "triggerConstantContract"
    (option_map (fun e => estimation e "triggerConstantContract" "high")
       (triggerConstantContract n))
  ++ entry "estimateEnergy"
    (option_map (fun e => estimation e "estimateEnergy"
                            (if usdt_transfer then "high" else "medium"))
       (estimateEnergy n))
  ++ entry "rpcCall"
    (option_map (fun e => estimation e "rpcCall" "high") (rpcCall n))
  ++ entry "historical"
    (option_map (fun h => VObj [("energy", fst h); ("method", VStr "historical");
                                ("accuracy", VStr "medium"); ("sampleSize", snd h)])
       (historical n))
  ++ [("fallback",
       estimation (VNum (getFallbackEnergyEstimate functionName parameters
                           (VStr contractAddress)))
         "fallback" "low")])%list.

(** [getContractInstance], with the node request it makes on a cache miss. *)
Definition getContractInstance (n : Node) : outcome value * list NodeCall :=
  match cached_contract n with
  | Some contract => (Returns contract, [])
  | None =>
      (try_catch (contract_at n)
         (fun m => Throws ("Failed to get contract instance: " ++ m)),
       [ContractAt])
  end.

(** [buildContractTransaction].  The contract is read through the
    properties it holds itself, the functions of its ABI; a name that
    only its prototype has (such as [toString]) is not modelled. *)
Definition buildContractTransaction (n : Node) (contract : value)
    (functionName : string) : outcome value * list NodeCall :=
  match prop contract functionName with
  | Throws m => (Throws ("Failed to build transaction: " ++ m), [])
  | Returns f =>
      if negb (truthy f) then
        (Throws ("Failed to build transaction: Function '" ++ functionName
                 ++ "' not found in contract"), [])
      else
        (try_catch (contract_send n)
           (fun m => Throws ("Failed to build transaction: " ++ m)),
         [ContractSend])
  end.

(** The outer [catch] of [estimateContractEnergy]. *)
Definition failed {A} (message : string) : outcome A :=
  Throws ("Energy estimation failed: " ++ message).

(** [estimateContractEnergy(contractAddress, functionName, parameters,
    callerAddress, feeLimit)], with the node requests made, in order. *)
Definition estimateContractEnergy (n : Node)
    (contractAddress functionName : string) (parameters : list value)
    (callerAddress : value) : outcome value * list NodeCall :=
  if negb (isAddress n contractAddress) then
    (failed ("Invalid contract address: " ++ contractAddress), [])
  else
    let fromAddress := js_or callerAddress (defaultAddress n) in
    if negb (truthy fromAddress) then
      (failed "No caller address provided and no default address set", [])
    else
      match getContractInstance n with
      | (Throws m, calls) => (failed m, calls)
      | (Returns contract, calls) =>
          match buildContractTransaction n contract functionName with
          | (Throws m, calls') => (failed m, calls ++ calls')%list
          | (Returns _, calls') =>
              let estimations :=
                performEnergyEstimation n contractAddress functionName parameters in
              (Returns (VObj
                 [("contractAddress", VStr contractAddress);
                  ("functionName", VStr functionName);
                  ("parameters", VArr parameters);
                  ("callerAddress", fromAddress);
                  ("estimations", VObj estimations);
                  ("recommended",
                   js_or (lookup "triggerConstantContract" estimations)
                     (js_or (lookup "estimateEnergy" estimations)
                        (lookup "fallback" estimations)));
                  ("timestamp", VStr (timestamp n))]),
               (calls ++ calls' ++ [LiveEstimation])%list)
          end
      end.

End EnergyEstimator.

(** ** Tools of [TronMcpServer] that go through the router
    ([contractCall], [estimateContractEnergy]) *)

Module Tools.
Import Router.

(** The [data] of a [/wallet/triggerconstantcontract] request. *)
Record Query : Type := mkQuery {
  owner_address : value;
  contract_address : string;
  function_selector : value;
  parameter : string
}.

(** The collaborators of the two tools. *)
Record Env : Type := mkEnv {
  energyEstimator : option EnergyEstimator.Node;  (* null until initialised *)
  estimate_malformed : value -> value -> outcome value;
                                      (* the estimator's answer when functionName is
                                         not a string or parameters not an array *)
  contract_send : outcome value;      (* contract().at(a), then contract[f](...ps).send() *)
  defaultAddress : value;             (* this.tronWeb.defaultAddress?.base58 *)
  encode_call : list value -> outcome string;
                                      (* the parameter encoding of contractCall *)
  encode_call_leaves : list value -> list value;
                                      (* the entries of [parameters] after that
                                         encoding: the encoder rewrites the array
                                         it is given *)
  encode : list value -> outcome string;
                                      (* encodeParams(['address', 'uint256'], values),
                                         0x prefix removed *)
  triggerconstantcontract : Query -> outcome value;
                                      (* trongridApiCall, then JSON.parse(...).result *)
  timestamp : string                  (* new Date().toISOString() *)
}.

Definition DEFAULT_OWNER : string := "TU4vEruvZwLLkSfV9bNw12EJTPvNr7Pvaa".
Definition DEFAULT_CALLER : string := "TLyqzVGLV1srkB7dToTAEqgDSfPtXRJZYH".
Definition ADDRESS_WITHOUT_USDT : string := "TZ4UXDV5ZhNW7fb2AMSbgfAEZ7hWsnYS2g".

(** *** contractCall *)

Definition contractCall_selector (functionName : string) (parameters : list value) : string :=
  if ((functionName =? "balanceOf")%string && (List.length parameters =? 1)%nat) then
    "balanceOf(address)"
  else if ((functionName =? "transfer")%string && (List.length parameters =? 2)%nat) then
    "transfer(address,uint256)"
  else if ((functionName =? "approve")%string && (List.length parameters =? 2)%nat) then
    "approve(address,uint256)"
  else functionName.

Definition contractCall_trongrid (e : Env) (contractAddress functionName : string)
    (parameters : list value) : thunk :=
  and_then (match parameters with
            | [] => Returns ""
            | _ => encode_call e parameters
            end) (fun parameter =>
  triggerconstantcontract e
    (mkQuery (js_or (defaultAddress e) (VStr DEFAULT_OWNER)) contractAddress
             (VStr (contractCall_selector functionName parameters)) parameter)).




(** The gateway candidate was invoked between [s] and [s']. *)
Definition gateway_invoked (s s' : Server) : bool :=
  existsb (fun b => match b with TronGrid => true | _ => false end)
          (skipn (List.length (invoked s)) (invoked s')).

(** The entries of the caller's [parameters] array once the router is
    done.  The array is shared: the gateway candidate hands it to the
    encoder, and the result reports it afterwards. *)
Definition parameters_after (e : Env) (parameters : list value) (s s' : Server)
    : list value :=
  match parameters with
  | [] => []
  | _ :: _ => if gateway_invoked s s' then encode_call_leaves e parameters else parameters
  end.


(** *** estimateContractEnergy *)

(** The object every candidate returns. *)
Definition report (contractAddress : string) (functionName parameters : value)
    (callerAddress : value) (estimations : obj) (recommended : value)
    (timestamp : string) : value :=
  VObj [("contractAddress", VStr contractAddress);
        ("functionName", functionName);
        ("parameters", parameters);
        ("callerAddress", callerAddress);
        ("estimations", VObj estimations);
        ("recommended", recommended);
        ("timestamp", VStr timestamp)].

(** [contractAddress === 'TR7N...' && functionName === 'transfer']. *)
Definition usdt_transfer (contractAddress : string) (functionName : value) : bool :=
  (contractAddress =? Heuristics.USDT_CONTRACT)%string
  && strict_eq_str functionName "transfer".

(** The recipient shown in a fallback answer: a forced address for a USDT
    [transfer], else [parameters.length > 0 ? parameters[0] : null]. *)
Definition displayToAddress (rt : Runtime) (forced : string) (contractAddress : string)
    (functionName parameters : value) : outcome value :=
  if usdt_transfer contractAddress functionName then Returns (VStr forced)
  else
    and_then (length_of parameters) (fun n =>
    if greater_than_zero rt n then element parameters 0 else Returns VNull).

(** The [predefined] answer of the gateway's [catch] and of the explorer
    candidate. *)
Definition predefined (rt : Runtime) (forced : string) (error : option string)
    (contractAddress : string) (functionName parameters : value)
    (callerAddress : value) (timestamp : string) : outcome value :=
  and_then (displayToAddress rt forced contractAddress functionName parameters)
    (fun recipient =>
  and_then (Unvalidated.getFallbackEnergyEstimate rt functionName parameters
              (VStr contractAddress) recipient) (fun energy =>
  Returns
    (report contractAddress functionName parameters callerAddress
       [("fallback",
         VObj ([("energy", energy); ("method", VStr "predefined");
                ("accuracy", VStr "medium")]
               ++ match error with
                  | Some m => [("error", VStr m)]
                  | None => []
                  end
               ++ [("recipient_address", recipient);
                   ("energy_calculation", VStr "fallback_with_address_check")])%list)]
       energy timestamp))).

(** One live query for a USDT transfer to [recipient]:
    [apiResult] and [apiResult.energy_used || 0]. *)
Definition transfer_query (e : Env) (fromAddress : value) (contractAddress : string)
    (recipient amount : value) : outcome (value * value) :=
  and_then (encode e [recipient; amount]) (fun parameter_hex =>
  and_then (triggerconstantcontract e
              (mkQuery fromAddress contractAddress (VStr "transfer(address,uint256)")
                       parameter_hex)) (fun apiResult =>
  and_then (prop apiResult "energy_used") (fun energy_used =>
  Returns (apiResult, js_or energy_used (VNum 0))))).

(** One of the two reference queries ([results.withUSDT],
    [results.withoutUSDT]): energy and [api_response], with the assumed
    energy when the query fails. *)
Definition reference_query (e : Env) (fromAddress : value) (contractAddress : string)
    (recipient : string) (amount : value) (assumed : Z) : value * value :=
  match transfer_query e fromAddress contractAddress (VStr recipient) amount with
  | Returns (apiResult, energy) => (energy, apiResult)
  | Throws _ => (VNum assumed, VUndefined)
  end.

Definition dual (e : Env) (fromAddress : value) (contractAddress : string)
    (functionName parameters : value) (amount : value) (method : string)
    (original_error : option string) : value :=
  let withUSDT := reference_query e fromAddress contractAddress
                    Heuristics.EXISTING_ADDRESS amount 64285 in
  let withoutUSDT := reference_query e fromAddress contractAddress
                       ADDRESS_WITHOUT_USDT amount 130285 in
  report contractAddress functionName parameters fromAddress
    [("trongrid",
      VObj ([("energy_with_usdt", fst withUSDT);
             ("energy_without_usdt", fst withoutUSDT);
             ("address_with_usdt", VStr Heuristics.EXISTING_ADDRESS);
             ("address_without_usdt", VStr ADDRESS_WITHOUT_USDT);
             ("method", VStr method);
             ("accuracy", VStr "high")]
            ++ match original_error with
               | Some m => [("original_error", VStr m)]
               | None => []
               end
            ++ [("api_responses",
                 VObj [("with_usdt", snd withUSDT);
                       ("without_usdt", snd withoutUSDT)])])%list)]
    (VObj [("existing_usdt_address", fst withUSDT);
           ("new_usdt_address", fst withoutUSDT)])
    (timestamp e).

(** [userAddress && typeof userAddress === 'string'
     && userAddress.startsWith('T') && userAddress.length === 34]. *)
Definition isUserAddressProvided (userAddress : value) : bool :=
  match userAddress with
  | VStr a => negb (a =? "")%string && startsWith a "T" && (String.length a =? 34)%nat
  | _ => false
  end.

(** The primary candidate.  The estimator is modelled on a function name
    that is a string and parameters that are an array. *)
Definition estimate_tronweb (e : Env) (contractAddress : string)
    (functionName parameters callerAddress : value) : thunk :=
  match energyEstimator e with
  | None => Throws "Energy estimator not initialized"
  | Some node =>
      match functionName, parameters with
      | VStr name, VArr items =>
          fst (EnergyEstimator.estimateContractEnergy node contractAddress name
                 items callerAddress)
      | _, _ => estimate_malformed e functionName parameters
      end
  end.

(** [contractAddress === 'TR7N...' && functionName === 'transfer'
     && parameters.length === 2]: the request has its own path in the
    gateway candidate. *)
Definition usdt_transfer_request (contractAddress : string)
    (functionName parameters : value) : outcome bool :=
  if usdt_transfer contractAddress functionName then
    and_then (length_of parameters) (fun n => Returns (strict_eq_num n 2))
  else Returns false.

(** The live query for any other request: the selector is
    [function_selector || functionName] with an empty [function_selector],
    and no parameter is sent. *)
Definition generic_query (fromAddress : value) (contractAddress : string)
    (functionName : value) : Query :=
  mkQuery fromAddress contractAddress (js_or (VStr "") functionName) "".

Definition estimate_trongrid (rt : Runtime) (e : Env) (contractAddress : string)
    (functionName parameters callerAddress : value) : thunk :=
  let fromAddress := js_or callerAddress (VStr DEFAULT_OWNER) in
  try_catch
    (and_then (usdt_transfer_request contractAddress functionName parameters)
       (fun usdt =>
     if (usdt : bool) then
       and_then (element parameters 0) (fun userAddress =>
       and_then (element parameters 1) (fun amount =>
       if isUserAddressProvided userAddress then
         try_catch
           (and_then (transfer_query e fromAddress contractAddress userAddress amount)
              (fun r =>
                 let (apiResult, energyUsed) := r in
                 Returns (report contractAddress functionName parameters fromAddress
                            [("trongrid",
                              VObj [("energy", energyUsed);
                                    ("method", VStr "triggerconstantcontract");
                                    ("accuracy", VStr "high");
                                    ("recipient_address", userAddress);
                                    ("api_response", apiResult)])]
                            energyUsed (timestamp e))))
           (fun error =>
              Returns (dual e fromAddress contractAddress functionName parameters
                         amount "triggerconstantcontract_dual_fallback" (Some error)))
       else
         Returns (dual e fromAddress contractAddress functionName parameters
                    amount "triggerconstantcontract_dual" None)))
     else
       and_then (triggerconstantcontract e
                   (generic_query fromAddress contractAddress functionName))
         (fun apiResult =>
       and_then (prop apiResult "energy_used") (fun energy_used =>
         let energyUsed := js_or energy_used (VNum 0) in
         let live := greater_than_zero rt energyUsed in
       and_then (displayToAddress rt Heuristics.NEW_ADDRESS contractAddress
                   functionName parameters) (fun recipient =>
       and_then (if live then Returns energyUsed
                 else Unvalidated.getFallbackEnergyEstimate rt functionName parameters
                        (VStr contractAddress) recipient) (fun finalEnergy =>
         Returns (report contractAddress functionName parameters fromAddress
                    [("trongrid",
                      VObj [("energy", finalEnergy);
                            ("method", VStr "triggerconstantcontract");
                            ("accuracy", VStr (if live then "high" else "medium"));
                            ("raw_energy_used", energyUsed);
                            ("api_response", apiResult);
                            ("recipient_address", recipient);
                            ("energy_calculation",
                             VStr (if live then "api_response"
                                   else "fallback_with_address_check"))])]
                    finalEnergy (timestamp e))))))))
    (fun apiError =>
       predefined rt Heuristics.NEW_ADDRESS (Some apiError) contractAddress
         functionName parameters fromAddress (timestamp e)).

Definition estimate_tronscan (rt : Runtime) (e : Env) (contractAddress : string)
    (functionName parameters callerAddress : value) : thunk :=
  predefined rt Heuristics.EXISTING_ADDRESS None contractAddress functionName
    parameters (js_or callerAddress (VStr DEFAULT_CALLER)) (timestamp e).

Definition estimate_operation (rt : Runtime) (e : Env) (contractAddress : string)
    (functionName parameters callerAddress : value) : Operation :=
  mkOperation
    (Some (estimate_tronweb e contractAddress functionName parameters callerAddress))
    (Some (estimate_trongrid rt e contractAddress functionName parameters callerAddress))
    (Some (estimate_tronscan rt e contractAddress functionName parameters callerAddress)).

(** [parameters = []] in the signature: the default of a missing argument. *)
Definition or_empty (parameters : value) : value :=
  match parameters with
  | VUndefined => VArr []
  | _ => parameters
  end.

(** [estimateContractEnergy({ contractAddress, functionName,
    parameters = [], callerAddress, feeLimit })]. *)
Definition estimateContractEnergy (rt : Runtime) (e : Env) (contractAddress : string)
    (functionName parameters callerAddress : value) (probe : outcome Z)
    : M (outcome obj) :=
  bind (executeWithFallback
          (estimate_operation rt e contractAddress functionName (or_empty parameters)
             callerAddress)
          "estimateContractEnergy" probe) (fun r =>
  ret match r with
      | Returns result => Returns result
      | Throws message =>
          Throws (McpError ("Failed to estimate contract energy: " ++ message))
      end).

(** The gateway's live query gives no estimate: the request fails, or the
    answer has no [energy_used] greater than zero. *)
Definition no_live_estimate (rt : Runtime) (answer : outcome value) : Prop :=
  match answer with
  | Throws _ => True
  | Returns apiResult =>
      match prop apiResult "energy_used" with
      | Throws _ => True
      | Returns energy_used =>
          greater_than_zero rt (js_or energy_used (VNum 0)) = false
      end
  end.


End Tools.

(** ** Invocation traces *)

Module Trace.
Import Router.

Definition same (a b : Backend) : bool :=
  match a, b with
  | TronWeb, TronWeb | TronGrid, TronGrid | TronScan, TronScan => true
  | _, _ => false
  end.

(** [log] visits candidates of [order] from left to right, each at most
    once. *)
Fixpoint follows (order log : list Backend) : bool :=
  match order with
  | [] => match log with [] => true | _ :: _ => false end
  | b :: order' =>
      match log with
      | [] => true
      | x :: log' => if same x b then follows order' log' else follows order' log
      end
  end.

(** The fixed priority of the router. *)
Definition PRIORITY : list Backend := [TronWeb; TronGrid; TronScan].

Definition candidate (op : Operation) (b : Backend) : option thunk :=
  match b with
  | TronWeb => tronweb op
  | TronGrid => trongrid op
  | TronScan => tronscan op
  end.

(** A request in flight that may still act on an availability it read, or
    is about to read, before the flag became [false]: it is suspended at
    the probe, or holds a cached [true]. *)
Definition stale (r : Async.Request) : bool :=
  match Async.point r with
  | Async.AwaitProbe | Async.AwaitCheck true => true
  | _ => false
  end.

(** The flag is [false] and no request in flight is stale. *)
Definition quiescent (p : Async.Process) : Prop :=
  nodeAvailable (Async.server p) = Some false
  /\ Forall (fun r => stale r = false) (Async.requests p).

End Trace.

(** ** The account module, continued ([AccountModule.getAccountResources]) *)

Module Resources.
Import Router.

(** How the three backends answer a resource query for an address; the
    gateway and explorer answers are the parsed [result] payloads. *)
Record Backends : Type := mkBackends {
  trx_getAccountResources : string -> outcome value;
  trongrid_getaccountresource : string -> outcome value;
  tronscan_account : string -> outcome value
}.

(** Optional chaining [v?.k]. *)
Definition optional (v : value) (k : string) : value :=
  match v with
  | VObj fields => lookup k fields
  | _ => VUndefined
  end.

(** The names of the counters, and the explorer fields they are read from. *)
Definition COUNTERS : list (string * string) :=
  [("freeNetLimit", "freeNetLimit"); ("freeNetUsed", "freeNetUsed");
   ("NetLimit", "netLimit"); ("NetUsed", "netUsed");
   ("EnergyLimit", "energyLimit"); ("EnergyUsed", "energyUsed")].

(** "Format TronScan data to match expected structure":
    [accountData.bandwidth?.x || 0] for each counter, then the tag. *)
Definition from_tronscan (accountData : value) : outcome obj :=
  and_then (prop accountData "bandwidth") (fun bandwidth =>
  Returns (map (fun c => (fst c, js_or (optional bandwidth (snd c)) (VNum 0))) COUNTERS
           ++ [("source", VStr "tronscan_api")])%list).

(** [getAccountResources({ address })], with the backends attempted. *)
Definition getAccountResources (b : Backends) (addr : string)
    : outcome obj * list Backend :=
  match trx_getAccountResources b addr with
  | Returns resources =>
      (Returns (with_source resources "tronweb_node"), [TronWeb])
  | Throws nodeError =>
      match trongrid_getaccountresource b addr with
      | Returns resourceData =>
          (Returns (with_source resourceData "trongrid_api"), [TronWeb; TronGrid])
      | Throws trongridError =>
          match and_then (tronscan_account b addr) from_tronscan with
          | Returns resources => (Returns resources, [TronWeb; TronGrid; TronScan])
          | Throws tronscanError =>
              (Throws (McpError ("Failed to get account resources: All sources failed: "
                                 ++ nodeError ++ ", " ++ trongridError ++ ", "
                                 ++ tronscanError)),
               [TronWeb; TronGrid; TronScan])
          end
      end
  end.

End Resources.

(** ** Parameter encoding for the gateway ([encodeContractParameters]) *)

Module Encoding.

(** [this.tronWeb.utils.abi.encodeParams(types, values)], a library
    function: the encoded hex string, or an error. *)
Definition Encoder : Type := list string -> list value -> outcome string.

(** [typeof v === 'string' && v.startsWith('T') && v.length === 34]. *)
Definition address_shaped (v : value) : bool :=
  match v with
  | VStr s => startsWith s "T" && (String.length s =? 34)%nat
  | _ => false
  end.

Definition is_digit (c : ascii) : bool :=
  let n := nat_of_ascii c in ((48 <=? n) && (n <=? 57))%nat.

Fixpoint digits (s : string) : bool :=
  match s with
  | EmptyString => true
  | String c rest => is_digit c && digits rest
  end.

(** [/^\d+$/.test(s)]. *)
Definition all_digits (s : string) : bool := negb (s =? "")%string && digits s.

(** The ABI type inferred for a parameter. *)
Definition param_type (param : value) : string :=
  if address_shaped param then "address"
  else match param with
       | VNum _ => "uint256"
       | VStr s => if all_digits s then "uint256" else "string"
       | VBool _ => "bool"
       | _ => "bytes"
       end.

Definition encodeContractParameters (encodeParams : Encoder) (parameters : list value)
    : string :=
  match parameters with
  | [] => ""
  | _ =>
      let transfer :=
        match parameters with
        | [toAddress; amount] =>
            if address_shaped toAddress
            then Some (encodeParams ["address"; "uint256"] [toAddress; amount])
            else None
        | _ => None
        end in
      match transfer with
      | Some (Returns encoded) => encoded
      | _ =>
          (* fallback for other parameter combinations, and after a failure *)
          match encodeParams (map param_type parameters) parameters with
          | Returns encoded => encoded
          | Throws _ => ""
          end
      end
  end.

(** [encoded.replace(/^0x/, '')]. *)
Definition strip_0x (encoded : string) : string :=
  match encoded with
  | String "0" (String "x" rest) => rest
  | _ => encoded
  end.

(** The [parameter] that the gateway candidate of [contractCall] sends. *)
Definition contract_parameter (encodeParams : Encoder) (functionName : string)
    (parameters : list value) : outcome string :=
  match parameters with
  | [] => Returns ""
  | first :: _ =>
      if ((functionName =? "balanceOf")%string && (List.length parameters =? 1)%nat) then
        and_then (encodeParams ["address"] [first])
          (fun encoded => Returns (strip_0x encoded))
      else Returns (strip_0x (encodeContractParameters encodeParams parameters))
  end.

(** What [encodeParams(types, values)] leaves in the array [values]: it
    rewrites the entries whose type is [address] in place, before it
    encodes. *)
Definition Rewriter : Type := list string -> list value -> list value.

(** The entries of the caller's [parameters] after [contract_parameter]:
    the one-argument [balanceOf] and the two-parameter transfer encode a
    fresh array; the fallback branch of [encodeContractParameters], also
    reached when the transfer encoding failed, hands the caller's own
    array to the encoder. *)
Definition parameters_after (encodeParams : Encoder) (rewrite : Rewriter)
    (functionName : string) (parameters : list value) : list value :=
  match parameters with
  | [] => []
  | _ :: _ =>
      if ((functionName =? "balanceOf")%string && (List.length parameters =? 1)%nat) then
        parameters
      else
        let transfer :=
          match parameters with
          | [toAddress; amount] =>
              if address_shaped toAddress
              then Some (encodeParams ["address"; "uint256"] [toAddress; amount])
              else None
          | _ => None
          end in
        match transfer with
        | Some (Returns _) => parameters
        | _ => rewrite (map param_type parameters) parameters
        end
  end.

End Encoding.

(** ** Energy prices ([processChainParametersForEnergyPrices], [getEnergyPrices]) *)

Module Prices.
Import Router.

(** [Array.isArray(chainParams) ? chainParams : chainParams.chainParameter || []],
    as the list that [forEach] runs over. *)
Definition params_of (chainParams : value) : outcome (list value) :=
  match chainParams with
  | VArr items => Returns items
  | _ =>
      and_then (prop chainParams "chainParameter") (fun listed =>
      match js_or listed (VArr []) with
      | VArr items => Returns items
      | _ => Throws "params.forEach is not a function"
      end)
  end.

Section Keys.

(** The name under which a key that is not a string is stored
    (the language's conversion to a property key). *)
Variable ToPropertyKey : value -> string.

Definition property_key (k : value) : string :=
  match k with
  | VStr s => s
  | _ => ToPropertyKey k
  end.

(** One step of the [forEach]:
    [if (param.key && param.value !== undefined) raw[param.key] = param.value]. *)
Definition record_parameter (raw : outcome obj) (param : value) : outcome obj :=
  and_then raw (fun raw_parameters =>
  and_then (prop param "key") (fun k =>
  if truthy k then
    and_then (prop param "value") (fun v =>
    match v with
    | VUndefined => Returns raw_parameters
    | _ => Returns (assign (property_key k) v raw_parameters)
    end)
  else Returns raw_parameters)).

Definition raw_parameters_of (params : list value) : outcome obj :=
  fold_left record_parameter params (Returns []).

Definition optional_fee (name : string) (fee : value) : obj :=
  if truthy fee then [(name, fee)] else [].

Definition processChainParametersForEnergyPrices (now : string) (chainParams : value)
    : outcome obj :=
  and_then (params_of chainParams) (fun params =>
  and_then (raw_parameters_of params) (fun raw =>
  let energyFee := js_or (lookup "getEnergyFee" raw) (VNum 210) in
  let transactionFee := js_or (lookup "getTransactionFee" raw) (VNum 1000) in
  let createAccountFee := js_or (lookup "getCreateAccountFee" raw) (VNum 100000) in
  Returns ([("source", VStr "chain_parameters");
            ("last_updated", VStr now);
            ("raw_parameters", VObj raw);
            ("energy_price_sun", energyFee);
            ("bandwidth_price_sun", transactionFee);
            ("create_account_fee", createAccountFee);
            ("transaction_fee", transactionFee)]
           ++ optional_fee "witness_create_fee" (lookup "getAccountUpgradeCost" raw)
           ++ optional_fee "asset_issue_fee" (lookup "getAssetIssueFee" raw))%list)).

(** A response of [fetch]. *)
Record Response : Type := mkResponse {
  ok : bool;
  status : nat;
  statusText : string;
  json : outcome value
}.







End Keys.

End Prices.

(** ** Direct gateway requests ([trongridApiCall], [getTrongridBlock],
    [getTrongridAccount]) *)

Module Gateway.

Definition upper_ascii (c : ascii) : ascii :=
  let n := nat_of_ascii c in
  if ((97 <=? n) && (n <=? 122))%nat then ascii_of_nat (n - 32) else c.

(** [String.prototype.toUpperCase] on ASCII text. *)
Fixpoint toUpperCase (s : string) : string :=
  match s with
  | EmptyString => EmptyString
  | String c rest => String (upper_ascii c) (toUpperCase rest)
  end.

(** What is handed to [fetch]; [body] is the value that is serialised. *)
Record HttpRequest : Type := mkHttpRequest {
  url : string;
  http_method : string;
  headers : list (string * string);
  body : option value
}.

(** The environment variables read (the empty string when unset), the
    network and the clock. *)
Record Network : Type := mkNetwork {
  FULL_NODE_URL : string;
  TRONGRID_API_KEY : string;
  fetch : HttpRequest -> outcome Prices.Response;
  now : string
}.

(** The [url] and [options] that [trongridApiCall] hands to [fetch]. *)
Definition request (net : Network) (endpoint method : string) (data : value)
    : HttpRequest :=
  let tronGridUrl :=
    if (FULL_NODE_URL net =? "")%string then "https://api.trongrid.io"
    else FULL_NODE_URL net in
  let headers :=
    (("Content-Type", "application/json")
     :: if (TRONGRID_API_KEY net =? "")%string then []
        else [("TRON-PRO-API-KEY", TRONGRID_API_KEY net)]) in
  mkHttpRequest (tronGridUrl ++ endpoint) (toUpperCase method) headers
    (if (toUpperCase method =? "POST")%string then Some data else None).

(** [trongridApiCall({ endpoint, method, data })]: one [fetch].  The answer
    is the object that callers read back from the returned text. *)
Definition trongridApiCall (net : Network) (endpoint method : string) (data : value)
    : outcome obj :=
  try_catch
    (and_then (fetch net (request net endpoint method data)) (fun response =>
     if negb (Prices.ok response) then
       Throws ("TronGrid API error: " ++ string_of_nat (Prices.status response) ++ " "
               ++ Prices.statusText response)
     else
       and_then (Prices.json response) (fun result =>
       Returns [("endpoint", VStr endpoint); ("method", VStr method); ("data", data);
                ("result", result); ("timestamp", VStr (now net));
                ("source", VStr "trongrid_api")])))
    (fun message => Throws (McpError ("TronGrid API call failed: " ++ message))).

(** [blockData.block_header?.raw_data?.number]. *)
Definition block_number (blockData : value) : outcome value :=
  and_then (prop blockData "block_header") (fun header =>
  Returns (Resources.optional (Resources.optional header "raw_data") "number")).

(** [getTrongridBlock({ blockNumber, onlyNumber })]. *)
Definition getTrongridBlock (net : Network) (blockNumber : value) (onlyNumber : bool)
    : outcome obj :=
  let endpoint :=
    if truthy blockNumber then "/wallet/getblockbynum" else "/wallet/getnowblock" in
  let data := if truthy blockNumber then VObj [("num", blockNumber)] else VObj [] in
  try_catch
    (and_then (trongridApiCall net endpoint "POST" data) (fun result =>
     if onlyNumber then
       and_then (block_number (lookup "result" result)) (fun number =>
       if negb (truthy number) then
         Throws "Unable to extract block number from response"
       else
         Returns [("current_block_number", number); ("timestamp", VStr (now net));
                  ("source", VStr "trongrid_api")])
     else Returns result))
    (fun message => Throws (McpError ("TronGrid block request failed: " ++ message))).

(** The two routes of [getTrongridAccount]. *)
Definition v1_route (address : string) : string := "/v1/accounts/" ++ address.
Definition LEGACY_ROUTE : string := "/wallet/getaccount".
Definition legacy_data (address : string) : value :=
  VObj [("address", VStr address); ("visible", VBool true)].

(** [getTrongridAccount({ address })], with the requests sent, in order. *)
Definition getTrongridAccount (net : Network) (address : string)
    : outcome obj * list HttpRequest :=
  let first := request net (v1_route address) "GET" (VObj []) in
  match trongridApiCall net (v1_route address) "GET" (VObj []) with
  | Returns result => (Returns result, [first])
  | Throws error =>
      let second := request net LEGACY_ROUTE "POST" (legacy_data address) in
      match trongridApiCall net LEGACY_ROUTE "POST" (legacy_data address) with
      | Returns fallbackResult => (Returns fallbackResult, [first; second])
      | Throws fallbackError =>
          (Throws (McpError ("TronGrid account request failed: " ++ error)),
           [first; second])
      end
  end.

End Gateway.

(** ** The energy estimator, continued (contract cache, batch, history) *)

Module EstimatorState.
Import EnergyEstimator.

(** [this.contractCache], a [Map] from contract address to instance. *)
Definition Cache : Type := list (string * value).

Fixpoint cache_get (address : string) (cache : Cache) : option value :=
  match cache with
  | [] => None
  | (a, contract) :: rest =>
      if (a =? address)%string then Some contract else cache_get address rest
  end.

Fixpoint cache_set (address : string) (contract : value) (cache : Cache) : Cache :=
  match cache with
  | [] => [(address, contract)]
  | (a, c) :: rest =>
      if (a =? address)%string then (a, contract) :: rest
      else (a, c) :: cache_set address contract rest
  end.

(** [getContractInstance(contractAddress)] on the cache: the instance or
    the error, the node requests made, and the cache afterwards.
    [contract_at] is how [this.tronWeb.contract().at(address)] settles. *)
Definition getContractInstance (contract_at : string -> outcome value)
    (contractAddress : string) (cache : Cache)
    : outcome value * list NodeCall * Cache :=
  match cache_get contractAddress cache with
  | Some contract => (Returns contract, [], cache)
  | None =>
      match contract_at contractAddress with
      | Returns contract =>
          (Returns contract, [ContractAt], cache_set contractAddress contract cache)
      | Throws m =>
          (Throws ("Failed to get contract instance: " ++ m), [ContractAt], cache)
      end
  end.

(** [clearCache()]: the map is emptied first; [files] is how the removal
    of the cache files settles. *)
Definition clearCache (files : outcome unit) (cache : Cache) : outcome value * Cache :=
  (match files with
   | Returns _ =>
       Returns (VObj [("success", VBool true);
                      ("message", VStr "Cache cleared successfully")])
   | Throws m => Throws ("Failed to clear cache: " ++ m)
   end, []).

(** The five arguments of [estimateContractEnergy]. *)
Record ContractCall : Type := mkContractCall {
  contractAddress : value;
  functionName : value;
  parameters : value;
  callerAddress : value;
  feeLimit : value
}.

(** [for (const call of contractCalls)]: the entries visited, or the
    [TypeError] of a value that cannot be iterated. *)
Definition iterate (contractCalls : value) : outcome (list value) :=
  match contractCalls with
  | VArr items => Returns items
  | VStr s => Returns (chars s)
  | VUndefined | VNull | VBool _ | VNum _ | VObj _ =>
      Throws "contractCalls is not iterable"
  end.

(** The arguments [batchEstimateEnergy] passes on for an entry:
    [call.contractAddress, call.functionName, call.parameters || [],
     call.callerAddress, call.feeLimit]. *)
Definition passed_on (call : value) : outcome ContractCall :=
  and_then (prop call "contractAddress") (fun contractAddress =>
  and_then (prop call "functionName") (fun functionName =>
  and_then (prop call "parameters") (fun parameters =>
  and_then (prop call "callerAddress") (fun callerAddress =>
  and_then (prop call "feeLimit") (fun feeLimit =>
  Returns (mkContractCall contractAddress functionName
             (js_or parameters (VArr [])) callerAddress feeLimit)))))).

(** What the [catch] pushes for a call whose estimation threw; it reads
    the entry again. *)
Definition failure_entry (call : value) (message : string) : outcome value :=
  and_then (prop call "contractAddress") (fun contractAddress =>
  and_then (prop call "functionName") (fun functionName =>
  Returns (VObj [("contractAddress", contractAddress);
                 ("functionName", functionName);
                 ("error", VStr message)]))).

(** One turn of the loop: what is pushed on [results], or the error that
    leaves the [catch] and ends the loop. *)
Definition estimate_entry {S : Type}
    (estimate : ContractCall -> S -> outcome value * S) (call : value) (st : S)
    : outcome value * S :=
  let (r, st') :=
    match passed_on call with
    | Returns arguments => estimate arguments st
    | Throws message => (Throws message, st)
    end in
  (match r with
   | Returns result => Returns result
   | Throws message => failure_entry call message
   end, st').

Fixpoint estimate_entries {S : Type}
    (estimate : ContractCall -> S -> outcome value * S) (calls : list value) (st : S)
    : outcome (list value) * S :=
  match calls with
  | [] => (Returns [], st)
  | call :: rest =>
      let (pushed, st') := estimate_entry estimate call st in
      match pushed with
      | Throws message => (Throws message, st')
      | Returns entry =>
          let (results, st'') := estimate_entries estimate rest st' in
          (match results with
           | Returns entries => Returns (entry :: entries)
           | Throws message => Throws message
           end, st'')
      end
  end.

(** [batchEstimateEnergy(contractCalls)], over any state [S] that
    [estimateContractEnergy] reads and writes (cache, node, clock). *)
Definition batchEstimateEnergy {S : Type}
    (estimate : ContractCall -> S -> outcome value * S)
    (contractCalls : value) (st : S) : outcome (list value) * S :=
  match iterate contractCalls with
  | Returns calls => estimate_entries estimate calls st
  | Throws message => (Throws message, st)
  end.

(** The tool [batchEstimateEnergy({ contractCalls })] of the server;
    [estimator] is [this.energyEstimator]. *)
Definition batch_tool {S : Type}
    (estimator : option (ContractCall -> S -> outcome value * S))
    (contractCalls : value) (st : S) : outcome (list value) * S :=
  match estimator with
  | None =>
      (Throws (McpError
                 "Failed to batch estimate energy: Energy estimator not initialized"),
       st)
  | Some estimate =>
      let (r, st') := batchEstimateEnergy estimate contractCalls st in
      (match r with
       | Returns results => Returns results
       | Throws message =>
           Throws (McpError ("Failed to batch estimate energy: " ++ message))
       end, st')
  end.

(** [tx.energy_used && tx.energy_used > 0], on the energies of the recent
    transactions. *)
Definition usable (energy_used : Z) : bool := negb (energy_used =? 0) && (0 <? energy_used).

(** [Math.round(sum / length)], for a positive count: the quotient rounded
    to the nearest integer, halves upwards.  (Below 2^52 the double
    quotient rounds to the same integer as the exact one.) *)
Definition round_div (sum count : Z) : Z := (2 * sum + count) / (2 * count).

Definition total (energies : list Z) : Z := fold_left Z.add energies 0.

(** The averaging step of [getHistoricalEnergyUsage]:
    [Some (averageEnergy, sampleSize)], or [None] for [null]. *)
Definition historical_average (energy_used : list Z) : option (Z * Z) :=
  let energyUsages := filter usable energy_used in
  match energyUsages with
  | [] => None
  | _ :: _ =>
      Some (round_div (total energyUsages) (Z.of_nat (List.length energyUsages)),
            Z.of_nat (List.length energyUsages))
  end.

(** An entry of a batch that can be read: anything but [null] and
    [undefined]. *)
Definition readable (call : value) : Prop := call <> VNull /\ call <> VUndefined.

End EstimatorState.

(** * The blockchain module (index.js, class BlockchainModule) *)

Module Blockchain.
Import Router.

(** A block as a backend delivers it.  [transactions] is an array when it
    is present; [number] is the top-level field that only the explorer
    sets. *)
Record Block : Type := mkBlock {
  block_header : value;
  blockID : value;
  number : value;
  transactions : option (list value)
}.

(** What settles a block request: a backend may deliver [null] or
    [undefined] in place of a block. *)
Inductive Delivered : Type :=
| Null
| Undefined
| Present (block : Block).

(** The answer of [fetch] for a block request. *)
Record Response : Type := mkResponse {
  ok : bool;
  status : nat;
  statusText : string;
  json : outcome Delivered
}.

(** A JavaScript number, for the one option that is used in arithmetic. *)
Inductive numeric : Type :=
| Finite (q : Q)
| PositiveInfinity
| NegativeInfinity
| NotANumber.

(** The environment variables read (the empty string when unset), the
    three backends, the file system, two library conversions and the
    clock. *)
Record Env : Type := mkEnv {
  FULL_NODE_URL : string;
  TRONGRID_API_KEY : string;
  API_TRONGRID : string;
  trx_getBlock : value -> outcome Delivered;
  trx_getCurrentBlock : outcome Delivered;
  fetch : Gateway.HttpRequest -> outcome Response;
  tronScanAPI_getBlock : value -> outcome Delivered;
  tronScanAPI_getCurrentBlock : outcome Delivered;
  byteLength : Block -> Z;            (* Buffer.byteLength(JSON.stringify(block)) *)
  byteLength_undefined : string;      (* the TypeError of Buffer.byteLength(undefined) *)
  saveBlockToFile : Block -> value -> outcome string;
  size_mb : Z -> string;              (* (fullSizeBytes / 1024 / 1024).toFixed(2) *)
  show : numeric -> string;            (* `${transactionLimit}` *)
  now : string
}.

(** The options of [getBlock], with their documented types. *)
Record Options : Type := mkOptions {
  summary : bool;
  includeTransactions : bool;
  transactionLimit : numeric;
  saveToFile : bool;
  fullResponse : bool
}.

(** Truncation towards zero. *)
Definition truncate (q : Q) : Z := Z.quot (Qnum q) (Z.pos (Qden q)).

(** [items.slice(0, finish)]: the end is converted to an integer or an
    infinity, a negative end counts from the end of the array. *)
Definition slice0 {A : Type} (items : list A) (finish : numeric) : list A :=
  let len := Z.of_nat (List.length items) in
  let final :=
    match finish with
    | NotANumber => 0
    | PositiveInfinity => len
    | NegativeInfinity => 0
    | Finite q =>
        let relativeEnd := truncate q in
        if relativeEnd <? 0 then Z.max (len + relativeEnd) 0 else Z.min relativeEnd len
    end in
  firstn (Z.to_nat final) items.

(** [Math.min(limit, count)]. *)
Definition min_with (limit : numeric) (count : Z) : numeric :=
  match limit with
  | NotANumber => NotANumber
  | PositiveInfinity => Finite (inject_Z count)
  | NegativeInfinity => NegativeInfinity
  | Finite q => Finite (if Qle_bool q (inject_Z count) then q else inject_Z count)
  end.

(** [count > limit]. *)
Definition exceeds (count : Z) (limit : numeric) : bool :=
  match limit with
  | NotANumber | PositiveInfinity => false
  | NegativeInfinity => true
  | Finite q => negb (Qle_bool (inject_Z count) q)
  end.

(** [block.block_header?.raw_data?.k]. *)
Definition header_field (block : Block) (k : string) : value :=
  Resources.optional (Resources.optional (block_header block) "raw_data") k.

(** [Math.ceil(bytes / 4)]. *)
Definition ceil_quarter (bytes : Z) : Z := - ((- bytes) / 4).

(** The keys [transactions] and [transactions_info] of a processed
    block. *)
Record Window : Type := mkWindow {
  listed : list value;
  included : numeric;
  total : Z;
  limited : bool
}.

(** A processed block: the window on its transactions, when it has one,
    and its other keys. *)
Record Summary : Type := mkSummary {
  fields : obj;
  window : option Window
}.

(** [processBlockData(block, options)]. *)
Definition processBlockData (e : Env) (delivered : Delivered) (o : Options)
    (source : string) : outcome Summary :=
  match delivered with
  | Undefined => Throws (byteLength_undefined e)
  | Null => Throws "Cannot read properties of null (reading 'transactions')"
  | Present block =>
      let fullSizeBytes := byteLength e block in
      let estimatedTokens := ceil_quarter fullSizeBytes in
      let transactionCount :=
        match transactions block with
        | Some txs => Z.of_nat (List.length txs)
        | None => 0
        end in
      let result :=
        [("block_header", block_header block);
         ("blockID", blockID block);
         ("block_number", header_field block "number");
         ("timestamp", header_field block "timestamp");
         ("witness_address", header_field block "witness_address");
         ("transaction_count", VNum transactionCount);
         ("size_info", VObj [("full_size_bytes", VNum fullSizeBytes);
                             ("estimated_tokens", VNum estimatedTokens);
                             ("exceeds_limit", VBool (25000 <? estimatedTokens))]);
         ("source", VStr source)] in
      let shown :=
        match transactions block with
        | Some (tx :: txs) =>
            if includeTransactions o then
              Some (mkWindow (slice0 (tx :: txs) (transactionLimit o))
                      (min_with (transactionLimit o) transactionCount)
                      transactionCount
                      (exceeds transactionCount (transactionLimit o)))
            else None
        | _ => None
        end in
      and_then
        (if saveToFile o then
           and_then (saveBlockToFile e block (header_field block "number"))
             (fun filePath =>
           Returns (result
                    ++ [("full_data_file", VStr filePath);
                        ("file_info",
                         VObj [("path", VStr filePath);
                               ("size_mb", VStr (size_mb e fullSizeBytes));
                               ("note", VStr "Full block data saved to file")])])%list)
         else Returns result)
        (fun result =>
         Returns
           (mkSummary
              (if negb (summary o) then
                 (result
                  ++ [("help",
                       VObj [("message",
                              VStr "Block data was limited to prevent token overflow");
                             ("options",
                              VObj [("fullResponse",
                                     VStr "Set to true to get complete block data (may exceed token limit)");
                                    ("saveToFile",
                                     VStr "Set to true to save full block to file");
                                    ("includeTransactions",
                                     VStr "Set to true to include transactions");
                                    ("transactionLimit",
                                     VStr ("Increase to get more transactions (current: "
                                           ++ show e (transactionLimit o) ++ ")"))])])])%list
               else result)
              shown))
  end.


(** [fetch], the [response.ok] test and [response.json()]. *)
Definition fetch_block (e : Env) (request : Gateway.HttpRequest) : outcome Delivered :=
  and_then (fetch e request) (fun response =>
  if negb (ok response) then
    Throws ("TronGrid API error: " ++ string_of_nat (status response) ++ " "
            ++ statusText response)
  else json response).





(** [block.k] on what was delivered. *)
Definition field (delivered : Delivered) (k : string) (read : Block -> value)
    : outcome value :=
  match delivered with
  | Present block => Returns (read block)
  | Null => Throws ("Cannot read properties of null (reading '" ++ k ++ "')")
  | Undefined =>
      Throws ("Cannot read properties of undefined (reading '" ++ k ++ "')")
  end.

(** [block.block_header?.raw_data?.number] on what was delivered. *)
Definition header_number (delivered : Delivered) : outcome value :=
  and_then (field delivered "block_header" block_header) (fun header =>
  Returns (Resources.optional (Resources.optional header "raw_data") "number")).

(** The object [getCurrentBlockNumber] serialises. *)
Definition number_answer (e : Env) (blockNumber : value) (source : string) : obj :=
  [("current_block_number", blockNumber); ("timestamp", VStr (now e));
   ("source", VStr source)].

(** The node attempt: [block.block_header.raw_data.number], unchecked. *)
Definition number_from_node (e : Env) : outcome obj :=
  and_then (trx_getCurrentBlock e) (fun block =>
  and_then (field block "block_header" block_header) (fun header =>
  and_then (prop header "raw_data") (fun raw_data =>
  and_then (prop raw_data "number") (fun blockNumber =>
  Returns (number_answer e blockNumber "tronweb"))))).

(** The gateway request of [getCurrentBlockNumber]. *)
Definition number_request (e : Env) : Gateway.HttpRequest :=
  Gateway.mkHttpRequest
    ((if (FULL_NODE_URL e =? "")%string then "https://api.trongrid.io"
      else FULL_NODE_URL e) ++ "/wallet/getnowblock")
    "POST"
    (("Content-Type", "application/json")
     :: if (TRONGRID_API_KEY e =? "")%string then []
        else [("TRON-PRO-API-KEY", TRONGRID_API_KEY e)])
    (Some (VObj [])).

(** The gateway attempt, made in the [catch] of the node attempt. *)
Definition number_from_gateway (e : Env) : outcome obj :=
  and_then (fetch_block e (number_request e)) (fun block =>
  and_then (header_number block) (fun blockNumber =>
  if negb (truthy blockNumber) then
    Throws "Unable to extract block number from response"
  else Returns (number_answer e blockNumber "trongrid_api"))).

(** The explorer attempt, made in the outer [catch]. *)
Definition number_from_explorer (e : Env) : outcome obj :=
  and_then (tronScanAPI_getCurrentBlock e) (fun block =>
  and_then (field block "number" number) (fun top =>
  and_then (if truthy top then Returns top else header_number block)
    (fun blockNumber =>
  if negb (truthy blockNumber) then
    Throws "Unable to extract block number from TronScan response"
  else Returns (number_answer e blockNumber "tronscan_api")))).

(** [getCurrentBlockNumber()], with the backends attempted. *)
Definition getCurrentBlockNumber (e : Env) : outcome obj * list Backend :=
  match number_from_node e with
  | Returns answer => (Returns answer, [TronWeb])
  | Throws nodeError =>
      match number_from_gateway e with
      | Returns answer => (Returns answer, [TronWeb; TronGrid])
      | Throws error =>
          match number_from_explorer e with
          | Returns answer => (Returns answer, [TronWeb; TronGrid; TronScan])
          | Throws scanError =>
              (Throws (McpError
                         ("Failed to get current block number from all sources: "
                          ++ error)),
               [TronWeb; TronGrid; TronScan])
          end
      end
  end.

End Blockchain.


(** ** Concrete requests used in the examples below *)

Module Scenario.
Import Router.

(** A wallet whose node client rejects the transfer before sending it. *)
Definition rejecting_wallet : Account.Wallet :=
  Account.mkWallet true (Throws "Invalid recipient provided")
    (Returns (VObj [("txID", VStr "7c2d")]))
    (Returns (VObj [("result", VBool true); ("txid", VStr "7c2d")]))
    "2025-01-01T00:00:00.000Z".

(** [sendTrx], probe answered after 40 ms. *)
Definition send_request : Call :=
  mkCall (Account.sendTrx_operation rejecting_wallet) "sendTrx" (Returns 40).

(** A read served by every backend; probe answered after 900 ms. *)
Definition parameters_operation : Operation :=
  mkOperation (Some (Returns (VArr [VObj [("key", VStr "getEnergyFee"); ("value", VNum 210)]])))
              (Some (Returns (VObj [("chainParameter", VArr [])])))
              (Some (Returns (VObj [("chainParameter", VArr [])]))).

Definition parameters_request : Call :=
  mkCall parameters_operation "getChainParameters" (Returns 900).

(** A candidate map without explorer whose two candidates fail. *)
Definition two_failures : Operation :=
  mkOperation (Some (Throws "connect ECONNREFUSED"))
              (Some (Throws "TronGrid API error: 503 Service Unavailable"))
              None.

(** A candidate map without primary. *)
Definition gateway_only : Operation :=
  mkOperation None (Some (Returns (VObj [("balance", VNum 5)]))) None.

(** A later read; it would not issue a probe of its own. *)
Definition later_request : Call :=
  mkCall parameters_operation "getEnergyPrices" (Throws "unused").


(** The examples compare numbers only, so what this runtime answers is
    never consulted. *)
Definition runtime : Runtime := mkRuntime (fun _ => false) (fun _ => VUndefined).

(** [fromSun] on an amount that is not negative: the quotient by
    1,000,000 as a numeral without trailing zeros. *)
Fixpoint strip_zeros (s : string) : string :=
  match s with
  | EmptyString => EmptyString
  | String c rest =>
      let kept := strip_zeros rest in
      if ((kept =? "")%string && Ascii.eqb c "0"%char)%bool then EmptyString
      else String c kept
  end.

Definition fromSun (sun : Z) : string :=
  let whole := NilEmpty.string_of_int (Z.to_int (sun / 1000000)) in
  let fraction :=
    match NilEmpty.string_of_int (Z.to_int (1000000 + sun mod 1000000)) with
    | String _ six => strip_zeros six
    | EmptyString => EmptyString
    end in
  if (fraction =? "")%string then whole else whole ++ "." ++ fraction.

(** A node client that rejects the address locally, with a plain string,
    and a gateway that answers with an empty account; conversions are
    exact. *)
Definition lenient_backends : Account.Backends :=
  Account.mkBackends (fun _ => rejected (PlainString "Invalid address provided"))
    fromSun
    (fun _ => Returns (Account.Data None))
    (fun _ => Throws (McpError "TronScan API call failed: TronScan API error: 400 Bad Request"))
    Qdiv.

(** The node is down and the gateway reports 1.5 TRX for every address. *)
Definition gateway_backends : Account.Backends :=
  Account.mkBackends (fun _ => Throws "connect ECONNREFUSED")
    fromSun
    (fun _ => Returns (Account.Data (Some 1500000)))
    (fun _ => Returns (Account.Data (Some 1500000)))
    Qdiv.



(** An estimator node whose address check is a length test. *)
Definition strict_node : EnergyEstimator.Node :=
  EnergyEstimator.mkNode (fun a => (String.length a =? 34)%nat)
    (VStr Heuristics.NEW_ADDRESS) None (Returns (VObj [])) (Returns (VObj []))
    None None None None "2025-01-01T00:00:00.000Z".

End Scenario.

(** ** Further sample data *)

Module Sample.
Import Router.

(** Node and gateway down; the explorer knows the account but reports
    only part of its bandwidth. *)
Definition explorer_only : Resources.Backends :=
  Resources.mkBackends
    (fun _ => Throws "connect ECONNREFUSED")
    (fun _ => Throws "TronGrid API call failed: TronGrid API error: 503 Service Unavailable")
    (fun _ => Returns (VObj [("bandwidth", VObj [("freeNetLimit", VNum 600);
                                                   ("energyUsed", VNum 0)])])).

(** No backend reachable. *)
Definition unreachable : Account.Backends :=
  Account.mkBackends
    (fun _ => Throws "connect ECONNREFUSED")
    Scenario.fromSun
    (fun _ => Throws (McpError
                        "TronGrid API call failed: TronGrid API error: 503 Service Unavailable"))
    (fun _ => Throws (McpError
                        "TronScan API call failed: TronScan API error: 502 Bad Gateway"))
    Qdiv.


(** A wallet without any private key. *)
Definition keyless_wallet : Account.Wallet :=
  Account.mkWallet false (Returns (VObj [])) (Returns (VObj [])) (Returns (VObj []))
    "2025-01-01T00:00:00.000Z".

(** A wallet whose node client sends the transaction. *)
Definition funded_wallet : Account.Wallet :=
  Account.mkWallet true
    (Returns (VObj [("result", VBool true); ("txid", VStr "7c2d");
                    ("to", VStr "overwritten")]))
    (Returns (VObj [("txID", VStr "7c2d")]))
    (Returns (VObj [("result", VBool true)]))
    "2025-01-01T00:00:00.000Z".

End Sample.

(** Further sample data for the tools. *)

Module Sample2.
Import Router.

(** An ABI encoder that rejects everything. *)
Definition rejecting_encoder : Encoding.Encoder :=
  fun _ _ => Throws "invalid address".

(** An encoder that rewrites the address entries, as far as they are
    recognised, to a hexadecimal form. *)
Definition hex_rewriter : Encoding.Rewriter :=
  fun types values =>
    map (fun tv => if (fst tv =? "address")%string
                   then VStr "0xa614f803b6fd780986a42c78ec9c7f77e6ded13c"
                   else snd tv)
        (combine types values).

(** A gateway that echoes the parameter string it was sent; the parameter
    encoding of [contractCall] for [transfer] over the rejecting encoder. *)
Definition echo_env : Tools.Env :=
  Tools.mkEnv None (fun _ _ => Throws "Energy estimation failed: malformed request")
    (Throws "connect ECONNREFUSED") VUndefined
    (Encoding.contract_parameter rejecting_encoder "transfer")
    (Encoding.parameters_after rejecting_encoder hex_rewriter "transfer")
    (fun _ => Returns "")
    (fun q => Returns (VObj [("sent_parameter", VStr (Tools.parameter q));
                             ("contractAddress", VStr "overwritten")]))
    "2025-01-01T00:00:00.000Z".

(** Chain parameters as the node lists them. *)
Definition chain_parameters : list value :=
  [VObj [("key", VStr "getEnergyFee"); ("value", VNum 420)];
   VObj [("key", VStr "getTransactionFee"); ("value", VNum 1000)];
   VObj [("key", VStr "getMaintenanceTimeInterval")]].

End Sample2.

(** Sample networks. *)

Module Sample3.

(** A gateway that knows no v1 route and rejects the legacy one. *)
Definition legacy_only (answer : outcome Prices.Response) : Gateway.Network :=
  Gateway.mkNetwork "" ""
    (fun request =>
       if (Gateway.http_method request =? "GET")%string
       then Returns (Prices.mkResponse false 404 "Not Found" (Returns VNull))
       else answer)
    "2025-01-01T00:00:00.000Z".

(** A gateway that answers every request with the genesis block. *)
Definition genesis : Gateway.Network :=
  Gateway.mkNetwork "" "key"
    (fun _ => Returns (Prices.mkResponse true 200 "OK"
                         (Returns (VObj [("block_header",
                                          VObj [("raw_data", VObj [("number", VNum 0)])])]))))
    "2025-01-01T00:00:00.000Z".

End Sample3.

(** Sample estimator data. *)

Module Sample4.

(** A node on which only the [estimateEnergy] method answers. *)
Definition partly_live_node : EnergyEstimator.Node :=
  EnergyEstimator.mkNode (fun a => (String.length a =? 34)%nat)
    (VStr Heuristics.NEW_ADDRESS) None
    (Returns (VObj [("transfer", VBool true)])) (Returns (VObj []))
    None (Some (VNum 64285)) (Some (VNum 70000)) (Some (VNum 65000, VNum 12))
    "2025-01-01T00:00:00.000Z".

End Sample4.

(** Sample blocks. *)

Module Sample5.

Definition header (n : Z) : value :=
  VObj [("raw_data", VObj [("number", VNum n); ("timestamp", VNum 1735689600000);
                           ("witness_address", VStr "41f16412b9a17ee9408646e2a21e16478f72ed1e95")])].

(** A block with three transactions. *)
Definition busy_block : Blockchain.Block :=
  Blockchain.mkBlock (header 68000000)
    (VStr "00000000040d9900a1b2c3d4e5f60718293a4b5c6d7e8f90")
    VUndefined
    (Some [VObj [("txID", VStr "a1")]; VObj [("txID", VStr "b2")];
           VObj [("txID", VStr "c3")]]).

(** A node that is down, a gateway that serves [busy_block], no file
    system. *)
Definition gateway_env : Blockchain.Env :=
  Blockchain.mkEnv "" "" ""
    (fun _ => Throws "connect ECONNREFUSED")
    (Throws "connect ECONNREFUSED")
    (fun _ => Returns (Blockchain.mkResponse true 200 "OK"
                         (Returns (Blockchain.Present busy_block))))
    (fun _ => Throws "TronScan API error: 502 Bad Gateway")
    (Throws "TronScan API error: 502 Bad Gateway")
    (fun _ => 1842)
    "The argument must be of type string. Received undefined"
    (fun _ _ => Throws "EACCES: permission denied, open '/tmp/tron-blocks/block.json'")
    (fun _ => "0.00")
    (fun _ => "2.5")
    "2025-01-01T00:00:00.000Z".

(** At most two and a half transactions. *)
Definition two_and_a_half : Blockchain.Options :=
  Blockchain.mkOptions true true (Blockchain.Finite (5 # 2)) false false.

End Sample5.

(** * Properties *)

(** ** Strings and objects *)

Section Strings.

Lemma append_assoc (a b c : string) : (a ++ b) ++ c = a ++ (b ++ c).
Proof.
  induction a as [|ch a IH]; simpl; [reflexivity | now rewrite IH].
Qed.

Lemma append_empty_r (a : string) : a ++ "" = a.
Proof.
  induction a as [|ch a IH]; simpl; [reflexivity | now rewrite IH].
Qed.

Lemma contains_refl (s : string) : contains s s.
Proof. exists "", "". simpl. now rewrite append_empty_r. Qed.

Lemma contains_append_l (a b t : string) : contains a t -> contains (a ++ b) t.
Proof.
  intros (pre & post & ->). exists pre, (post ++ b).
  now rewrite !append_assoc.
Qed.

Lemma contains_append_r (a b t : string) : contains b t -> contains (a ++ b) t.
Proof.
  intros (pre & post & ->). exists (a ++ pre), post.
  now rewrite !append_assoc.
Qed.

Lemma contains_cons (c : ascii) (s t : string) :
  contains s t -> contains (String c s) t.
Proof. intros (pre & post & ->). now exists (String c pre), post. Qed.

Lemma contains_trans (s t u : string) : contains s t -> contains t u -> contains s u.
Proof.
  intros (p1 & q1 & ->) (p2 & q2 & ->). exists (p1 ++ p2), (q2 ++ q1).
  now rewrite !append_assoc.
Qed.

Lemma prefix_append (t s : string) :
  String.prefix t s = true <-> exists post, s = t ++ post.
Proof.
  revert s. induction t as [|c t IH]; intros s; simpl.
  - split; [intros _; now exists s | now destruct s].
  - destruct s as [|d s]; simpl.
    + split; [discriminate | intros (post & H); discriminate].
    + destruct (Ascii.ascii_dec c d) as [->|Hne].
      * rewrite IH. split; intros (post & H); exists post; congruence.
      * split; [discriminate | intros (post & H); congruence].
Qed.

(** [includes] decides [contains]. *)
Lemma includes_contains (s t : string) : includes s t = true <-> contains s t.
Proof.
  split.
  - induction s as [|c s IH]; cbn [includes]; rewrite orb_true_iff.
    + intros [H|H]; [|discriminate].
      apply prefix_append in H as (post & ->). now exists "", post.
    + intros [H|H].
      * apply prefix_append in H as (post & ->). now exists "", post.
      * destruct (IH H) as (pre & post & ->). now exists (String c pre), post.
  - intros (pre & post & ->). induction pre as [|c pre IH].
    + change ("" ++ t ++ post) with (t ++ post).
      assert (P : String.prefix t (t ++ post) = true)
        by (apply prefix_append; now exists post).
      destruct (t ++ post); cbn [includes]; now rewrite P.
    + change (String c pre ++ t ++ post) with (String c (pre ++ t ++ post)).
      cbn [includes]. rewrite IH. apply orb_true_r.
Qed.

Lemma not_contains (s t : string) : includes s t = false -> ~ contains s t.
Proof.
  intros H C. apply includes_contains in C. congruence.
Qed.

Lemma lookup_assign (k : string) (v : value) (o : obj) : lookup k (assign k v o) = v.
Proof.
  induction o as [|[k' v'] o IH]; simpl.
  - now rewrite String.eqb_refl.
  - destruct (k' =? k)%string eqn:E; simpl; rewrite E; [reflexivity | exact IH].
Qed.

Lemma source_with_source (result : value) (tag : string) :
  lookup "source" (with_source result tag) = VStr tag.
Proof. apply lookup_assign. Qed.

End Strings.

(** ** The router, one request at a time *)

Import Router.

Ltac router :=
  unfold execute, executeWithFallback, attempts, bind, ret, checkNodeAvailability,
    call_tronweb, attempt, record_invocation, set_nodeAvailable, mcp_wrap, pushed in *;
  cbn [nodeAvailable invoked tronweb trongrid tronscan operation operationName probe
       fst snd negb] in *.

(** Closes [not_invoked] and [was_invoked] goals once the final log is explicit. *)
Ltac log :=
  first
    [ exists []; rewrite app_nil_r; split; [reflexivity | intros []]
    | eexists; split;
      [ rewrite <- ?app_assoc; reflexivity
      | cbn [In app]; intuition discriminate ] ].

Section Sequential.

Lemma not_invoked_refl (b : Backend) (s : Server) : not_invoked b s s.
Proof. log. Qed.

Lemma not_invoked_trans (b : Backend) (s1 s2 s3 : Server) :
  not_invoked b s1 s2 -> not_invoked b s2 s3 -> not_invoked b s1 s3.
Proof.
  intros (l1 & E1 & N1) (l2 & E2 & N2). exists (l1 ++ l2)%list. split.
  - now rewrite E2, E1, app_assoc.
  - rewrite in_app_iff. tauto.
Qed.

(** With the flag at [false] a request leaves it there and does not
    invoke the primary candidate. *)
Lemma execute_latched (c : Call) (s : Server) :
  nodeAvailable s = Some false ->
  nodeAvailable (snd (execute c s)) = Some false
  /\ not_invoked TronWeb s (snd (execute c s)).
Proof.
  destruct s as [flag l], c as [[p g e] name pr]. unfold not_invoked.
  router. intros ->.
  destruct g as [[rg|mg]|], e as [[re|me]|]; cbn; (split; [reflexivity | log]).
Qed.

(** The same for any number of requests served one after another. *)
Lemma serve_latched (calls : list Call) (s : Server) :
  nodeAvailable s = Some false ->
  nodeAvailable (snd (serve calls s)) = Some false
  /\ not_invoked TronWeb s (snd (serve calls s)).
Proof.
  revert s. induction calls as [|c calls IH]; intros s H.
  - split; [exact H | apply not_invoked_refl].
  - destruct (execute_latched c s H) as [H1 N1].
    destruct (execute c s) as [r s1] eqn:E1. cbn [snd] in H1, N1.
    destruct (IH s1 H1) as [H2 N2].
    destruct (serve calls s1) as [rs s2] eqn:E2. cbn [snd] in H2, N2.
    assert (E : serve (c :: calls) s = (r :: rs, s2)).
    { cbn [serve]. unfold bind, ret. now rewrite E1, E2. }
    rewrite E. split; [exact H2 | exact (not_invoked_trans _ _ _ _ N1 N2)].
Qed.

(** A primary failure sets the flag to [false]. *)
Lemma primary_failure_latches (c : Call) (s : Server) (nodeError : string) :
  fst (checkNodeAvailability (probe c) s) = true ->
  tronweb (operation c) = Some (Throws nodeError) ->
  nodeAvailable (snd (execute c s)) = Some false.
Proof.
  destruct s as [flag l], c as [[p g e] name pr]. router. intros A ->.
  destruct flag as [[|]|]; [| discriminate |].
  - destruct g as [[rg|mg]|], e as [[re|me]|]; reflexivity.
  - destruct pr as [rt|m]; [|discriminate]. cbn in A. rewrite A.
    destruct g as [[rg|mg]|], e as [[re|me]|]; reflexivity.
Qed.

End Sequential.

(** C1. Fallback ordering: when all three candidates are supplied, the
    primary candidate throws and the gateway candidate succeeds, the call
    returns the gateway's result tagged [source: 'trongrid_api'], whatever
    the state of the availability flag, and the explorer candidate is not
    invoked. *)
Theorem gateway_answers_after_primary_failure
    (op : Operation) (name : string) (pr : outcome Z) (s : Server)
    (nodeError : string) (gatewayResult : value) (explorer : thunk) :
  tronweb op = Some (Throws nodeError) ->
  trongrid op = Some (Returns gatewayResult) ->
  tronscan op = Some explorer ->
  exists result,
    fst (executeWithFallback op name pr s) = Returns result
    /\ result = with_source gatewayResult "trongrid_api"
    /\ lookup "source" result = VStr (source_tag TronGrid)
    /\ not_invoked TronScan s (snd (executeWithFallback op name pr s)).
Proof.
  destruct s as [flag l], op as [p g e]. cbn [tronweb trongrid tronscan].
  intros -> -> ->. exists (with_source gatewayResult "trongrid_api").
  unfold not_invoked. router.
  destruct flag as [[|]|]; [| | destruct pr as [rt|m]; [destruct (rt <? 5000)|]];
    cbn; (repeat split; [apply source_with_source | log]).
Qed.

Lemma gateway_answers_after_primary_failure_witness :
  exists result,
    fst (executeWithFallback
           (mkOperation (Some (Throws "connect ECONNREFUSED"))
                        (Some (Returns (VObj [("blockID", VStr "0000")])))
                        (Some (Returns (VObj []))))
           "getBlock" (Returns 12) initial) = Returns result
    /\ lookup "source" result = VStr "trongrid_api".
Proof.
  destruct (gateway_answers_after_primary_failure
              (mkOperation (Some (Throws "connect ECONNREFUSED"))
                           (Some (Returns (VObj [("blockID", VStr "0000")])))
                           (Some (Returns (VObj []))))
              "getBlock" (Returns 12) initial
              "connect ECONNREFUSED" (VObj [("blockID", VStr "0000")])
              (Returns (VObj [])) eq_refl eq_refl eq_refl)
    as (result & H1 & _ & H3 & _).
  exists result. split; [exact H1 | exact H3].
Defined.

(** ** Aggregated errors *)

(** Finds a given piece inside a concatenation. *)
Ltac occurs :=
  lazymatch goal with
  | |- contains ?s ?s => apply contains_refl
  | |- contains (McpError _) _ => unfold McpError; occurs
  | |- contains (String _ _) _ => apply contains_cons; occurs
  | |- contains (_ ++ _) _ =>
      first [ solve [apply contains_append_l; occurs]
            | apply contains_append_r; occurs ]
  end.

(** When an explorer candidate is supplied and every candidate fails, the
    message of the error contains, for each candidate that was invoked,
    what the [message] property of its failure gives. *)
Lemma aggregate_complete_with_explorer
    (op : Operation) (name : string) (pr : outcome Z) (s : Server)
    (explorerError : string) :
  tronscan op = Some (Throws explorerError) ->
  (forall r, tronweb op <> Some (Returns r)) ->
  (forall r, trongrid op <> Some (Returns r)) ->
  exists message,
    fst (executeWithFallback op name pr s) = Throws message
    /\ contains message explorerError
    /\ (forall e, trongrid op = Some (Throws e) -> contains message e)
    /\ (forall e, tronweb op = Some (Throws e) ->
        fst (checkNodeAvailability pr s) = true -> contains message e).
Proof.
  destruct s as [flag l], op as [p g e]. cbn [tronweb trongrid tronscan].
  intros -> Hp Hg.
  router.
  destruct p as [[rp|mp]|]; try (exfalso; eapply Hp; reflexivity);
  destruct g as [[rg|mg]|]; try (exfalso; eapply Hg; reflexivity);
  destruct flag as [[|]|]; try destruct pr as [rt|m]; try destruct (rt <? 5000);
    cbn in *; eexists; (split; [reflexivity|]);
    (split; [occurs|]);
    (split; intros x Hx; [| intros Ha]);
    try discriminate; try (injection Hx as <-); try occurs.
Qed.

(** C3. Aggregate error completeness is claimed for every non-empty set
    of candidates, and the router records each failure in [sources]; yet
    when the gateway candidate fails and no explorer candidate was
    supplied, the recorded list is dropped.  With the node available, the
    primary and gateway candidates failing and no explorer candidate, the
    error carries the primary message only; with the node marked
    unavailable, it carries neither. *)
Theorem gateway_failure_dropped_without_explorer :
  (fst (executeWithFallback Scenario.two_failures "getBlock" (Returns 12)
          (mkServer (Some true) []))
     = Throws (McpError "getBlock failed: connect ECONNREFUSED")
   /\ invoked (snd (executeWithFallback Scenario.two_failures "getBlock" (Returns 12)
                      (mkServer (Some true) [])))
      = [TronWeb; TronGrid]
   /\ ~ contains (McpError "getBlock failed: connect ECONNREFUSED")
                 "TronGrid API error: 503 Service Unavailable")
  /\
  (fst (executeWithFallback Scenario.two_failures "getBlock" (Returns 12)
          (mkServer (Some false) []))
     = Throws (McpError "getBlock failed: No fallback sources available for getBlock")
   /\ invoked (snd (executeWithFallback Scenario.two_failures "getBlock" (Returns 12)
                      (mkServer (Some false) [])))
      = [TronGrid]
   /\ ~ contains (McpError "getBlock failed: No fallback sources available for getBlock")
                 "TronGrid API error: 503 Service Unavailable").
Proof.
  repeat split; try reflexivity; apply not_contains; reflexivity.
Qed.

(** ** Requests in flight *)

Import Async.

(** X7. A request that is alone in the process, resumed at each of its
    [await]s in turn, ends with the result, the recorded [sources] and the
    server state that [executeWithFallback] has when read as one
    sequential function. *)
Lemma alone_agrees (c : Call) (s : Server) :
  point (fst (alone c s)) = Settled (fst (execute c s))
  /\ sources (fst (alone c s)) = snd (fst (attempts (operation c) (operationName c) (probe c) s))
  /\ snd (alone c s) = snd (execute c s).
Proof.
  destruct s as [flag l], c as [[p g e] name pr].
  destruct flag as [[|]|]; [| | destruct pr as [rt|m]];
    destruct p as [[rp|mp]|], g as [[rg|mg]|], e as [[re|me]|];
    unfold alone, start, resume, enter, tronweb_failed, to_trongrid, to_tronscan,
      settle, push, at_point, settled_with; router; cbn;
    try destruct (rt <? 5000); cbn; repeat split; reflexivity.
Qed.

(** Only the probe can take the flag away from [false]: as long as no
    request is suspended at the probe, a flag at [false] stays there
    through every arrival and every continuation. *)
Lemma resume_latched (r : Request) (s : Server) :
  nodeAvailable s = Some false ->
  point r <> AwaitProbe ->
  nodeAvailable (snd (resume r s)) = Some false
  /\ point (fst (resume r s)) <> AwaitProbe.
Proof.
  destruct s as [flag l], r as [[[p g e] name pr] pt src ne].
  cbn [nodeAvailable point]. intros -> Hp.
  destruct pt as [|[|]| | | |res]; [now elim Hp| | | | | |];
    destruct p as [[rp|mp]|], g as [[rg|mg]|], e as [[re|me]|];
    unfold resume, enter, tronweb_failed, to_trongrid, to_tronscan, settle, push,
      at_point, settled_with; router; cbn; split; (reflexivity || discriminate).
Qed.

Lemma Forall_update {P : Request -> Prop} (i : nat) (r : Request) (l : list Request) :
  Forall P l -> P r -> Forall P (update i r l).
Proof.
  intros H Hr. revert i. induction H as [|x l Hx Hl IH]; intros i.
  - destruct i; constructor.
  - destruct i; cbn; constructor; auto.
Qed.

Lemma step_latched (e : Event) (p : Process) : latched p -> latched (step e p).
Proof.
  intros [Hf Hn]. destruct e as [c|i]; unfold step.
  - unfold start. rewrite Hf. split; [exact Hf|].
    unfold no_pending_probe in *. cbn [requests]. apply Forall_app. split; [exact Hn|].
    constructor; [discriminate | constructor].
  - destruct (nth_error (requests p) i) as [r|] eqn:E; [|now split].
    assert (Hr : point r <> AwaitProbe).
    { unfold no_pending_probe in Hn. rewrite Forall_forall in Hn.
      apply Hn. eapply nth_error_In. exact E. }
    destruct (resume_latched r (server p) Hf Hr) as [H1 H2].
    destruct (resume r (server p)) as [r' s']. cbn [fst snd] in H1, H2.
    split; [exact H1|]. unfold no_pending_probe. cbn [requests].
    apply Forall_update; assumption.
Qed.

Lemma run_latched (events : list Event) (p : Process) :
  latched p -> latched (run events p).
Proof.
  revert p. induction events as [|e events IH]; intros p H; [exact H|].
  cbn. apply IH. now apply step_latched.
Qed.

(** C2. The flag is meant as a one-way latch, and for requests served one
    after another it is one ([serve_latched]).  But the probe writes the
    flag when it settles, whatever the flag has become in the meantime:
    two requests arrive while the flag is still [null] and both issue the
    probe; the first is answered, tries the primary candidate, fails and
    sets the flag to [false]; then the probe of the second is answered
    and sets the flag back to [true].  A request that arrives afterwards
    invokes the primary candidate again. *)
Theorem late_probe_reopens_latch :
  let failed :=
    run [Arrive Scenario.send_request; Arrive Scenario.parameters_request;
         Wake 0; Wake 0] boot in
  let reopened := run [Wake 1] failed in
  let later := run [Arrive Scenario.later_request; Wake 2] reopened in
  nodeAvailable (server failed) = Some false
  /\ invoked (server failed) = [TronWeb; TronGrid]
  /\ nodeAvailable (server reopened) = Some true
  /\ invoked (server reopened) = [TronWeb; TronGrid; TronWeb]
  /\ invoked (server later) = [TronWeb; TronGrid; TronWeb; TronWeb]
  /\ was_invoked TronWeb (server reopened) (server later).
Proof.
  cbv zeta. repeat split; try reflexivity.
  exists [TronWeb]. split; [reflexivity | now left].
Qed.

(** ** A missing primary candidate *)

(** C10, as stated, fails when the flag is still [null] and the probe
    fails: the router then skips the primary step, the missing candidate
    is not called and no [TronWeb] entry is recorded. *)
Lemma missing_primary_skipped_when_probe_fails :
  nodeAvailable initial <> Some false
  /\ tronweb Scenario.gateway_only = None
  /\ invoked (snd (attempts Scenario.gateway_only "getAccount"
                     (Throws "connect ECONNREFUSED") initial)) = [TronGrid]
  /\ snd (fst (attempts Scenario.gateway_only "getAccount"
                 (Throws "connect ECONNREFUSED") initial)) = []
  /\ ~ was_invoked TronWeb initial
        (snd (attempts Scenario.gateway_only "getAccount"
                (Throws "connect ECONNREFUSED") initial)).
Proof.
  repeat split; try reflexivity; try discriminate.
  intros (log & E & H). cbn in E. subst log.
  destruct H as [H|[]]. discriminate.
Qed.

(** C10 (amended). Whenever the availability check answers [true] (the
    flag is [true], or it is [null] and the probe is answered in under
    5000 ms) and the candidate map has no primary candidate, the router
    still calls it; the [TypeError] is recorded as the TronWeb failure,
    the flag is set to [false], and no request served afterwards, one
    after another, invokes a primary candidate. *)
Theorem missing_primary_disables_node
    (op : Operation) (name : string) (pr : outcome Z) (s : Server) :
  tronweb op = None ->
  fst (checkNodeAvailability pr s) = true ->
  let r := attempts op name pr s in
  was_invoked TronWeb s (snd r)
  /\ hd_error (snd (fst r)) = Some ("TronWeb: " ++ NOT_A_FUNCTION)
  /\ nodeAvailable (snd r) = Some false
  /\ forall later : list Call,
       nodeAvailable (snd (serve later (snd r))) = Some false
       /\ not_invoked TronWeb (snd r) (snd (serve later (snd r))).
Proof.
  intros Hp Ha r.
  assert (L : nodeAvailable (snd r) = Some false
              /\ was_invoked TronWeb s (snd r)
              /\ hd_error (snd (fst r)) = Some ("TronWeb: " ++ NOT_A_FUNCTION)).
  { subst r. destruct s as [flag l], op as [p g e]. cbn [tronweb] in Hp. subst p.
    unfold was_invoked. router.
    destruct flag as [[|]|]; [| discriminate |].
    - destruct g as [[rg|mg]|], e as [[re|me]|]; cbn; repeat split; log.
    - destruct pr as [rt|m]; [|discriminate]. cbn in Ha. rewrite Ha.
      destruct g as [[rg|mg]|], e as [[re|me]|]; cbn; repeat split; log. }
  destruct L as (L1 & L2 & L3). repeat split; try assumption;
    apply serve_latched; exact L1.
Qed.

Lemma missing_primary_disables_node_witness :
  fst (checkNodeAvailability (Returns 12) initial) = true
  /\ nodeAvailable (snd (attempts Scenario.gateway_only "getAccount" (Returns 12) initial))
     = Some false.
Proof.
  split; [reflexivity|].
  exact (proj1 (proj2 (proj2
    (missing_primary_disables_node Scenario.gateway_only "getAccount" (Returns 12)
       initial eq_refl eq_refl)))).
Defined.

(** ** The heuristic estimate *)

Import Heuristics.

Lemma strict_eq_str_true (v : value) (lit : string) :
  strict_eq_str v lit = true <-> v = VStr lit.
Proof.
  destruct v; simpl; try (split; [discriminate | intros H; discriminate]).
  rewrite String.eqb_eq. split; [now intros -> | now intros [= ->]].
Qed.

Lemma usdt_table_none (f : string) (to : value) :
  ~ In f ["transfer"; "approve"; "transferfrom"; "balanceof"] ->
  usdt_table f to = None.
Proof.
  intros H. unfold usdt_table.
  destruct (String.eqb_spec f "transfer"); [subst; exfalso; apply H; simpl; tauto|].
  destruct (String.eqb_spec f "approve"); [subst; exfalso; apply H; simpl; tauto|].
  destruct (String.eqb_spec f "transferfrom"); [subst; exfalso; apply H; simpl; tauto|].
  destruct (String.eqb_spec f "balanceof"); [subst; exfalso; apply H; simpl; tauto|].
  reflexivity.
Qed.

(** Outside the table of the known contract the estimate is the generic one. *)
Lemma generic_estimate (fn : string) (ps : list value) (ca to : value) :
  ~ (ca = VStr USDT_CONTRACT
     /\ In (toLowerCase fn) ["transfer"; "approve"; "transferfrom"; "balanceof"]) ->
  getFallbackEnergyEstimate fn ps ca to
  = match pattern_table (toLowerCase fn) with
    | Some e => e
    | None => default_estimate ps
    end.
Proof.
  intros H. unfold getFallbackEnergyEstimate.
  destruct (strict_eq_str ca USDT_CONTRACT) eqn:E; [|reflexivity].
  apply strict_eq_str_true in E. rewrite usdt_table_none; [reflexivity|].
  intros I. apply H. now split.
Qed.

(** C6. The heuristic is evaluated in a fixed order.  First the table of
    the known contract (USDT): [transfer] costs 28000 when the recipient
    is the known new address and 13940 otherwise (the new-address constant
    being twice the other plus 120), [approve] 13180, [transferFrom] 18190,
    [balanceOf] 680, whatever the patterns would say.  Otherwise the first
    matching group of substrings of the lower-cased function name decides:
    transfer/send 14010, approve/allowance 10000, swap/exchange 50000,
    mint/burn 30000, view/get/balance 1000.  When nothing matches the
    estimate is exactly 20000 + 5000 * (number of parameters). *)
Theorem fallback_precedence (fn : string) (ps : list value) (ca to : value) :
  let f := toLowerCase fn in
  let estimate := getFallbackEnergyEstimate fn ps ca to in
  let group a b := includes f a || includes f b in
  (ca = VStr USDT_CONTRACT ->
     (f = "transfer" -> to = VStr NEW_ADDRESS -> estimate = 28000)
     /\ (f = "transfer" -> to <> VStr NEW_ADDRESS -> estimate = 13940)
     /\ (f = "approve" -> estimate = 13180)
     /\ (f = "transferfrom" -> estimate = 18190)
     /\ (f = "balanceof" -> estimate = 680))
  /\ 28000 = 2 * 13940 + 120
  /\ (~ (ca = VStr USDT_CONTRACT
         /\ In f ["transfer"; "approve"; "transferfrom"; "balanceof"]) ->
      (group "transfer" "send" = true -> estimate = 14010)
      /\ (group "transfer" "send" = false ->
          (group "approve" "allowance" = true -> estimate = 10000)
          /\ (group "approve" "allowance" = false ->
              (group "swap" "exchange" = true -> estimate = 50000)
              /\ (group "swap" "exchange" = false ->
                  (group "mint" "burn" = true -> estimate = 30000)
                  /\ (group "mint" "burn" = false ->
                      (group "view" "get" || includes f "balance" = true ->
                       estimate = 1000)
                      /\ (group "view" "get" || includes f "balance" = false ->
                          estimate
                          = 20000 + 5000 * Z.of_nat (List.length ps)))))))
  /\ ((forall e, pattern_table f <> Some e) ->
      ~ (ca = VStr USDT_CONTRACT
         /\ In f ["transfer"; "approve"; "transferfrom"; "balanceof"]) ->
      estimate = 20000 + 5000 * Z.of_nat (List.length ps)).
Proof.
  intros f estimate group. subst estimate.
  split; [|split; [reflexivity|split]].
  - intros ->. unfold getFallbackEnergyEstimate. fold f.
    split; [|split; [|split; [|split]]]; intros Hf; rewrite Hf; try reflexivity.
    + intros ->. reflexivity.
    + intros Hto. cbn. unfold usdt_transfer.
      destruct (strict_eq_str to NEW_ADDRESS) eqn:E.
      * apply strict_eq_str_true in E. contradiction.
      * destruct (truthy to), (strict_eq_str to EXISTING_ADDRESS); reflexivity.
  - intros H. rewrite (generic_estimate _ _ _ _ H). fold f. unfold pattern_table.
    subst group. cbv beta.
    split; [intros E1; now rewrite E1 | intros E1; rewrite E1].
    split; [intros E2; now rewrite E2 | intros E2; rewrite E2].
    split; [intros E3; now rewrite E3 | intros E3; rewrite E3].
    split; [intros E4; now rewrite E4 | intros E4; rewrite E4].
    split; [intros E5; now rewrite E5 | intros E5; rewrite E5].
    unfold default_estimate. lia.
  - intros N H. rewrite (generic_estimate _ _ _ _ H). fold f.
    destruct (pattern_table f) as [e|] eqn:E; [now elim (N e)|].
    unfold default_estimate. lia.
Qed.

Lemma fallback_precedence_witness :
  getFallbackEnergyEstimate "Transfer" [VStr NEW_ADDRESS; VNum 5]
    (VStr USDT_CONTRACT) (VStr NEW_ADDRESS) = 28000
  /\ getFallbackEnergyEstimate "sendTokens" [VNum 5] (VStr "TXYZ") VNull = 14010
  /\ getFallbackEnergyEstimate "stake" [VNum 1; VNum 2] (VStr "TXYZ") VNull
     = 20000 + 5000 * 2.
Proof.
  split; [|split].
  - exact (proj1 (proj1 (fallback_precedence "Transfer" [VStr NEW_ADDRESS; VNum 5]
                           (VStr USDT_CONTRACT) (VStr NEW_ADDRESS)) eq_refl)
             eq_refl eq_refl).
  - refine (proj1 (proj1 (proj2 (proj2 (fallback_precedence "sendTokens" [VNum 5]
                                          (VStr "TXYZ") VNull))) _) eq_refl).
    intros [H _]. discriminate H.
  - refine (proj2 (proj2 (proj2 (fallback_precedence "stake" [VNum 1; VNum 2]
                                   (VStr "TXYZ") VNull))) _ _).
    + intros e. discriminate.
    + intros [H _]. discriminate H.
Defined.

(** On a function name that is a string and parameters that are an
    array, the heuristic on unvalidated arguments is the heuristic. *)
Lemma heuristic_on_strings_and_arrays
    (rt : Runtime) (fn : string) (ps : list value) (ca to : value) :
  Unvalidated.getFallbackEnergyEstimate rt (VStr fn) (VArr ps) ca to
  = Returns (VNum (getFallbackEnergyEstimate fn ps ca to)).
Proof.
  unfold Unvalidated.getFallbackEnergyEstimate, getFallbackEnergyEstimate.
  cbn [Unvalidated.lower_case and_then].
  destruct (if strict_eq_str ca USDT_CONTRACT then _ else _); [reflexivity|].
  destruct (pattern_table (toLowerCase fn)); reflexivity.
Qed.

Lemma lower_case_not_a_string (functionName : value) :
  (forall fn, functionName <> VStr fn) ->
  exists message,
    Unvalidated.lower_case functionName = Throws message
    /\ contains message "toLowerCase".
Proof.
  intros N. destruct functionName; cbn;
    try (eexists; split; [reflexivity | apply includes_contains; reflexivity]).
  now elim (N s).
Qed.

(** C7, as stated, fails on "no failure mode": the function starts with
    [functionName.toLowerCase()] and ends with [parameters.length], and the
    tool handler passes the name on as the request gave it, and the
    parameters too unless they are missing.  Without a function name, and
    with [null] parameters when no table entry applies, it throws a
    [TypeError]. *)
Lemma missing_function_name_raises :
  Unvalidated.getFallbackEnergyEstimate Scenario.runtime VUndefined (VArr [])
    (VStr USDT_CONTRACT) VNull
  = Throws "Cannot read properties of undefined (reading 'toLowerCase')"
  /\ Unvalidated.getFallbackEnergyEstimate Scenario.runtime (VStr "stake") VNull
       (VStr USDT_CONTRACT) VNull
     = Throws "Cannot read properties of null (reading 'length')".
Proof. split; reflexivity. Qed.

(** C7 (amended). The heuristic reads nothing but its four arguments.
    For every function name that is a string and every array of
    parameters it returns an integer, at least 680, which depends on the
    name only through its lower case and on the parameters only through
    their number.  It is not total: for a function name that is not a
    string it throws at [toLowerCase], whatever the other arguments are;
    and for parameters that are [null] or [undefined] it throws at
    [parameters.length] when no table entry applies to the name. *)
Theorem fallback_estimate_total_on_strings_and_arrays
    (rt : Runtime) (ca to : value) :
  (forall fn ps,
     Unvalidated.getFallbackEnergyEstimate rt (VStr fn) (VArr ps) ca to
     = Returns (VNum (getFallbackEnergyEstimate fn ps ca to))
     /\ 680 <= getFallbackEnergyEstimate fn ps ca to)
  /\ (forall fn fn' ps ps',
        toLowerCase fn' = toLowerCase fn -> List.length ps' = List.length ps ->
        Unvalidated.getFallbackEnergyEstimate rt (VStr fn') (VArr ps') ca to
        = Unvalidated.getFallbackEnergyEstimate rt (VStr fn) (VArr ps) ca to)
  /\ (forall functionName parameters,
        (forall fn, functionName <> VStr fn) ->
        exists message,
          Unvalidated.getFallbackEnergyEstimate rt functionName parameters ca to
          = Throws message
          /\ contains message "toLowerCase")
  /\ (forall fn parameters,
        parameters = VNull \/ parameters = VUndefined ->
        (if strict_eq_str ca USDT_CONTRACT then usdt_table (toLowerCase fn) to else None)
        = None ->
        pattern_table (toLowerCase fn) = None ->
        exists message,
          Unvalidated.getFallbackEnergyEstimate rt (VStr fn) parameters ca to
          = Throws message
          /\ contains message "length").
Proof.
  split; [|split; [|split]].
  - intros fn ps. split; [apply heuristic_on_strings_and_arrays|].
    unfold getFallbackEnergyEstimate, usdt_table, usdt_transfer, pattern_table,
      default_estimate.
    repeat match goal with
           | |- context [if ?b then _ else _] => destruct b
           end; lia.
  - intros fn fn' ps ps' Hf Hp. rewrite !heuristic_on_strings_and_arrays.
    unfold getFallbackEnergyEstimate, default_estimate. now rewrite Hf, Hp.
  - intros functionName parameters N.
    destruct (lower_case_not_a_string functionName N) as (message & E & C).
    exists message. unfold Unvalidated.getFallbackEnergyEstimate. rewrite E.
    split; [reflexivity | exact C].
  - intros fn parameters P U T. unfold Unvalidated.getFallbackEnergyEstimate.
    cbn [Unvalidated.lower_case and_then]. rewrite U, T.
    destruct P as [-> | ->]; cbn; eexists;
      (split; [reflexivity | apply includes_contains; reflexivity]).
Qed.

(** ** Write operations and the explorer candidate *)


(** An explorer candidate that throws [readonly] is reached only after
    the candidates before it failed, and then fails the call. *)
Lemma explorer_last_resort
    (p g : thunk) (readonly name : string) (pr : outcome Z) (s : Server) :
  answered_before_explorer readonly s
    (executeWithFallback (mkOperation (Some p) (Some g) (Some (Throws readonly)))
       name pr s).
Proof.
  destruct s as [flag l]. unfold answered_before_explorer, not_invoked, was_invoked.
  router.
  destruct flag as [[|]|]; [| | destruct pr as [rt|m]; [destruct (rt <? 5000)|]];
    destruct p as [rp|mp], g as [rg|mg]; cbn -[append];
    try (split; [first [left; apply source_with_source
                       | right; apply source_with_source] | log]);
    (split; [log | cbn -[append]; occurs]).
Qed.


(** ** Energy estimation through the router *)





(** Without a function name that is a string, the predefined answer
    cannot be computed. *)
Lemma predefined_throws
    (rt : Runtime) (forced : string) (error : option string) (ca : string)
    (functionName parameters caller : value) (ts : string) :
  (forall fn, functionName <> VStr fn) ->
  exists message,
    Tools.predefined rt forced error ca functionName parameters caller ts
    = Throws message.
Proof.
  intros N. unfold Tools.predefined.
  destruct (Tools.displayToAddress rt forced ca functionName parameters);
    cbn [and_then]; [|eexists; reflexivity].
  unfold Unvalidated.getFallbackEnergyEstimate.
  destruct (lower_case_not_a_string functionName N) as (message & -> & _).
  eexists. reflexivity.
Qed.


(** A request without a function name (or with one that is not a string)
    does raise once the primary candidate gives nothing and the gateway
    has no live estimate: the gateway candidate and the explorer
    candidate both fail at [functionName.toLowerCase()]. *)
Lemma request_without_function_name_raises
    (rt : Runtime) (e : Tools.Env) (ca : string) (functionName parameters caller : value)
    (pr : outcome Z) (s : Server) :
  (forall fn, functionName <> VStr fn) ->
  (fst (checkNodeAvailability pr s) = false
   \/ forall r, Tools.estimate_tronweb e ca functionName (Tools.or_empty parameters)
                  caller <> Returns r) ->
  Tools.no_live_estimate rt
    (Tools.triggerconstantcontract e
       (Tools.generic_query (js_or caller (VStr Tools.DEFAULT_OWNER)) ca functionName)) ->
  exists message,
    fst (Tools.estimateContractEnergy rt e ca functionName parameters caller pr s)
    = Throws message.
Proof.
  intros N Hp Hl.
  assert (U : Tools.usdt_transfer ca functionName = false).
  { unfold Tools.usdt_transfer. destruct functionName; cbn;
      try apply andb_false_r. now elim (N s0). }
  assert (G : exists m,
             Tools.estimate_trongrid rt e ca functionName (Tools.or_empty parameters)
               caller = Throws m).
  { unfold Tools.estimate_trongrid, Tools.usdt_transfer_request. rewrite U.
    cbn [and_then]. unfold Tools.no_live_estimate in Hl.
    destruct (predefined_throws rt NEW_ADDRESS) with
      (ca := ca) (functionName := functionName)
      (parameters := Tools.or_empty parameters)
      (caller := js_or caller (VStr Tools.DEFAULT_OWNER))
      (ts := Tools.timestamp e) (error := @None string) as [m0 _]; [exact N|].
    assert (P : forall error, exists m,
               Tools.predefined rt NEW_ADDRESS error ca functionName
                 (Tools.or_empty parameters) (js_or caller (VStr Tools.DEFAULT_OWNER))
                 (Tools.timestamp e) = Throws m)
      by (intros error; apply predefined_throws; exact N).
    destruct (Tools.triggerconstantcontract e _) as [apiResult|m];
      cbn [and_then try_catch]; [|apply P].
    destruct (prop apiResult "energy_used") as [eu|m]; cbn [and_then try_catch];
      [|apply P].
    rewrite Hl.
    destruct (Tools.displayToAddress rt NEW_ADDRESS ca functionName
                (Tools.or_empty parameters)); cbn [and_then try_catch]; [|apply P].
    unfold Unvalidated.getFallbackEnergyEstimate.
    destruct (lower_case_not_a_string functionName N) as (m1 & -> & _).
    cbn [and_then try_catch]. apply P. }
  destruct G as [mg Hg].
  destruct (predefined_throws rt EXISTING_ADDRESS None ca functionName
              (Tools.or_empty parameters) (js_or caller (VStr Tools.DEFAULT_CALLER))
              (Tools.timestamp e) N) as [mx Hx].
  destruct s as [flag l].
  unfold Tools.estimateContractEnergy, Tools.estimate_operation, Tools.estimate_tronscan.
  router. rewrite Hg, Hx.
  destruct Hp as [Hp|Hp].
  - destruct flag as [[|]|]; [discriminate Hp | |
      destruct pr as [t|m]; [destruct (t <? 5000); [discriminate Hp|]|]];
      cbn; eexists; reflexivity.
  - destruct (Tools.estimate_tronweb e ca functionName (Tools.or_empty parameters) caller)
      as [r|m]; [now elim (Hp r)|].
    destruct flag as [[|]|]; [| | destruct pr as [t|m']; [destruct (t <? 5000)|]];
      cbn; eexists; reflexivity.
Qed.




(** ** Address validation *)

(** C8, as stated, fails for the balance query: [getBalance] has no
    address check of its own.  For a malformed address that the node
    client rejects, the gateway is queried with it all the same and its
    empty answer is reported as a balance of 0. *)
Lemma malformed_address_reaches_gateway :
  EnergyEstimator.isAddress Scenario.strict_node "not-an-address" = false
  /\ Account.getBalance Scenario.lenient_backends "not-an-address"
     = (Returns (Account.mkBalanceResult "not-an-address"
                   (Account.Number (inject_Z 0 / inject_Z 1000000)%Q) "TRX" 0
                   "trongrid_api"),
        [TronWeb; TronGrid]).
Proof. split; reflexivity. Qed.

(** C8 (amended). The estimator rejects a contract address that
    [isAddress] refuses before any request to the node: it fails at once
    with "Energy estimation failed: Invalid contract address: ...".  The
    balance query validates nothing: it attempts the primary backend for
    every address, and the gateway whenever the primary attempt fails. *)
Theorem estimator_rejects_invalid_contract_address
    (n : EnergyEstimator.Node) (contractAddress functionName : string)
    (parameters : list value) (callerAddress : value)
    (b : Account.Backends) (addr : string) :
  (EnergyEstimator.isAddress n contractAddress = false ->
   EnergyEstimator.estimateContractEnergy n contractAddress functionName
     parameters callerAddress
   = (Throws ("Energy estimation failed: Invalid contract address: "
              ++ contractAddress), []))
  /\ (exists rest, snd (Account.getBalance b addr) = TronWeb :: rest)
  /\ (forall nodeError, Account.trx_getBalance b addr = Throws nodeError ->
      exists rest, snd (Account.getBalance b addr) = TronWeb :: TronGrid :: rest).
Proof.
  split; [|split].
  - intros H. unfold EnergyEstimator.estimateContractEnergy. now rewrite H.
  - unfold Account.getBalance.
    destruct (Account.trx_getBalance b addr);
      [|destruct (Account.read_balance _);
        [|destruct (Account.read_balance _)]]; eexists; reflexivity.
  - intros nodeError H. unfold Account.getBalance. rewrite H.
    destruct (Account.read_balance _); [|destruct (Account.read_balance _)];
      eexists; reflexivity.
Qed.

Lemma estimator_rejects_invalid_contract_address_witness :
  EnergyEstimator.estimateContractEnergy Scenario.strict_node "not-an-address"
    "transfer" [] VUndefined
  = (Throws "Energy estimation failed: Invalid contract address: not-an-address", []).
Proof.
  exact (proj1 (estimator_rejects_invalid_contract_address Scenario.strict_node
                  "not-an-address" "transfer" [] VUndefined
                  Scenario.lenient_backends "not-an-address") eq_refl).
Defined.

(** ** The balance query *)

Section Rounding.
Local Open Scope Q_scope.



End Rounding.



(** * Further properties of the code *)

(** ** The router: order, provenance, probe *)

Lemma lookup_assign_other (k k' : string) (v : value) (o : obj) :
  k <> k' -> lookup k (assign k' v o) = lookup k o.
Proof.
  intros N. induction o as [|[k0 v0] o IH]; cbn.
  - destruct (String.eqb_spec k' k); [congruence | reflexivity].
  - destruct (String.eqb_spec k0 k') as [->|N0]; cbn.
    + destruct (String.eqb_spec k' k); [congruence | reflexivity].
    + destruct (String.eqb_spec k0 k); [reflexivity | exact IH].
Qed.

(** X1. Within one call of [executeWithFallback] the candidates are
    invoked in the fixed order TronWeb, TronGrid, TronScan and each at
    most once, whatever the candidate map, the flag and the probe. *)
Theorem candidates_tried_in_priority_order (c : Call) (s : Server) :
  exists log,
    invoked (snd (execute c s)) = app (invoked s) log
    /\ Trace.follows Trace.PRIORITY log = true.
Proof.
  destruct s as [flag l], c as [[p g e] name pr]. router.
  destruct flag as [[|]|]; [| | destruct pr as [rt|m]; [destruct (rt <? 5000)|]];
    destruct p as [[rp|mp]|], g as [[rg|mg]|], e as [[re|me]|]; cbn;
    first [ exists []; rewrite app_nil_r; split; reflexivity
          | eexists; split; [rewrite <- ?app_assoc; reflexivity | reflexivity] ].
Qed.

(** X2. A result that [executeWithFallback] returns is the result of the
    last candidate it invoked, with [source] set to that candidate's tag
    and every other field unchanged. *)
Theorem result_comes_from_last_candidate (c : Call) (s : Server) (result : obj) :
  fst (execute c s) = Returns result ->
  exists log b v,
    invoked (snd (execute c s)) = app (invoked s) log
    /\ log <> []
    /\ last log TronWeb = b
    /\ Trace.candidate (operation c) b = Some (Returns v)
    /\ result = with_source v (source_tag b)
    /\ lookup "source" result = VStr (source_tag b)
    /\ forall k, k <> "source" -> lookup k result = lookup k (own_props v).
Proof.
  destruct s as [flag l], c as [[p g e] name pr]. router. intros H.
  destruct flag as [[|]|]; [| | destruct pr as [rt|m]; [destruct (rt <? 5000)|]];
    destruct p as [[rp|mp]|], g as [[rg|mg]|], e as [[re|me]|]; cbn in H |- *;
    try discriminate H; injection H as <-;
    eexists; eexists; eexists;
    (split; [rewrite <- ?app_assoc; reflexivity|]);
    (split; [discriminate|]);
    (split; [reflexivity|]);
    (split; [reflexivity|]);
    (split; [reflexivity|]);
    (split; [apply source_with_source|]);
    intros k Hk; apply lookup_assign_other; exact Hk.
Qed.

Lemma result_comes_from_last_candidate_witness :
  exists log b v,
    invoked (snd (execute Scenario.parameters_request initial)) = app [] log
    /\ log <> []
    /\ last log TronWeb = b
    /\ Trace.candidate Scenario.parameters_operation b = Some (Returns v)
    /\ with_source v "tronweb_node" = with_source v (source_tag b).
Proof.
  destruct (result_comes_from_last_candidate Scenario.parameters_request initial
              _ eq_refl) as (log & b & v & H1 & H2 & H3 & H4 & H5 & _).
  exists log, b, v. repeat split; try assumption.
  cbn in H1. destruct log as [|x [|y log]]; try discriminate H1.
  injection H1 as <-. cbn in H3. subst b. reflexivity.
Defined.

(** X3. For requests served one after another, only a request that
    finds the flag undecided issues the probe: a call always leaves the
    flag decided, and once the flag is decided the outcome of a call does
    not depend on how a probe would answer.  This is not so for requests
    that arrive together: two requests that both find the flag undecided
    are both suspended at a probe of their own. *)
Theorem decided_flag_ignores_probe (c : Call) (s : Server) :
  nodeAvailable (snd (execute c s)) <> None
  /\ (nodeAvailable s <> None ->
      forall pr : outcome Z,
        executeWithFallback (operation c) (operationName c) pr s = execute c s)
  /\ (forall other : Call,
        map point (requests (run [Arrive c; Arrive other] boot))
        = [AwaitProbe; AwaitProbe]).
Proof.
  destruct s as [flag l], c as [[p g e] name pr]. router. split; [|split].
  - destruct flag as [[|]|]; [| | destruct pr as [rt|m]; [destruct (rt <? 5000)|]];
      destruct p as [[rp|mp]|], g as [[rg|mg]|], e as [[re|me]|]; cbn; discriminate.
  - intros N pr'. destruct flag as [b|]; [reflexivity | now elim N].
  - intros other. reflexivity.
Qed.

(** X4. Once the node is marked unavailable, an operation that has a
    primary candidate only fails without invoking anything, even if its
    primary candidate would succeed; the server is left as it was. *)
Theorem primary_only_operation_fails_once_unavailable
    (op : Operation) (name : string) (pr : outcome Z) (s : Server) :
  nodeAvailable s = Some false ->
  trongrid op = None ->
  tronscan op = None ->
  executeWithFallback op name pr s
  = (Throws (McpError (name ++ " failed: No fallback sources available for " ++ name)),
     s).
Proof.
  destruct s as [flag l], op as [p g e]. cbn [nodeAvailable trongrid tronscan].
  intros -> -> ->. reflexivity.
Qed.

Lemma primary_only_operation_fails_once_unavailable_witness :
  executeWithFallback (mkOperation (Some (Returns (VObj []))) None None) "getBlock"
    (Returns 12) (mkServer (Some false) [TronWeb])
  = (Throws (McpError "getBlock failed: No fallback sources available for getBlock"),
     mkServer (Some false) [TronWeb]).
Proof.
  exact (primary_only_operation_fails_once_unavailable
           (mkOperation (Some (Returns (VObj []))) None None) "getBlock"
           (Returns 12) (mkServer (Some false) [TronWeb]) eq_refl eq_refl eq_refl).
Defined.

(** X5. For requests served one after another, one failure of the primary
    candidate is final: every later request leaves the flag at [false]
    and none invokes its primary candidate. *)
Theorem primary_failure_disables_later_requests
    (c : Call) (later : list Call) (s : Server) (nodeError : string) :
  fst (checkNodeAvailability (probe c) s) = true ->
  tronweb (operation c) = Some (Throws nodeError) ->
  nodeAvailable (snd (serve later (snd (execute c s)))) = Some false
  /\ not_invoked TronWeb (snd (execute c s)) (snd (serve later (snd (execute c s)))).
Proof.
  intros Ha Hp. apply serve_latched.
  exact (primary_failure_latches c s nodeError Ha Hp).
Qed.

Lemma primary_failure_disables_later_requests_witness :
  nodeAvailable (snd (serve [Scenario.parameters_request; Scenario.later_request]
                        (snd (execute Scenario.send_request initial)))) = Some false.
Proof.
  exact (proj1 (primary_failure_disables_later_requests Scenario.send_request
                  [Scenario.parameters_request; Scenario.later_request] initial
                  "Invalid recipient provided" eq_refl eq_refl)).
Defined.

(** ** Requests in flight: what does hold of the latch *)

Lemma resume_quiescent (r : Request) (s : Server) :
  nodeAvailable s = Some false ->
  Trace.stale r = false ->
  nodeAvailable (snd (resume r s)) = Some false
  /\ Trace.stale (fst (resume r s)) = false
  /\ not_invoked TronWeb s (snd (resume r s)).
Proof.
  destruct s as [flag l], r as [[[p g e] name pr] pt src ne].
  unfold not_invoked, Trace.stale. cbn [nodeAvailable point]. intros -> Hp.
  destruct pt as [|[|]| | | |res]; try discriminate Hp;
    destruct p as [[rp|mp]|], g as [[rg|mg]|], e as [[re|me]|];
    unfold resume, enter, tronweb_failed, to_trongrid, to_tronscan, settle, push,
      at_point, settled_with; router; cbn; (split; [reflexivity|]);
    (split; [reflexivity|]); log.
Qed.

Lemma step_quiescent (e : Event) (p : Process) :
  Trace.quiescent p ->
  Trace.quiescent (step e p) /\ not_invoked TronWeb (server p) (server (step e p)).
Proof.
  intros [Hf Hn]. destruct e as [c|i]; unfold step.
  - unfold start. rewrite Hf. split; [|apply not_invoked_refl].
    split; [exact Hf|]. cbn [requests]. apply Forall_app. split; [exact Hn|].
    constructor; [reflexivity | constructor].
  - destruct (nth_error (requests p) i) as [r|] eqn:E;
      [|split; [now split | apply not_invoked_refl]].
    assert (Hr : Trace.stale r = false).
    { rewrite Forall_forall in Hn. apply Hn. eapply nth_error_In. exact E. }
    destruct (resume_quiescent r (server p) Hf Hr) as (H1 & H2 & H3).
    destruct (resume r (server p)) as [r' s']. cbn [fst snd] in H1, H2, H3.
    split; [|exact H3]. split; [exact H1|]. cbn [requests].
    apply Forall_update; assumption.
Qed.

(** X6. In a process whose flag is [false] and in which no request is
    suspended at the probe or holds a cached [true], the flag stays
    [false] and no primary candidate is invoked any more, whatever
    requests arrive and in whatever order the requests in flight are
    resumed. *)
Theorem quiescent_latch_is_final (events : list Event) (p : Process) :
  Trace.quiescent p ->
  Trace.quiescent (run events p)
  /\ not_invoked TronWeb (server p) (server (run events p)).
Proof.
  revert p. induction events as [|e events IH]; intros p H.
  - split; [exact H | apply not_invoked_refl].
  - destruct (step_quiescent e p H) as [H1 N1].
    destruct (IH (step e p) H1) as [H2 N2]. cbn [run fold_left] in *.
    split; [exact H2 | exact (not_invoked_trans _ _ _ _ N1 N2)].
Qed.

Lemma quiescent_latch_is_final_witness :
  nodeAvailable
    (server (run [Arrive Scenario.parameters_request; Wake 1; Wake 0; Wake 1]
               (run [Arrive Scenario.send_request; Wake 0; Wake 0] boot)))
  = Some false.
Proof.
  refine (proj1 (proj1 (quiescent_latch_is_final
            [Arrive Scenario.parameters_request; Wake 1; Wake 0; Wake 1]
            (run [Arrive Scenario.send_request; Wake 0; Wake 0] boot) _))).
  split; [reflexivity|]. repeat constructor.
Defined.

(** ** Aggregated errors, with an explorer candidate *)

Lemma contains_here (s t post : string) : s = t ++ post -> contains s t.
Proof. intros ->. exists "", post. reflexivity. Qed.

(** Finds the position at which a text occurs in a message. *)
Ltac find :=
  first [ apply contains_refl
        | solve [eapply contains_here; cbn; reflexivity]
        | apply contains_cons; find
        | apply contains_append_r; find ].

(** X8. When an explorer candidate is supplied and every candidate fails,
    the error is an [McpError] whose message lists, for each candidate
    that was invoked, its label followed by what the [message] property of
    its failure gives: the message of an [Error] object, and "undefined"
    for a rejection with a plain string, as the node client's for an
    argument it does not accept, whose reason is therefore not
    reported. *)
Theorem aggregate_lists_message_of_each_failure
    (op : Operation) (name : string) (pr : outcome Z) (s : Server)
    (explorerError : thrown) :
  tronscan op = Some (rejected explorerError) ->
  (forall r, tronweb op <> Some (Returns r)) ->
  (forall r, trongrid op <> Some (Returns r)) ->
  exists message,
    fst (executeWithFallback op name pr s) = Throws message
    /\ String.prefix ("MCP error -32603: " ++ name ++ " failed: ") message = true
    /\ contains message ("TronScan: " ++ message_of explorerError)
    /\ (forall e : thrown,
          trongrid op = Some (rejected e) ->
          contains message ("TronGrid: " ++ message_of e))
    /\ (forall e : thrown,
          tronweb op = Some (rejected e) ->
          fst (checkNodeAvailability pr s) = true ->
          contains message ("TronWeb: " ++ message_of e))
    /\ (forall reason : string,
          tronweb op = Some (rejected (PlainString reason)) ->
          fst (checkNodeAvailability pr s) = true ->
          contains message "TronWeb: undefined").
Proof.
  assert (P : forall rest,
             String.prefix ("MCP error -32603: " ++ name ++ " failed: ")
               (McpError (name ++ " failed: " ++ rest)) = true).
  { intros rest. apply prefix_append. exists rest. unfold McpError.
    now rewrite !append_assoc. }
  unfold rejected. generalize (message_of explorerError). intros ex.
  destruct s as [flag l], op as [p g e]. cbn [tronweb trongrid tronscan].
  intros -> Hp Hg.
  router.
  destruct p as [[rp|mp]|]; try (exfalso; eapply Hp; reflexivity);
  destruct g as [[rg|mg]|]; try (exfalso; eapply Hg; reflexivity);
  destruct flag as [[|]|]; try destruct pr as [rt|m]; try destruct (rt <? 5000);
    cbn -[append McpError] in *; eexists; (split; [reflexivity|]);
    (split; [apply P|]);
    (split; [cbn; find|]);
    (split; [intros x Hx; try discriminate; injection Hx as ->; cbn; find|]);
    (split; [intros x Hx Ha; try discriminate; injection Hx as ->; cbn; find|]);
    intros x Hx Ha; try discriminate; injection Hx as ->; cbn; find.
Qed.

Lemma aggregate_lists_message_of_each_failure_witness :
  exists message,
    fst (executeWithFallback
           (mkOperation (Some (rejected (PlainString "Invalid address provided")))
                        (Some (Throws "TronGrid API error: 503 Service Unavailable"))
                        (Some (Throws "TronScan API error: 502 Bad Gateway")))
           "getBalance" (Returns 12) initial) = Throws message
    /\ contains message "TronScan: TronScan API error: 502 Bad Gateway"
    /\ contains message "TronGrid: TronGrid API error: 503 Service Unavailable"
    /\ contains message "TronWeb: undefined".
Proof.
  destruct (aggregate_lists_message_of_each_failure
              (mkOperation (Some (rejected (PlainString "Invalid address provided")))
                           (Some (Throws "TronGrid API error: 503 Service Unavailable"))
                           (Some (Throws "TronScan API error: 502 Bad Gateway")))
              "getBalance" (Returns 12) initial
              (ErrorObject "TronScan API error: 502 Bad Gateway") eq_refl)
    as (message & H1 & _ & H2 & H3 & _ & H5).
  - intros r. discriminate.
  - intros r. discriminate.
  - exists message. split; [exact H1|]. split; [exact H2|].
    split; [exact (H3 (ErrorObject _) eq_refl) | exact (H5 _ eq_refl eq_refl)].
Defined.

(** ** The account module *)



(** X10. When the node fails, the gateway's account payload decides: a
    payload without a [balance] is reported as a balance of 0 SUN from
    the gateway, and a [null] payload counts as a gateway failure, so
    that the explorer is asked. *)
Theorem gateway_payload_edge_cases
    (b : Account.Backends) (addr nodeError : string) :
  Account.trx_getBalance b addr = Throws nodeError ->
  (Account.trongrid_getaccount b addr = Returns (Account.Data None) ->
   Account.getBalance b addr
   = (Returns (Account.mkBalanceResult addr
                 (Account.Number (Account.fdiv b (inject_Z 0) (inject_Z 1000000)))
                 "TRX" 0 "trongrid_api"),
      [TronWeb; TronGrid]))
  /\ (Account.trongrid_getaccount b addr = Returns Account.NoData ->
      snd (Account.getBalance b addr) = Trace.PRIORITY).
Proof.
  intros H. unfold Account.getBalance. rewrite H. split; intros ->; cbn.
  - reflexivity.
  - destruct (Account.read_balance (Account.tronscan_account b addr)); reflexivity.
Qed.

Lemma gateway_payload_edge_cases_witness :
  Account.getBalance Scenario.lenient_backends NEW_ADDRESS
  = (Returns (Account.mkBalanceResult NEW_ADDRESS
                (Account.Number (inject_Z 0 / inject_Z 1000000)%Q) "TRX" 0
                "trongrid_api"),
     [TronWeb; TronGrid]).
Proof.
  exact (proj1 (gateway_payload_edge_cases Scenario.lenient_backends NEW_ADDRESS
                  "undefined" eq_refl) eq_refl).
Defined.

(** X11. An answer of [getAccountResources] that comes from the explorer
    always has the six counters freeNetLimit, freeNetUsed, NetLimit,
    NetUsed, EnergyLimit, EnergyUsed followed by [source], in this order,
    and a counter the explorer did not report (or reported as 0, null or
    empty) is the number 0. *)
Theorem explorer_resources_are_normalised
    (b : Resources.Backends) (addr : string) (resources : obj) :
  Resources.getAccountResources b addr = (Returns resources, Trace.PRIORITY) ->
  map fst resources
  = ["freeNetLimit"; "freeNetUsed"; "NetLimit"; "NetUsed"; "EnergyLimit";
     "EnergyUsed"; "source"]
  /\ lookup "source" resources = VStr "tronscan_api"
  /\ Forall (fun kv => fst kv = "source" \/ snd kv = VNum 0 \/ truthy (snd kv) = true)
       resources.
Proof.
  unfold Resources.getAccountResources, Trace.PRIORITY.
  destruct (Resources.trx_getAccountResources b addr); [discriminate|].
  destruct (Resources.trongrid_getaccountresource b addr); [discriminate|].
  destruct (Resources.tronscan_account b addr) as [accountData|m]; cbn [and_then];
    [|discriminate].
  unfold Resources.from_tronscan.
  destruct (prop accountData "bandwidth") as [bandwidth|m]; cbn [and_then];
    [|discriminate].
  intros [= <-]. split; [reflexivity|]. split; [reflexivity|].
  repeat (constructor;
          [first [ now left
                 | right; cbn [snd]; unfold js_or;
                   destruct (truthy _) eqn:E; [right; exact E | now left] ]|]).
  constructor.
Qed.

Lemma explorer_resources_are_normalised_witness :
  exists resources,
    Resources.getAccountResources Sample.explorer_only NEW_ADDRESS
    = (Returns resources, Trace.PRIORITY)
    /\ lookup "freeNetLimit" resources = VNum 600
    /\ lookup "EnergyLimit" resources = VNum 0
    /\ lookup "source" resources = VStr "tronscan_api".
Proof.
  eexists. split; [reflexivity|]. split; [reflexivity|]. split; [reflexivity|].
  exact (proj1 (proj2 (explorer_resources_are_normalised Sample.explorer_only
                         NEW_ADDRESS _ eq_refl))).
Defined.

(** X12. [sendTrx] without any private key (none in the request, none in
    the environment, none set on the client) fails before the router is
    entered: no candidate is invoked and the availability flag is not
    touched. *)
Theorem sendTrx_requires_private_key
    (w : Account.Wallet) (to amount : value) (pr : outcome Z) (s : Server) :
  Account.has_private_key w = false ->
  Account.sendTrx w to amount pr s
  = (Throws (McpError
               ("Failed to send TRX: Private key required for sending transactions. "
                ++ "Set PRIVATE_KEY in environment or provide in request.")), s).
Proof.
  intros H. unfold Account.sendTrx. rewrite H. reflexivity.
Qed.

Lemma sendTrx_requires_private_key_witness :
  snd (Account.sendTrx Sample.keyless_wallet (VStr NEW_ADDRESS) (VNum 5) (Returns 12)
         initial) = initial.
Proof.
  exact (f_equal snd (sendTrx_requires_private_key Sample.keyless_wallet
                        (VStr NEW_ADDRESS) (VNum 5) (Returns 12) initial eq_refl)).
Defined.

(** X13. A result of [sendTrx] reports the recipient, the amount and the
    time of the request, whatever fields of these names the backend sent;
    it comes from the node or from the gateway, and the explorer candidate
    was not invoked. *)
Theorem sendTrx_result_fields
    (w : Account.Wallet) (to amount : value) (pr : outcome Z) (s : Server)
    (result : obj) :
  fst (Account.sendTrx w to amount pr s) = Returns result ->
  lookup "to" result = to
  /\ lookup "amount" result = amount
  /\ lookup "timestamp" result = VStr (Account.timestamp w)
  /\ (lookup "source" result = VStr "tronweb_node"
      \/ lookup "source" result = VStr "trongrid_api")
  /\ not_invoked TronScan s (snd (Account.sendTrx w to amount pr s)).
Proof.
  unfold Account.sendTrx.
  destruct (Account.has_private_key w); cbn [negb]; [|discriminate].
  pose proof (explorer_last_resort (Account.sendTrx_tronweb w)
                (Account.sendTrx_trongrid w) Account.BROADCAST_READ_ONLY "sendTrx" pr s)
    as L.
  unfold bind, ret. fold Account.sendTrx_tronscan in L.
  change (mkOperation (Some (Account.sendTrx_tronweb w))
            (Some (Account.sendTrx_trongrid w)) (Some Account.sendTrx_tronscan))
    with (Account.sendTrx_operation w) in L.
  destruct (executeWithFallback (Account.sendTrx_operation w) "sendTrx" pr s)
    as [[r|m] s'] eqn:E; cbn [fst snd]; [|discriminate].
  intros [= <-]. cbn in L. destruct L as [L1 L2].
  split; [|split; [|split; [|split]]].
  - rewrite !lookup_assign_other by discriminate. apply lookup_assign.
  - rewrite lookup_assign_other by discriminate. apply lookup_assign.
  - apply lookup_assign.
  - rewrite !lookup_assign_other by discriminate. exact L1.
  - exact L2.
Qed.

Lemma sendTrx_result_fields_witness :
  exists result,
    fst (Account.sendTrx Sample.funded_wallet (VStr NEW_ADDRESS) (VNum 5) (Returns 12)
           initial) = Returns result
    /\ lookup "to" result = VStr NEW_ADDRESS.
Proof.
  eexists. split; [reflexivity|].
  exact (proj1 (sendTrx_result_fields Sample.funded_wallet (VStr NEW_ADDRESS) (VNum 5)
                  (Returns 12) initial _ eq_refl)).
Defined.

(** ** Contract calls *)

(** X14. Parameter encoding cannot fail the gateway candidate of
    [contractCall], except for a one-argument [balanceOf]: for every other
    call the candidate's outcome is the outcome of the gateway query, sent
    with the encoded parameters; and when the encoder rejects the
    parameters the query is sent with an empty parameter string. *)
Theorem encoding_failure_still_queries_gateway
    (e : Tools.Env) (encodeParams : Encoding.Encoder)
    (contractAddress functionName : string) (parameters : list value) :
  Tools.encode_call e = Encoding.contract_parameter encodeParams functionName ->
  ((functionName =? "balanceOf")%string && (List.length parameters =? 1)%nat) = false ->
  Tools.contractCall_trongrid e contractAddress functionName parameters
  = Tools.triggerconstantcontract e
      (Tools.mkQuery (js_or (Tools.defaultAddress e) (VStr Tools.DEFAULT_OWNER))
         contractAddress (VStr (Tools.contractCall_selector functionName parameters))
         (Encoding.strip_0x
            (Encoding.encodeContractParameters encodeParams parameters)))
  /\ ((forall types values, exists m, encodeParams types values = Throws m) ->
      Encoding.encodeContractParameters encodeParams parameters = "").
Proof.
  intros He Hb. split.
  - unfold Tools.contractCall_trongrid. rewrite He.
    destruct parameters as [|first rest]; [reflexivity|].
    unfold Encoding.contract_parameter. rewrite Hb. reflexivity.
  - intros Hall. unfold Encoding.encodeContractParameters.
    destruct parameters as [|first rest]; [reflexivity|].
    destruct (Hall (map Encoding.param_type (first :: rest)) (first :: rest)) as [m ->].
    destruct rest as [|amount [|x rest]]; try reflexivity.
    destruct (Encoding.address_shaped first); [|reflexivity].
    destruct (Hall ["address"; "uint256"] [first; amount]) as [m' ->]. reflexivity.
Qed.

Lemma encoding_failure_still_queries_gateway_witness :
  Tools.contractCall_trongrid Sample2.echo_env USDT_CONTRACT "transfer"
    [VStr NEW_ADDRESS; VStr "not a number"]
  = Returns (VObj [("sent_parameter", VStr ""); ("contractAddress", VStr "overwritten")]).
Proof.
  exact (proj1 (encoding_failure_still_queries_gateway Sample2.echo_env
                  Sample2.rejecting_encoder USDT_CONTRACT "transfer"
                  [VStr NEW_ADDRESS; VStr "not a number"] eq_refl eq_refl)).
Defined.




(** ** Energy prices *)

Lemma js_or_truthy (v d : value) : truthy d = true -> truthy (js_or v d) = true.
Proof. intros H. unfold js_or. destruct (truthy v) eqn:E; assumption. Qed.

(** X16. Whatever chain parameters [processChainParametersForEnergyPrices]
    is given, if it returns, the bandwidth price it reports is the
    transaction fee, and the energy price, the transaction fee and the
    account creation fee are never missing, 0 or empty: a parameter the
    chain did not list takes its default. *)
Theorem prices_are_never_missing
    (ToPropertyKey : value -> string) (now : string) (chainParams : value)
    (result : obj) :
  Prices.processChainParametersForEnergyPrices ToPropertyKey now chainParams
  = Returns result ->
  lookup "bandwidth_price_sun" result = lookup "transaction_fee" result
  /\ truthy (lookup "energy_price_sun" result) = true
  /\ truthy (lookup "transaction_fee" result) = true
  /\ truthy (lookup "create_account_fee" result) = true
  /\ lookup "source" result = VStr "chain_parameters".
Proof.
  unfold Prices.processChainParametersForEnergyPrices.
  destruct (Prices.params_of chainParams) as [params|m]; cbn [and_then]; [|discriminate].
  destruct (Prices.raw_parameters_of ToPropertyKey params) as [raw|m]; cbn [and_then];
    [|discriminate].
  intros [= <-]. cbn. repeat split; apply js_or_truthy; reflexivity.
Qed.

Lemma prices_are_never_missing_witness :
  exists result,
    Prices.processChainParametersForEnergyPrices (fun _ => "") "2025-01-01T00:00:00.000Z"
      (VObj [("chainParameter", VArr Sample2.chain_parameters)]) = Returns result
    /\ lookup "energy_price_sun" result = VNum 420
    /\ lookup "create_account_fee" result = VNum 100000
    /\ lookup "bandwidth_price_sun" result = lookup "transaction_fee" result.
Proof.
  eexists. split; [reflexivity|]. split; [reflexivity|]. split; [reflexivity|].
  exact (proj1 (prices_are_never_missing (fun _ => "") "2025-01-01T00:00:00.000Z"
                  (VObj [("chainParameter", VArr Sample2.chain_parameters)]) _ eq_refl)).
Defined.

Lemma raw_parameters_snoc (K : value -> string) (params : list value) (param : value) :
  Prices.raw_parameters_of K (params ++ [param])
  = Prices.record_parameter K (Prices.raw_parameters_of K params) param.
Proof.
  unfold Prices.raw_parameters_of. now rewrite fold_left_app.
Qed.

(** X17. When a chain parameter is listed more than once, the last entry
    counts: whatever precedes it, a final [getEnergyFee] entry with a
    usable value sets the energy price. *)
Theorem last_energy_fee_entry_sets_price
    (ToPropertyKey : value -> string) (now : string) (params : list value)
    (fee : value) (result : obj) :
  truthy fee = true ->
  Prices.processChainParametersForEnergyPrices ToPropertyKey now
    (VArr (params ++ [VObj [("key", VStr "getEnergyFee"); ("value", fee)]]))
  = Returns result ->
  lookup "energy_price_sun" result = fee.
Proof.
  intros Hf. unfold Prices.processChainParametersForEnergyPrices.
  cbn [Prices.params_of and_then]. rewrite raw_parameters_snoc.
  destruct (Prices.raw_parameters_of ToPropertyKey params) as [raw|m];
    cbn [Prices.record_parameter and_then prop lookup String.eqb Ascii.eqb Bool.eqb truthy
         negb]; [|discriminate].
  assert (E : match fee with
              | VUndefined => Returns raw
              | _ => Returns (assign (Prices.property_key ToPropertyKey (VStr "getEnergyFee"))
                                fee raw)
              end = Returns (assign "getEnergyFee" fee raw)).
  { destruct fee; try reflexivity. discriminate Hf. }
  cbn in E |- *. rewrite E. cbn [and_then]. intros [= <-].
  cbn. rewrite lookup_assign. unfold js_or. now rewrite Hf.
Qed.

Lemma last_energy_fee_entry_sets_price_witness :
  exists result,
    Prices.processChainParametersForEnergyPrices (fun _ => "") "2025-01-01T00:00:00.000Z"
      (VArr (Sample2.chain_parameters
             ++ [VObj [("key", VStr "getEnergyFee"); ("value", VNum 210)]]))
    = Returns result
    /\ lookup "energy_price_sun" result = VNum 210.
Proof.
  eexists. split; [reflexivity|].
  exact (last_energy_fee_entry_sets_price (fun _ => "") "2025-01-01T00:00:00.000Z"
           Sample2.chain_parameters (VNum 210) _ eq_refl eq_refl).
Defined.


(** ** Direct gateway requests *)

(** Every failure of [trongridApiCall] is an [McpError] with this text. *)
Lemma gateway_failure_prefix
    (net : Gateway.Network) (endpoint method : string) (data : value)
    (message : string) :
  Gateway.trongridApiCall net endpoint method data = Throws message ->
  exists cause, message = "MCP error -32603: TronGrid API call failed: " ++ cause.
Proof.
  unfold Gateway.trongridApiCall.
  destruct (Gateway.fetch net _) as [response|m]; cbn [and_then try_catch].
  - destruct (Prices.ok response); cbn [negb try_catch].
    + destruct (Prices.json response) as [result|m]; cbn [and_then try_catch];
        [discriminate|].
      intros [= <-]. eexists. reflexivity.
    + intros [= <-]. eexists. reflexivity.
  - intros [= <-]. eexists. reflexivity.
Qed.

(** X19. An answer of [trongridApiCall] always comes from a response
    that was OK and whose body parsed: its [result] is that body and its
    tag is [trongrid_api].  The request carried the method in upper case
    and a body exactly when that is POST.  Every failure, of the network,
    of the status or of the parsing, leaves as an [McpError] whose message
    is "MCP error -32603: TronGrid API call failed: " followed by the
    message of what failed. *)
Theorem gateway_answer_comes_from_ok_response
    (net : Gateway.Network) (endpoint method : string) (data : value) :
  let sent := Gateway.request net endpoint method data in
  Gateway.http_method sent = Gateway.toUpperCase method
  /\ Gateway.body sent
     = (if (Gateway.toUpperCase method =? "POST")%string then Some data else None)
  /\ (forall answer,
        Gateway.trongridApiCall net endpoint method data = Returns answer ->
        exists response,
          Gateway.fetch net sent = Returns response
          /\ Prices.ok response = true
          /\ Prices.json response = Returns (lookup "result" answer)
          /\ lookup "source" answer = VStr "trongrid_api")
  /\ (forall message,
        Gateway.trongridApiCall net endpoint method data = Throws message ->
        exists cause,
          message = "MCP error -32603: TronGrid API call failed: " ++ cause
          /\ (Gateway.fetch net sent = Throws cause
              \/ exists response,
                   Gateway.fetch net sent = Returns response
                   /\ (Prices.ok response = false
                       /\ cause = "TronGrid API error: "
                                  ++ string_of_nat (Prices.status response) ++ " "
                                  ++ Prices.statusText response
                       \/ Prices.ok response = true
                          /\ Prices.json response = Throws cause))).
Proof.
  intros sent. split; [reflexivity|]. split; [reflexivity|].
  unfold Gateway.trongridApiCall. fold sent. split.
  - intros answer H.
    destruct (Gateway.fetch net sent) as [response|m] eqn:F;
      cbn [and_then try_catch] in H; [exists response | discriminate H].
    destruct (Prices.ok response); cbn [negb try_catch] in H; [|discriminate H].
    destruct (Prices.json response) as [result|m]; cbn [and_then try_catch] in H;
      [|discriminate H].
    injection H as <-. repeat split.
  - intros message.
    destruct (Gateway.fetch net sent) as [response|m]; cbn [and_then try_catch].
    + destruct (Prices.ok response) eqn:K; cbn [negb try_catch].
      * destruct (Prices.json response) as [result|m] eqn:J; cbn [and_then try_catch];
          [discriminate|].
        intros [= <-]. exists m. split; [reflexivity|]. right. exists response.
        split; [reflexivity|]. right. split; [exact K | exact J].
      * intros [= <-]. eexists. split; [reflexivity|]. right. exists response.
        split; [reflexivity|]. left. split; [exact K | reflexivity].
    + intros [= <-]. exists m. split; [reflexivity|]. left. reflexivity.
Qed.

(** X20. [getTrongridBlock] and the block number 0.  A request for block
    0 (or for any number that is 0, null or missing) is the request for
    the latest block.  With [onlyNumber], an answer always carries a usable
    number and the gateway tag; a block whose header has number 0 (the
    genesis block) or no number is an error. *)
Theorem block_number_zero_is_never_served
    (net : Gateway.Network) (blockNumber : value) :
  (forall onlyNumber,
     truthy blockNumber = false ->
     Gateway.getTrongridBlock net blockNumber onlyNumber
     = Gateway.getTrongridBlock net VUndefined onlyNumber)
  /\ (forall answer,
        Gateway.getTrongridBlock net blockNumber true = Returns answer ->
        truthy (lookup "current_block_number" answer) = true
        /\ lookup "source" answer = VStr "trongrid_api")
  /\ (forall api number,
        Gateway.trongridApiCall net
          (if truthy blockNumber then "/wallet/getblockbynum" else "/wallet/getnowblock")
          "POST" (if truthy blockNumber then VObj [("num", blockNumber)] else VObj [])
        = Returns api ->
        Gateway.block_number (lookup "result" api) = Returns number ->
        truthy number = false ->
        Gateway.getTrongridBlock net blockNumber true
        = Throws (McpError ("TronGrid block request failed: "
                            ++ "Unable to extract block number from response"))).
Proof.
  unfold Gateway.getTrongridBlock. split; [|split].
  - intros onlyNumber H. rewrite H. reflexivity.
  - intros answer.
    destruct (Gateway.trongridApiCall net _ "POST" _) as [api|m];
      cbn [and_then try_catch]; [|discriminate].
    destruct (Gateway.block_number (lookup "result" api)) as [number|m];
      cbn [and_then try_catch]; [|discriminate].
    destruct (truthy number) eqn:E; cbn [negb try_catch]; [|discriminate].
    intros [= <-]. cbn. split; [exact E | reflexivity].
  - intros api number -> Hn Ht. cbn [and_then]. rewrite Hn. cbn [and_then].
    rewrite Ht. reflexivity.
Qed.

(** X21. [getTrongridAccount] sends one request when the v1 route
    answers, whatever the legacy route would do; it sends the legacy
    request, a POST with [visible: true], second and only when the v1
    request failed.  When both fail, the error is the failure of the v1
    request, itself an [McpError] of [trongridApiCall], wrapped once
    more; the failure of the legacy request is not reported. *)
Theorem account_lookup_reports_first_failure
    (net : Gateway.Network) (address : string) :
  let v1 := Gateway.trongridApiCall net (Gateway.v1_route address) "GET" (VObj []) in
  let legacy :=
    Gateway.trongridApiCall net Gateway.LEGACY_ROUTE "POST"
      (Gateway.legacy_data address) in
  let sent := snd (Gateway.getTrongridAccount net address) in
  (forall result,
     v1 = Returns result ->
     Gateway.getTrongridAccount net address
     = (Returns result,
        [Gateway.request net (Gateway.v1_route address) "GET" (VObj [])]))
  /\ (forall error,
        v1 = Throws error ->
        sent = [Gateway.request net (Gateway.v1_route address) "GET" (VObj []);
                Gateway.request net Gateway.LEGACY_ROUTE "POST"
                  (Gateway.legacy_data address)]
        /\ Gateway.body (last sent (Gateway.mkHttpRequest "" "" [] None))
           = Some (VObj [("address", VStr address); ("visible", VBool true)])
        /\ String.prefix "MCP error -32603: TronGrid API call failed: " error = true
        /\ (forall fallbackResult,
              legacy = Returns fallbackResult ->
              fst (Gateway.getTrongridAccount net address) = Returns fallbackResult)
        /\ (forall fallbackError,
              legacy = Throws fallbackError ->
              fst (Gateway.getTrongridAccount net address)
              = Throws ("MCP error -32603: TronGrid account request failed: "
                        ++ error))).
Proof.
  intros v1 legacy sent. subst v1 legacy sent. unfold Gateway.getTrongridAccount.
  split.
  - intros result ->. reflexivity.
  - intros error H. rewrite H.
    assert (P : String.prefix "MCP error -32603: TronGrid API call failed: " error = true).
    { destruct (gateway_failure_prefix net _ _ _ _ H) as [cause ->].
      apply prefix_append. eexists. reflexivity. }
    destruct (Gateway.trongridApiCall net Gateway.LEGACY_ROUTE "POST" _)
      as [fallbackResult|fallbackError];
      (split; [reflexivity|]); (split; [reflexivity|]); (split; [exact P|]);
      (split; [intros r E | intros m E]); try discriminate E;
      injection E as <-; reflexivity.
Qed.

Lemma account_lookup_reports_first_failure_witness :
  Gateway.getTrongridAccount
    (Sample3.legacy_only (Throws "socket hang up")) NEW_ADDRESS
  = (Throws ("MCP error -32603: TronGrid account request failed: "
             ++ "MCP error -32603: TronGrid API call failed: "
             ++ "TronGrid API error: 404 Not Found"),
     [Gateway.mkHttpRequest
        ("https://api.trongrid.io/v1/accounts/" ++ NEW_ADDRESS) "GET"
        [("Content-Type", "application/json")] None;
      Gateway.mkHttpRequest "https://api.trongrid.io/wallet/getaccount" "POST"
        [("Content-Type", "application/json")]
        (Some (VObj [("address", VStr NEW_ADDRESS); ("visible", VBool true)]))]).
Proof.
  pose proof (account_lookup_reports_first_failure
                (Sample3.legacy_only (Throws "socket hang up")) NEW_ADDRESS) as H.
  cbv zeta in H. destruct H as [_ H].
  specialize (H _ eq_refl). destruct H as (S & _ & _ & _ & F).
  specialize (F _ eq_refl).
  apply injective_projections; [exact F | exact S].
Defined.

(** ** The energy estimator *)

(** X22. When [EnergyEstimator.estimateContractEnergy] returns, its
    [recommended] entry is the estimate of [triggerConstantContract] if
    that method answered, else the estimate of [estimateEnergy] if that
    one answered, else the fallback entry; the RPC and the historical
    estimates are never recommended.  The fallback entry is always among
    the estimations, tagged accuracy [low], so a recommendation is never
    missing. *)
Theorem recommended_estimate_priority
    (n : EnergyEstimator.Node) (contractAddress functionName : string)
    (parameters : list value) (callerAddress : value)
    (result : value) (calls : list EnergyEstimator.NodeCall) :
  EnergyEstimator.estimateContractEnergy n contractAddress functionName parameters
    callerAddress = (Returns result, calls) ->
  let fallback :=
    EnergyEstimator.estimation
      (VNum (EnergyEstimator.getFallbackEnergyEstimate functionName parameters
               (VStr contractAddress))) "fallback" "low" in
  lookup "fallback" (own_props (lookup "estimations" (own_props result))) = fallback
  /\ lookup "recommended" (own_props result)
     = match EnergyEstimator.triggerConstantContract n with
       | Some energy => EnergyEstimator.estimation energy "triggerConstantContract" "high"
       | None =>
           match EnergyEstimator.estimateEnergy n with
           | Some energy =>
               EnergyEstimator.estimation energy "estimateEnergy"
                 (if ((contractAddress =? USDT_CONTRACT)
                      && (functionName =? "transfer"))%string
                  then "high" else "medium")
           | None => fallback
           end
       end
  /\ truthy (lookup "recommended" (own_props result)) = true.
Proof.
  unfold EnergyEstimator.estimateContractEnergy.
  destruct (EnergyEstimator.isAddress n contractAddress); cbn [negb]; [|discriminate].
  destruct (truthy (js_or callerAddress (EnergyEstimator.defaultAddress n)));
    cbn [negb]; [|discriminate].
  destruct (EnergyEstimator.getContractInstance n) as [[contract|m] c1]; [|discriminate].
  destruct (EnergyEstimator.buildContractTransaction n contract functionName)
    as [[tx|m] c2]; [|discriminate].
  intros [= <- <-]. unfold EnergyEstimator.performEnergyEstimation.
  destruct (EnergyEstimator.triggerConstantContract n),
           (EnergyEstimator.estimateEnergy n),
           (EnergyEstimator.rpcCall n),
           (EnergyEstimator.historical n); cbn; repeat split.
Qed.

Lemma recommended_estimate_priority_witness :
  exists result,
    fst (EnergyEstimator.estimateContractEnergy Sample4.partly_live_node USDT_CONTRACT
           "transfer" [VStr NEW_ADDRESS; VNum 5] VUndefined) = Returns result
    /\ lookup "recommended" (own_props result)
       = EnergyEstimator.estimation (VNum 64285) "estimateEnergy" "high".
Proof.
  eexists. split; [reflexivity|].
  exact (proj1 (proj2 (recommended_estimate_priority Sample4.partly_live_node
                         USDT_CONTRACT "transfer" [VStr NEW_ADDRESS; VNum 5] VUndefined
                         _ _ eq_refl))).
Defined.



(** ** The contract cache *)

Lemma cache_get_set (address : string) (contract : value) (cache : EstimatorState.Cache) :
  EstimatorState.cache_get address (EstimatorState.cache_set address contract cache)
  = Some contract.
Proof.
  induction cache as [|[a c] cache IH]; cbn.
  - now rewrite String.eqb_refl.
  - destruct (a =? address)%string eqn:E; cbn; rewrite E; [reflexivity | exact IH].
Qed.

Lemma cache_get_set_other (address other : string) (contract : value)
    (cache : EstimatorState.Cache) :
  other <> address ->
  EstimatorState.cache_get other (EstimatorState.cache_set address contract cache)
  = EstimatorState.cache_get other cache.
Proof.
  intros N. induction cache as [|[a c] cache IH]; cbn.
  - destruct (String.eqb_spec address other); [congruence | reflexivity].
  - destruct (String.eqb_spec a address) as [->|Na]; cbn.
    + destruct (String.eqb_spec address other); [congruence | reflexivity].
    + destruct (String.eqb_spec a other); [reflexivity | exact IH].
Qed.

(** X24. A cached contract instance is reused.  After a successful
    [getContractInstance], a later call for the same address, made once
    the first has finished and with no [clearCache] in between, returns
    the same instance without any node request and leaves the cache as it
    is, however the node would answer now; the cached entries of other
    addresses are untouched.  A failed request caches nothing.
    [clearCache] empties the cache even when it fails, so that the next
    call asks the node again. *)
Theorem cached_contract_instance_is_reused
    (contract_at : string -> outcome value) (address : string)
    (cache : EstimatorState.Cache) :
  let first := EstimatorState.getContractInstance contract_at address cache in
  (forall contract,
     fst (fst first) = Returns contract ->
     (forall later_at,
        EstimatorState.getContractInstance later_at address (snd first)
        = (Returns contract, [], snd first))
     /\ (forall other, other <> address ->
         EstimatorState.cache_get other (snd first)
         = EstimatorState.cache_get other cache))
  /\ (forall message, fst (fst first) = Throws message -> snd first = cache)
  /\ (forall files later_at,
        snd (fst (EstimatorState.getContractInstance later_at address
                    (snd (EstimatorState.clearCache files (snd first)))))
        = [EnergyEstimator.ContractAt]).
Proof.
  unfold EstimatorState.getContractInstance.
  destruct (EstimatorState.cache_get address cache) as [cached|] eqn:G.
  - cbn. split; [|split; [discriminate|]].
    + intros contract [= <-]. split.
      * intros later_at. now rewrite G.
      * reflexivity.
    + intros files later_at. destruct (later_at address); reflexivity.
  - destruct (contract_at address) as [fetched|m]; cbn.
    + split; [|split; [discriminate|]].
      * intros contract [= <-]. split.
        -- intros later_at. now rewrite cache_get_set.
        -- intros other N. now apply cache_get_set_other.
      * intros files later_at. destruct (later_at address); reflexivity.
    + split; [discriminate|]. split; [reflexivity|].
      intros files later_at. destruct (later_at address); reflexivity.
Qed.

(** ** Batches *)

Lemma readable_entry {S : Type}
    (estimate : EstimatorState.ContractCall -> S -> outcome value * S)
    (call : value) (st : S) :
  EstimatorState.readable call ->
  exists arguments,
    EstimatorState.passed_on call = Returns arguments
    /\ EstimatorState.estimate_entry estimate call st
       = (match fst (estimate arguments st) with
          | Returns result => Returns result
          | Throws message =>
              Returns (VObj [("contractAddress",
                              EstimatorState.contractAddress arguments);
                             ("functionName",
                              EstimatorState.functionName arguments);
                             ("error", VStr message)])
          end, snd (estimate arguments st)).
Proof.
  intros [N1 N2]. unfold EstimatorState.estimate_entry, EstimatorState.passed_on,
    EstimatorState.failure_entry.
  destruct call; try congruence; cbn; eexists; (split; [reflexivity|]);
    match goal with
    | |- context [estimate ?a st] => destruct (estimate a st) as [[r|m] st']
    end; reflexivity.
Qed.

Lemma unreadable_entry {S : Type}
    (estimate : EstimatorState.ContractCall -> S -> outcome value * S)
    (call : value) (st : S) :
  call = VNull \/ call = VUndefined ->
  exists message,
    EstimatorState.estimate_entry estimate call st = (Throws message, st)
    /\ contains message "contractAddress".
Proof.
  intros [-> | ->]; cbn; eexists;
    (split; [reflexivity | apply includes_contains; reflexivity]).
Qed.

Lemma readable_or_not (call : value) :
  EstimatorState.readable call \/ (call = VNull \/ call = VUndefined).
Proof.
  destruct call; try (left; split; discriminate); right; [right | left]; reflexivity.
Qed.

(** X25. [batchEstimateEnergy] on an array of entries none of which is
    [null] or [undefined] answers every call, in order: the list of
    results is as long as the list of calls, and a call whose estimation
    throws contributes an entry with its contract address, its function
    name and the error message, after which the remaining calls are still
    estimated.  An entry that is [null] or [undefined] ends the batch:
    reading it throws in the [try] and again in the [catch], so the batch
    fails with that [TypeError] and answers no call at all, and the tool
    raises.  A value that cannot be iterated fails the batch as well. *)
Theorem batch_answers_every_call
    {S : Type} (estimate : EstimatorState.ContractCall -> S -> outcome value * S)
    (calls : list value) (st : S) :
  (Forall EstimatorState.readable calls ->
   exists results,
     fst (EstimatorState.batchEstimateEnergy estimate (VArr calls) st) = Returns results
     /\ List.length results = List.length calls
     /\ Forall2
          (fun call entry =>
             exists arguments before,
               EstimatorState.passed_on call = Returns arguments
               /\ match fst (estimate arguments before) with
                  | Returns result => entry = result
                  | Throws message =>
                      lookup "error" (own_props entry) = VStr message
                      /\ lookup "contractAddress" (own_props entry)
                         = EstimatorState.contractAddress arguments
                      /\ lookup "functionName" (own_props entry)
                         = EstimatorState.functionName arguments
                  end)
          calls results)
  /\ (Exists (fun call => call = VNull \/ call = VUndefined) calls ->
      exists message,
        fst (EstimatorState.batchEstimateEnergy estimate (VArr calls) st)
        = Throws message
        /\ contains message "contractAddress"
        /\ fst (EstimatorState.batch_tool (Some estimate) (VArr calls) st)
           = Throws ("MCP error -32603: Failed to batch estimate energy: " ++ message))
  /\ (forall contractCalls,
        (forall items, contractCalls <> VArr items) ->
        (forall text, contractCalls <> VStr text) ->
        EstimatorState.batchEstimateEnergy estimate contractCalls st
        = (Throws "contractCalls is not iterable", st)).
Proof.
  unfold EstimatorState.batch_tool, EstimatorState.batchEstimateEnergy.
  cbn [EstimatorState.iterate]. split; [|split].
  - revert st. induction calls as [|call rest IH]; intros st R.
    + exists []. repeat split. constructor.
    + inversion R as [|? ? Rc Rr]; subst.
      destruct (readable_entry estimate call st Rc) as (arguments & P & E).
      cbn [EstimatorState.estimate_entries]. rewrite E.
      destruct (IH (snd (estimate arguments st)) Rr) as (results & H1 & H2 & H3).
      destruct (EstimatorState.estimate_entries estimate rest
                  (snd (estimate arguments st))) as [rs st''].
      cbn [fst] in H1. subst rs.
      destruct (fst (estimate arguments st)) as [result|message] eqn:F.
      * exists (result :: results). split; [reflexivity|].
        split; [cbn; now rewrite H2|].
        constructor; [|exact H3]. exists arguments, st. split; [exact P|].
        now rewrite F.
      * eexists. split; [reflexivity|]. split; [cbn; now rewrite H2|].
        constructor; [|exact H3]. exists arguments, st. split; [exact P|].
        rewrite F. repeat split.
  - intros X.
    assert (L : exists message,
               fst (EstimatorState.estimate_entries estimate calls st) = Throws message
               /\ contains message "contractAddress").
    { revert st. induction X as [call rest U | call rest X IH]; intros st.
      - destruct (unreadable_entry estimate call st U) as (message & E & C).
        exists message. cbn [EstimatorState.estimate_entries]. rewrite E.
        split; [reflexivity | exact C].
      - cbn [EstimatorState.estimate_entries].
        destruct (readable_or_not call) as [R|U].
        + destruct (readable_entry estimate call st R) as (arguments & _ & E).
          rewrite E. destruct (IH (snd (estimate arguments st))) as (message & F & C).
          destruct (EstimatorState.estimate_entries estimate rest
                      (snd (estimate arguments st))) as [rs st''].
          cbn [fst] in F. subst rs. exists message.
          destruct (fst (estimate arguments st)); (split; [reflexivity | exact C]).
        + destruct (unreadable_entry estimate call st U) as (message & E & C).
          exists message. rewrite E. split; [reflexivity | exact C]. }
    destruct L as (message & E & C). exists message.
    destruct (EstimatorState.estimate_entries estimate calls st) as [r st'].
    cbn [fst] in E. subst r. repeat split. exact C.
  - intros contractCalls N1 N2. destruct contractCalls; try reflexivity.
    + now elim (N2 s).
    + now elim (N1 items).
Qed.

(** ** The two heuristics *)

(** The remaining substring groups, on which the two heuristics agree. *)
Ltac patterns :=
  repeat match goal with
         | |- context [if ?b then _ else _] => destruct b
         end;
  reflexivity.

(** X26. The estimator's heuristic and the server's heuristic give the
    same estimate except in two cases: a USDT [transfer] to the known new
    address (28000 on the server, 13940 in the estimator), and, outside
    the USDT table, a function whose name contains "transfer" or "send"
    called with more than two parameters (14010 on the server, 31990 in
    the estimator). *)
Theorem heuristics_agree_except_in_two_cases
    (fn : string) (ps : list value) (ca to : value) :
  let f := toLowerCase fn in
  let new_recipient := ca = VStr USDT_CONTRACT /\ f = "transfer" /\ to = VStr NEW_ADDRESS in
  let long_transfer :=
    ~ (ca = VStr USDT_CONTRACT
       /\ In f ["transfer"; "approve"; "transferfrom"; "balanceof"])
    /\ includes f "transfer" || includes f "send" = true
    /\ (2 < List.length ps)%nat in
  (new_recipient ->
   getFallbackEnergyEstimate fn ps ca to = 28000
   /\ EnergyEstimator.getFallbackEnergyEstimate fn ps ca = 13940)
  /\ (long_transfer ->
      getFallbackEnergyEstimate fn ps ca to = 14010
      /\ EnergyEstimator.getFallbackEnergyEstimate fn ps ca = 31990)
  /\ (~ new_recipient -> ~ long_transfer ->
      getFallbackEnergyEstimate fn ps ca to
      = EnergyEstimator.getFallbackEnergyEstimate fn ps ca).
Proof.
  intros f new_recipient long_transfer. subst new_recipient long_transfer.
  unfold getFallbackEnergyEstimate, EnergyEstimator.getFallbackEnergyEstimate,
    usdt_table, usdt_transfer, pattern_table, default_estimate.
  fold f. split; [|split].
  - intros (-> & -> & ->). split; reflexivity.
  - intros (N & P & L). apply Nat.ltb_lt in L.
    destruct (strict_eq_str ca USDT_CONTRACT) eqn:Eca.
    + apply strict_eq_str_true in Eca.
      destruct (String.eqb_spec f "transfer") as [E|_];
        [exfalso; apply N; rewrite E; cbn; tauto|].
      destruct (String.eqb_spec f "approve") as [E|_];
        [exfalso; apply N; rewrite E; cbn; tauto|].
      destruct (String.eqb_spec f "transferfrom") as [E|_];
        [exfalso; apply N; rewrite E; cbn; tauto|].
      destruct (String.eqb_spec f "balanceof") as [E|_];
        [exfalso; apply N; rewrite E; cbn; tauto|].
      rewrite P, L. split; reflexivity.
    + rewrite P, L. split; reflexivity.
  - intros NA NB.
    assert (T : forall x y : Z, (if truthy to then
                                   if strict_eq_str to NEW_ADDRESS then x
                                   else if strict_eq_str to EXISTING_ADDRESS then y else y
                                 else y) = (if strict_eq_str to NEW_ADDRESS then x else y)).
    { intros x y. destruct (strict_eq_str to NEW_ADDRESS) eqn:E1.
      - apply strict_eq_str_true in E1. subst to. reflexivity.
      - destruct (truthy to), (strict_eq_str to EXISTING_ADDRESS); reflexivity. }
    destruct (strict_eq_str ca USDT_CONTRACT) eqn:Eca.
    + apply strict_eq_str_true in Eca.
      destruct (String.eqb_spec f "transfer") as [E|N1].
      * rewrite T. destruct (strict_eq_str to NEW_ADDRESS) eqn:Eto; [|reflexivity].
        apply strict_eq_str_true in Eto. exfalso. apply NA. auto.
      * destruct (String.eqb_spec f "approve") as [E|N2]; [reflexivity|].
        destruct (String.eqb_spec f "transferfrom") as [E|N3]; [reflexivity|].
        destruct (String.eqb_spec f "balanceof") as [E|N4]; [reflexivity|].
        destruct (includes f "transfer" || includes f "send") eqn:P; [|patterns].
        destruct (2 <? List.length ps)%nat eqn:L; [|reflexivity].
        exfalso. apply NB. split; [|split; [reflexivity | now apply Nat.ltb_lt]].
        intros [_ I]. cbn in I. intuition congruence.
    + destruct (includes f "transfer" || includes f "send") eqn:P; [|patterns].
      destruct (2 <? List.length ps)%nat eqn:L; [|reflexivity].
      exfalso. apply NB. split; [|split; [reflexivity | now apply Nat.ltb_lt]].
      intros [C _]. apply strict_eq_str_true in C. congruence.
Qed.

(** ** Historical usage *)

Lemma total_from (energies : list Z) (start : Z) :
  fold_left Z.add energies start = start + EstimatorState.total energies.
Proof.
  unfold EstimatorState.total. revert start.
  induction energies as [|e energies IH]; intros start; cbn; [lia|].
  rewrite (IH (start + e)), (IH e). lia.
Qed.

Lemma total_bounds (energies : list Z) (lo hi : Z) :
  Forall (fun e => lo <= e <= hi) energies ->
  Z.of_nat (List.length energies) * lo <= EstimatorState.total energies
  <= Z.of_nat (List.length energies) * hi.
Proof.
  induction 1 as [|e energies He _ IH].
  - cbn. lia.
  - unfold EstimatorState.total in *. cbn [fold_left List.length].
    rewrite total_from. unfold EstimatorState.total. nia.
Qed.

(** X27. The historical estimate is an average of the samples that count
    (those with a positive energy): it lies between the smallest and the
    largest of them, its sample size is their number, and without any
    such sample there is no historical estimate. *)
Theorem historical_average_is_within_the_samples
    (energy_used : list Z) (lo hi : Z) :
  EstimatorState.total (filter EstimatorState.usable energy_used) < 2 ^ 52 ->
  Forall (fun e => EstimatorState.usable e = true -> lo <= e <= hi) energy_used ->
  match EstimatorState.historical_average energy_used with
  | Some (averageEnergy, sampleSize) =>
      lo <= averageEnergy <= hi
      /\ sampleSize = Z.of_nat (List.length (filter EstimatorState.usable energy_used))
      /\ 0 < sampleSize
  | None => Forall (fun e => e <= 0) energy_used
  end.
Proof.
  intros _ H. unfold EstimatorState.historical_average.
  assert (B : Forall (fun e => lo <= e <= hi) (filter EstimatorState.usable energy_used)).
  { rewrite Forall_forall in *. intros e I. apply filter_In in I as [I U]. auto. }
  destruct (filter EstimatorState.usable energy_used) as [|e rest] eqn:F.
  - rewrite Forall_forall. intros e I.
    destruct (EstimatorState.usable e) eqn:U.
    + assert (I' : In e (filter EstimatorState.usable energy_used))
        by (apply filter_In; split; assumption).
      rewrite F in I'. destruct I'.
    + unfold EstimatorState.usable in U.
      destruct (Z.eqb_spec e 0); [lia|]. cbn in U. apply Z.ltb_ge in U. exact U.
  - apply total_bounds in B.
    set (count := Z.of_nat (List.length (e :: rest))) in *.
    assert (P : 0 < count) by (subst count; cbn [List.length]; lia).
    split; [|split; [reflexivity | exact P]].
    unfold EstimatorState.round_div. split.
    + apply Z.div_le_lower_bound; nia.
    + apply Z.lt_succ_r. apply Z.div_lt_upper_bound; nia.
Qed.

Lemma historical_average_is_within_the_samples_witness :
  match EstimatorState.historical_average [64285; 0; 130285; 64286] with
  | Some (averageEnergy, sampleSize) =>
      64285 <= averageEnergy <= 130285
      /\ sampleSize
         = Z.of_nat (List.length (filter EstimatorState.usable
                                    [64285; 0; 130285; 64286]))
      /\ 0 < sampleSize
  | None => Forall (fun e => e <= 0) [64285; 0; 130285; 64286]
  end.
Proof.
  apply historical_average_is_within_the_samples.
  - reflexivity.
  - repeat (apply Forall_cons; [intros U; first [discriminate U | lia]|]).
    apply Forall_nil.
Defined.

(** ** The blockchain module *)

Lemma slice0_split {A : Type} (items : list A) (finish : Blockchain.numeric) :
  exists hidden,
    items = (Blockchain.slice0 items finish ++ hidden)%list
    /\ Z.of_nat (List.length hidden)
       = Z.of_nat (List.length items)
         - Z.of_nat (List.length (Blockchain.slice0 items finish)).
Proof.
  unfold Blockchain.slice0.
  match goal with |- context [firstn ?k items] => set (n := k) end.
  exists (skipn n items). split; [symmetry; apply firstn_skipn|].
  rewrite length_skipn, length_firstn. lia.
Qed.

Lemma slice0_finite {A : Type} (items : list A) (q : Q) :
  Z.of_nat (List.length (Blockchain.slice0 items (Blockchain.Finite q)))
  = if Blockchain.truncate q <? 0
    then Z.max (Z.of_nat (List.length items) + Blockchain.truncate q) 0
    else Z.min (Blockchain.truncate q) (Z.of_nat (List.length items)).
Proof.
  unfold Blockchain.slice0. rewrite length_firstn.
  destruct (Z.ltb_spec (Blockchain.truncate q) 0); lia.
Qed.

Lemma truncate_nonneg (q : Q) : (0 <= q)%Q -> 0 <= Blockchain.truncate q.
Proof.
  unfold Qle, Blockchain.truncate. cbn. intros H.
  apply Z.quot_pos; lia.
Qed.

Lemma exceeds_truncate (q : Q) (count : Z) :
  (0 <= q)%Q ->
  Blockchain.exceeds count (Blockchain.Finite q) = true
  <-> Blockchain.truncate q < count.
Proof.
  unfold Qle, Blockchain.exceeds, Blockchain.truncate, Qle_bool. cbn. intros H.
  rewrite Z.quot_div_nonneg by lia.
  rewrite negb_true_iff, Z.leb_gt.
  pose proof (Z.mul_div_le (Qnum q) (Z.pos (Qden q)) ltac:(lia)).
  pose proof (Z.mul_succ_div_gt (Qnum q) (Z.pos (Qden q)) ltac:(lia)).
  split; intros L; nia.
Qed.

Lemma exceeds_limit_bytes (bytes : Z) :
  (25000 <? Blockchain.ceil_quarter bytes) = true <-> 100000 < bytes.
Proof.
  unfold Blockchain.ceil_quarter. rewrite Z.ltb_lt.
  split; intros H; Z.to_euclidean_division_equations; lia.
Qed.

(** X28. The transactions window of [processBlockData].  The answer always
    states the number of transactions of the block.  With
    [includeTransactions] and a block that has transactions, the
    transactions listed are a prefix of the block's.  The limit is a
    number: the window holds as many transactions as the limit truncated
    to an integer allows, while [included] states min(limit, count) with
    the limit as it was given.  So for a limit that is not negative,
    [limited] is true exactly when some transaction was left out, and
    [included] is the number listed when the limit is a whole number,
    but not in general (a limit of 2.5 on three transactions lists two
    and states 2.5); for a negative limit the last transactions are
    dropped.  Otherwise the answer lists no transaction.  [exceeds_limit]
    is true exactly when the block is larger than 100000 bytes. *)
Theorem transactions_window
    (e : Blockchain.Env) (block : Blockchain.Block) (o : Blockchain.Options)
    (source : string) (result : Blockchain.Summary) :
  Blockchain.processBlockData e (Blockchain.Present block) o source = Returns result ->
  let count :=
    match Blockchain.transactions block with
    | Some txs => Z.of_nat (List.length txs)
    | None => 0
    end in
  let limit := Blockchain.transactionLimit o in
  lookup "transaction_count" (Blockchain.fields result) = VNum count
  /\ (Blockchain.includeTransactions o = true -> 0 < count ->
      exists shown hidden,
        Blockchain.transactions block = Some (shown ++ hidden)%list
        /\ Blockchain.window result
           = Some (Blockchain.mkWindow shown (Blockchain.min_with limit count) count
                     (Blockchain.exceeds count limit))
        /\ (forall q, limit = Blockchain.Finite q -> (0 <= q)%Q ->
            Z.of_nat (List.length shown) = Z.min (Blockchain.truncate q) count
            /\ (Blockchain.exceeds count limit = true <-> hidden <> []))
        /\ (forall n : Z, limit = Blockchain.Finite (inject_Z n) -> 0 <= n ->
            Blockchain.min_with limit count
            = Blockchain.Finite (inject_Z (Z.of_nat (List.length shown))))
        /\ (forall q, limit = Blockchain.Finite q -> Blockchain.truncate q < 0 ->
            Z.of_nat (List.length shown) = Z.max (count + Blockchain.truncate q) 0))
  /\ (Blockchain.includeTransactions o = false \/ count = 0 ->
      Blockchain.window result = None)
  /\ (lookup "exceeds_limit"
        (own_props (lookup "size_info" (Blockchain.fields result))) = VBool true
      <-> 100000 < Blockchain.byteLength e block).
Proof.
  intros H count limit. subst count limit.
  unfold Blockchain.processBlockData in H.
  pose proof (exceeds_limit_bytes (Blockchain.byteLength e block)) as X.
  set (over := 25000 <? Blockchain.ceil_quarter (Blockchain.byteLength e block)) in *.
  assert (XB : VBool over = VBool true <-> 100000 < Blockchain.byteLength e block).
  { rewrite <- X. split; [now intros [= ->] | now intros ->]. }
  clearbody over. clear X.
  destruct (Blockchain.transactions block) as [[|tx txs]|] eqn:T.
  - destruct (Blockchain.saveToFile o);
      [destruct (Blockchain.saveBlockToFile e block _); [|discriminate H]|];
      destruct (Blockchain.summary o); injection H as <-;
      (split; [reflexivity|]); (split; [intros _ P; cbn in P; lia|]);
      (split; [intros _; reflexivity | exact XB]).
  - set (limit := Blockchain.transactionLimit o) in *.
    destruct (slice0_split (tx :: txs) limit) as (hidden & E & K).
    pose proof (fun q => slice0_finite (tx :: txs) q) as F.
    set (count := Z.of_nat (List.length (tx :: txs))) in *.
    assert (P : 0 < count) by (subst count; cbn [List.length]; lia).
    assert (W : forall shown,
               shown = Blockchain.slice0 (tx :: txs) limit ->
               (forall q, limit = Blockchain.Finite q -> (0 <= q)%Q ->
                Z.of_nat (List.length shown) = Z.min (Blockchain.truncate q) count
                /\ (Blockchain.exceeds count limit = true <-> hidden <> []))
               /\ (forall n : Z, limit = Blockchain.Finite (inject_Z n) -> 0 <= n ->
                   Blockchain.min_with limit count
                   = Blockchain.Finite (inject_Z (Z.of_nat (List.length shown))))
               /\ (forall q, limit = Blockchain.Finite q ->
                   Blockchain.truncate q < 0 ->
                   Z.of_nat (List.length shown)
                   = Z.max (count + Blockchain.truncate q) 0)).
    { intros shown ->. split; [|split].
      - intros q L Q. rewrite L in *. rewrite F in *.
        pose proof (truncate_nonneg q Q) as N.
        destruct (Z.ltb_spec (Blockchain.truncate q) 0); [lia|].
        split; [reflexivity|]. rewrite (exceeds_truncate q count Q).
        split.
        + intros Lt Eh. rewrite Eh in K. cbn [List.length] in K. lia.
        + intros Nh. destruct hidden; [congruence|]. cbn [List.length] in K. lia.
      - intros n L N. rewrite L in *. rewrite F.
        assert (Tn : Blockchain.truncate (inject_Z n) = n)
          by (unfold Blockchain.truncate; cbn; apply Z.quot_1_r).
        rewrite Tn. destruct (Z.ltb_spec n 0); [lia|].
        unfold Blockchain.min_with, Qle_bool. cbn [Qnum Qden inject_Z].
        destruct (Z.leb_spec (n * 1) (count * 1)); f_equal; f_equal; lia.
      - intros q L N. rewrite L in *. rewrite F.
        destruct (Z.ltb_spec (Blockchain.truncate q) 0); [reflexivity | lia]. }
    clearbody count.
    destruct (Blockchain.includeTransactions o) eqn:I.
    + (destruct (Blockchain.saveToFile o);
       [destruct (Blockchain.saveBlockToFile e block _); [|discriminate H]|]);
        destruct (Blockchain.summary o); injection H as <-;
        (split; [reflexivity|]);
        (split;
         [ intros _ _; exists (Blockchain.slice0 (tx :: txs) limit), hidden;
           split; [now rewrite E at 1|]; split; [reflexivity|];
           exact (W _ eq_refl)
         |]);
        (split; [intros [D|D]; [discriminate D | lia] | exact XB]).
    + (destruct (Blockchain.saveToFile o);
       [destruct (Blockchain.saveBlockToFile e block _); [|discriminate H]|]);
        destruct (Blockchain.summary o); injection H as <-;
        (split; [reflexivity|]);
        (split; [intros I'; discriminate I'|]);
        (split; [intros _; reflexivity | exact XB]).
  - destruct (Blockchain.saveToFile o);
      [destruct (Blockchain.saveBlockToFile e block _); [|discriminate H]|];
      destruct (Blockchain.summary o); injection H as <-;
      (split; [reflexivity|]); (split; [intros _ P; lia|]);
      (split; [intros _; reflexivity | exact XB]).
Qed.

Lemma transactions_window_witness :
  exists result,
    Blockchain.processBlockData Sample5.gateway_env
      (Blockchain.Present Sample5.busy_block) Sample5.two_and_a_half "trongrid_api"
    = Returns result
    /\ lookup "transaction_count" (Blockchain.fields result) = VNum 3
    /\ Blockchain.window result
       = Some (Blockchain.mkWindow
                 [VObj [("txID", VStr "a1")]; VObj [("txID", VStr "b2")]]
                 (Blockchain.Finite (5 # 2)) 3 true).
Proof.
  eexists. split; [reflexivity|].
  split.
  - exact (proj1 (transactions_window Sample5.gateway_env Sample5.busy_block
                    Sample5.two_and_a_half "trongrid_api" _ eq_refl)).
  - reflexivity.
Defined.



(** X30. [getCurrentBlockNumber] and its answers.  The node's answer is
    tagged [tronweb] and its number is not checked; an answer of the
    gateway or of the explorer always carries a usable number (never 0 or
    a missing one) and the tag of the backend.  When all three backends
    failed, the error reports the gateway's failure alone. *)
Theorem current_block_number_answers (e : Blockchain.Env) :
  (forall answer,
     fst (Blockchain.getCurrentBlockNumber e) = Returns answer ->
     match snd (Blockchain.getCurrentBlockNumber e) with
     | [TronWeb] =>
         Blockchain.number_from_node e = Returns answer
         /\ lookup "source" answer = VStr "tronweb"
     | [TronWeb; TronGrid] =>
         lookup "source" answer = VStr "trongrid_api"
         /\ truthy (lookup "current_block_number" answer) = true
     | [TronWeb; TronGrid; TronScan] =>
         lookup "source" answer = VStr "tronscan_api"
         /\ truthy (lookup "current_block_number" answer) = true
     | _ => False
     end)
  /\ (forall message,
        fst (Blockchain.getCurrentBlockNumber e) = Throws message ->
        snd (Blockchain.getCurrentBlockNumber e) = [TronWeb; TronGrid; TronScan]
        /\ exists error,
             Blockchain.number_from_gateway e = Throws error
             /\ message
                = McpError ("Failed to get current block number from all sources: "
                            ++ error))
  /\ (forall block header raw_data,
        Blockchain.trx_getCurrentBlock e = Returns (Blockchain.Present block) ->
        Blockchain.block_header block = VObj header ->
        lookup "raw_data" header = VObj raw_data ->
        Blockchain.getCurrentBlockNumber e
        = (Returns (Blockchain.number_answer e (lookup "number" raw_data) "tronweb"),
           [TronWeb])).
Proof.
  unfold Blockchain.getCurrentBlockNumber. split; [|split].
  - intros answer.
    destruct (Blockchain.number_from_node e) as [a|nodeError] eqn:N.
    + cbn. intros [= <-]. split; [reflexivity|].
      unfold Blockchain.number_from_node in N.
      destruct (Blockchain.trx_getCurrentBlock e) as [d|]; [|discriminate N].
      cbn [and_then] in N.
      destruct (Blockchain.field d "block_header" Blockchain.block_header)
        as [header|]; [|discriminate N].
      cbn [and_then] in N.
      destruct (prop header "raw_data") as [raw|]; [|discriminate N].
      cbn [and_then] in N. destruct (prop raw "number"); [|discriminate N].
      injection N as <-. reflexivity.
    + destruct (Blockchain.number_from_gateway e) as [a|error] eqn:G.
      * cbn. intros [= <-]. unfold Blockchain.number_from_gateway in G.
        destruct (Blockchain.fetch_block e _) as [d|]; [|discriminate G].
        cbn [and_then] in G.
        destruct (Blockchain.header_number d) as [n|]; [|discriminate G].
        cbn [and_then] in G.
        destruct (truthy n) eqn:Tr; [|discriminate G].
        injection G as <-. split; [reflexivity | exact Tr].
      * destruct (Blockchain.number_from_explorer e) as [a|scanError] eqn:X;
          [|discriminate].
        cbn. intros [= <-]. unfold Blockchain.number_from_explorer in X.
        destruct (Blockchain.tronScanAPI_getCurrentBlock e) as [d|];
          [|discriminate X].
        cbn [and_then] in X.
        destruct (Blockchain.field d "number" Blockchain.number) as [top|];
          [|discriminate X].
        cbn [and_then] in X.
        destruct (if truthy top then _ else _) as [n|]; [|discriminate X].
        cbn [and_then] in X.
        destruct (truthy n) eqn:Tr; [|discriminate X].
        injection X as <-. split; [reflexivity | exact Tr].
  - intros message.
    destruct (Blockchain.number_from_node e); [discriminate|].
    destruct (Blockchain.number_from_gateway e) as [a|error]; [discriminate|].
    destruct (Blockchain.number_from_explorer e); [discriminate|].
    cbn. intros [= <-]. split; [reflexivity|]. exists error. split; reflexivity.
  - intros block header raw_data B Hd R. unfold Blockchain.number_from_node.
    rewrite B. cbn [and_then Blockchain.field]. rewrite Hd. cbn [prop and_then].
    rewrite R. reflexivity.
Qed.
